(** * simpleubjson: the UBJSON encoder ([simpleubjson/encoder.py])

    A shallow embedding of [UBJSONEncoder]: the marker table, the range
    predicates, [struct.pack] for the formats the encoder uses, the handler
    registry built by [__init__], handler resolution ([get_handler]) and the
    encoders themselves, followed by the properties of the encoding.

    Python values are a closed inductive type carrying exactly what the
    encoder inspects.  Generators are modelled by what they do when they are
    consumed: the chunks they yield, in order, and the exception (if any)
    that ends them.  A Python float is a primitive binary64 float, read
    through the Standard Library's [Prim2SF].

    What the interpreter leaves open is fixed as follows.  A dict iterates
    in the order of insertion; where a statement depends on the order of two
    registry entries it is made for both orders.  [assert] statements are
    executed.  A lazy producer yields finitely many items.  The text of a
    float, [unicode(x)], is a parameter of the encoder. *)

From Stdlib Require Import ZArith NArith List Lia Bool.
From Stdlib Require Import Strings.Byte Strings.String Strings.Ascii.
From Stdlib Require Import Numbers.DecimalString Numbers.DecimalZ.
From Stdlib Require Import Floats.
Import ListNotations.

#[local] Set Warnings "-inexact-float,-register-all".
#[local] Open Scope Z_scope.

(** ** Byte strings *)

Definition bytes := list byte.

Definition byte_of_Z (z : Z) : byte :=
  match Byte.of_N (Z.to_N (z mod 256)) with
  | Some b => b
  | None => x00
  end.

Definition Z_of_byte (b : byte) : Z := Z.of_N (Byte.to_N b).

(** [len(value)] *)
Definition len {A} (value : list A) : Z := Z.of_nat (List.length value).

(** The [width] low-order bytes of [z], most significant first: the layout
    [struct.pack] gives an integer under a [>] format.  A negative [z]
    comes out in two's complement, since [Z.shiftr] and [mod] floor. *)
Fixpoint big_endian (width : nat) (z : Z) : bytes :=
  match width with
  | O => []
  | S w => byte_of_Z (Z.shiftr z (8 * Z.of_nat w)) :: big_endian w z
  end.

(** Reading a big-endian byte string back, unsigned and two's complement. *)
Definition unsigned_of (bs : bytes) : Z :=
  fold_left (fun acc b => acc * 256 + Z_of_byte b) bs 0.

Definition signed_of (bs : bytes) : Z :=
  let u := unsigned_of bs in
  if u <? 2 ^ (8 * len bs - 1) then u else u - 2 ^ (8 * len bs).

(** ** Unicode text and UTF-8 *)

(** A [unicode] string is its sequence of code points. *)
Definition codepoint := N.

Definition utf8_encode_char (c : codepoint) : bytes :=
  let z := Z.of_N c in
  if z <? 128 then [byte_of_Z z]
  else if z <? 2048 then
    [byte_of_Z (192 + z / 64); byte_of_Z (128 + z mod 64)]
  else if z <? 65536 then
    [byte_of_Z (224 + z / 4096); byte_of_Z (128 + (z / 64) mod 64);
     byte_of_Z (128 + z mod 64)]
  else
    [byte_of_Z (240 + (z / 262144) mod 8); byte_of_Z (128 + (z / 4096) mod 64);
     byte_of_Z (128 + (z / 64) mod 64); byte_of_Z (128 + z mod 64)].

(** [value.encode('utf-8')] *)
Definition utf8_encode (value : list codepoint) : bytes :=
  flat_map utf8_encode_char value.

(** [unicode(n)] for an [int] or a [long]: the decimal numeral, with a
    leading minus sign when negative. *)
Definition unicode_of_Z (n : Z) : list codepoint :=
  map N_of_ascii (list_ascii_of_string (NilZero.string_of_int (Z.to_int n))).

(** ** Python types and values *)

(** Modelled from the spec: [simpleubjson.compat], from which the encoder
    imports [basestring], [unicode], [long], [XRangeType] and the three dict
    iterator types, is not among the sources.  The encoder's docstring maps
    [str] and [unicode], [int] and [long], [xrange] and [dict.iteritems()], so
    these are taken as the distinct types of Python 2.  The type holds the
    registry keys under the source's names, [object], [str] and [unicode],
    and user-defined classes, identified by name. *)
Inductive pytype : Type :=
| t_object
| t_NoneType
| t_bool
| t_int
| t_long
| t_float
| t_basestring
| t_str
| t_unicode
| t_tuple
| t_list
| t_set
| t_frozenset
| dict_keysiterator
| dict_valuesiterator
| dict_itemsiterator
| XRangeType
| GeneratorType
| t_dict
| t_Decimal
| t_class (name : string).

Definition pytype_eq_dec (a b : pytype) : {a = b} + {a <> b}.
Proof. decide equality. apply string_dec. Defined.

Definition pytype_eqb (a b : pytype) : bool :=
  if pytype_eq_dec a b then true else false.

Inductive seq_kind : Type := k_tuple | k_list | k_set | k_frozenset.

Inductive iter_kind : Type :=
| k_keysiterator
| k_valuesiterator
| k_xrange
| k_generator.

(** A byte string ([str]) or a text string ([unicode]). *)
Inductive basestring : Type :=
| Str (s : bytes)
| Unicode (s : list codepoint).

(** Values.  A set is given by its elements in iteration order, a dict by
    its [items()] in iteration order, and a lazy producer by the finite
    sequence of items it yields.  [PyObject cls bases id] is an instance of
    the user-defined class [cls], whose user-defined ancestors are [bases]
    (nearest first); such classes derive from [object] only.

    Modelled from the spec: [simpleubjson.NOOP] is defined outside the
    sources.  The spec calls it a distinguished sentinel, so [NOOP] is a
    value of its own, the one instance of a class of its own. *)
Inductive value : Type :=
| NOOP
| PyNone
| PyBool (b : bool)
| PyInt (n : Z)
| PyLong (n : Z)
| PyFloat (x : float)
| PyString (s : basestring)
| PyDecimal (text : list codepoint)
| PySeq (k : seq_kind) (items : list value)
| PyIter (k : iter_kind) (items : list value)
| PyDict (items : list (value * value))
| PyItemsIter (items : list (value * value))
| PyObject (cls : string) (bases : list string) (id : N).

Definition is_NOOP (v : value) : bool :=
  match v with NOOP => true | _ => false end.

Definition seq_type (k : seq_kind) : pytype :=
  match k with
  | k_tuple => t_tuple
  | k_list => t_list
  | k_set => t_set
  | k_frozenset => t_frozenset
  end.

Definition iter_type (k : iter_kind) : pytype :=
  match k with
  | k_keysiterator => dict_keysiterator
  | k_valuesiterator => dict_valuesiterator
  | k_xrange => XRangeType
  | k_generator => GeneratorType
  end.

(** The classes of a value, most specific first (its method resolution
    order): [bool] derives from [int], [str] and [unicode] from
    [basestring], everything from [object]. *)
Definition mro (v : value) : list pytype :=
  match v with
  | NOOP => [t_class "NoopType"; t_object]
  | PyNone => [t_NoneType; t_object]
  | PyBool _ => [t_bool; t_int; t_object]
  | PyInt _ => [t_int; t_object]
  | PyLong _ => [t_long; t_object]
  | PyFloat _ => [t_float; t_object]
  | PyString (Str _) => [t_str; t_basestring; t_object]
  | PyString (Unicode _) => [t_unicode; t_basestring; t_object]
  | PyDecimal _ => [t_Decimal; t_object]
  | PySeq k _ => [seq_type k; t_object]
  | PyIter k _ => [iter_type k; t_object]
  | PyDict _ => [t_dict; t_object]
  | PyItemsIter _ => [dict_itemsiterator; t_object]
  | PyObject cls bases _ => t_class cls :: map t_class bases ++ [t_object]
  end.

(** [type(value)] *)
Definition type (v : value) : pytype := hd t_object (mro v).

(** [isinstance(value, pytype)] *)
Definition isinstance (v : value) (pytype : pytype) : bool :=
  existsb (pytype_eqb pytype) (mro v).

(** ** Exceptions and generators *)

(** An error message, with the [repr] of a value left symbolic. *)
Inductive fragment : Type :=
| Lit (s : string)
| Repr (v : value).

Inductive format : Type := fmt_b | fmt_B | fmt_h | fmt_i | fmt_I | fmt_q.

Inductive exn : Type :=
| TypeError (msg : list fragment)
| AssertionError (msg : string)
| OverflowError (msg : string)
| struct_error (fmt : format) (v : Z).

Definition chunk := bytes.

(** What consuming the iterable a handler returns does: the chunks it
    yields, then either exhaustion ([None]) or an exception. *)
Definition result : Type := list chunk * option exn.

Definition done : result := ([], None).
Definition yield (c : chunk) : result := ([c], None).
Definition raise (e : exn) : result := ([], Some e).

(** Sequencing: [r2] runs only if [r1] ends normally. *)
Definition seq (r1 r2 : result) : result :=
  match r1 with
  | (c1, None) => (c1 ++ fst r2, snd r2)
  | (c1, Some e) => (c1, Some e)
  end.

#[local] Notation "r1 ;; r2" := (seq r1 r2) (at level 61, right associativity).

(** [for x in xs: body(x)] *)
Definition for_each {A} (xs : list A) (body : A -> result) : result :=
  fold_right (fun x rest => body x ;; rest) done xs.

(** [assert cond, msg] (assertions enabled, the interpreter's default) *)
Definition assert (cond : bool) (msg : string) : result :=
  if cond then done else raise (AssertionError msg).

(** A function that builds and returns a list of chunks: nothing is
    produced if building the list raises. *)
Definition returns (r : exn + list chunk) : result :=
  match r with
  | inr chunks => (chunks, None)
  | inl e => raise e
  end.

Definition bind {A B} (m : exn + A) (k : A -> exn + B) : exn + B :=
  match m with
  | inr a => k a
  | inl e => inl e
  end.

#[local] Notation "x <- m ;;; k" := (bind m (fun x => k))
  (at level 62, m at next level, right associativity).

(** ** IEEE 754 layouts *)

Definition sign_bit (s : bool) (position : Z) : Z :=
  if s then 2 ^ position else 0.

(** The 64 bits of a double.  For a finite number [m * 2^e] in canonical
    form, adding the mantissa to the shifted exponent field covers normal
    numbers (whose leading mantissa bit carries into the field) and
    subnormal ones alike. *)
Definition binary64_bits (x : spec_float) : Z :=
  match x with
  | S754_zero s => sign_bit s 63
  | S754_infinity s => sign_bit s 63 + 2047 * 2 ^ 52
  | S754_nan => 2047 * 2 ^ 52 + 2 ^ 51
  | S754_finite s m e => sign_bit s 63 + ((e + 1074) * 2 ^ 52 + Z.pos m)
  end.

(** [m / 2^shift], rounded to nearest, ties to even. *)
Definition round_half_even (m shift : Z) : Z :=
  let q := m / 2 ^ shift in
  let r := m mod 2 ^ shift in
  let half := 2 ^ (shift - 1) in
  if r <? half then q
  else if half <? r then q + 1
  else if Z.even q then q else q + 1.

(** Exponent and mantissa fields of the single nearest to [m * 2^e] (the C
    conversion [(float)x] under the default rounding mode); a result of
    [255 * 2^23] or more means the conversion overflowed. *)
Definition binary32_magnitude (m : positive) (e : Z) : Z :=
  let e' := Z.max (Z.pos (digits2_pos m) + e - 24) (-149) in
  let q :=
    if e' <=? e then Z.pos m * 2 ^ (e - e')
    else round_half_even (Z.pos m) (e' - e) in
  (e' + 149) * 2 ^ 23 + q.

(** The 32 bits of the single a double converts to; [None] when a finite
    double is too large for a single. *)
Definition binary32_bits (x : spec_float) : option Z :=
  match x with
  | S754_zero s => Some (sign_bit s 31)
  | S754_infinity s => Some (sign_bit s 31 + 255 * 2 ^ 23)
  | S754_nan => Some (255 * 2 ^ 23 + 2 ^ 22)
  | S754_finite s m e =>
      let mag := binary32_magnitude m e in
      if mag <? 255 * 2 ^ 23 then Some (sign_bit s 31 + mag) else None
  end.


(** The same conversion to single precision through the Standard Library's
    [SpecFloat]: [binary_normalize] at precision 24 and maximal exponent
    128, its result laid out in 32 bits, an overflow to infinity being
    [None].  [binary32_bits] is compared with it on sample values below. *)
Definition SpecFloat_binary32_bits (x : spec_float) : option Z :=
  match x with
  | S754_finite s m e =>
      match binary_normalize 24 128 (cond_Zopp s (Z.pos m)) e s with
      | S754_finite s' m' e' =>
          Some (sign_bit s' 31 + ((e' + 149) * 2 ^ 23 + Z.pos m'))
      | S754_zero s' => Some (sign_bit s' 31)
      | _ => None
      end
  | _ => binary32_bits x
  end.

(** ** [struct.pack] *)

Module struct.

Definition width (fmt : format) : nat :=
  match fmt with
  | fmt_b | fmt_B => 1
  | fmt_h => 2
  | fmt_i | fmt_I => 4
  | fmt_q => 8
  end%nat.

Definition signed (fmt : format) : bool :=
  match fmt with
  | fmt_B | fmt_I => false
  | _ => true
  end.

Definition minimum (fmt : format) : Z :=
  if signed fmt then - 2 ^ (8 * Z.of_nat (width fmt) - 1) else 0.

Definition maximum (fmt : format) : Z :=
  if signed fmt then 2 ^ (8 * Z.of_nat (width fmt) - 1) - 1
  else 2 ^ (8 * Z.of_nat (width fmt)) - 1.

(** [struct.pack('>b' | '>B' | '>h' | '>i' | '>I' | '>q', v)]: a number
    outside the format's range raises [struct.error]. *)
Definition pack (fmt : format) (v : Z) : exn + bytes :=
  if (minimum fmt <=? v) && (v <=? maximum fmt)
  then inr (big_endian (width fmt) v)
  else inl (struct_error fmt v).

(** [struct.pack('>%ds' % count, s)]: exactly [count] bytes, [s] cut or
    padded with zero bytes. *)
Definition pack_s (count : Z) (s : bytes) : bytes :=
  firstn (Z.to_nat count) s ++ repeat x00 (Z.to_nat count - List.length s).

(** [struct.pack('>f', x)] *)
Definition pack_f (x : float) : exn + bytes :=
  match binary32_bits (Prim2SF x) with
  | Some bits => inr (big_endian 4 bits)
  | None => inl (OverflowError "float too large to pack with f format")
  end.

(** [struct.pack('>d', x)] *)
Definition pack_d (x : float) : exn + bytes :=
  inr (big_endian 8 (binary64_bits (Prim2SF x))).

End struct.

(** ** Range predicates and markers *)

Definition is_byte (value : Z) : bool :=
  (- 2 ^ 7 <=? value) && (value <=? 2 ^ 7 - 1).
Definition is_int16 (value : Z) : bool :=
  (- 2 ^ 15 <=? value) && (value <=? 2 ^ 15 - 1).
Definition is_int32 (value : Z) : bool :=
  (- 2 ^ 31 <=? value) && (value <=? 2 ^ 31 - 1).
Definition is_int64 (value : Z) : bool :=
  (- 2 ^ 63 <=? value) && (value <=? 2 ^ 63 - 1).
Definition is_float (value : float) : bool :=
  (1.18e-38 <=? abs value)%float && (abs value <=? 3.4e38)%float.
(** [1.8e308] reads as infinity, as the source notes. *)
Definition is_double (value : float) : bool :=
  (2.23e-308 <=? abs value)%float && (abs value <? 1.8e308)%float.
Definition is_infinity (value : float) : bool :=
  (value =? infinity)%float || (value =? neg_infinity)%float.

Definition MARKER_Z : chunk := ["Z"%byte].
Definition MARKER_N : chunk := ["N"%byte].
Definition MARKER_F : chunk := ["F"%byte].
Definition MARKER_T : chunk := ["T"%byte].
Definition MARKER_B : chunk := ["B"%byte].
Definition MARKER_i : chunk := ["i"%byte].
Definition MARKER_I : chunk := ["I"%byte].
Definition MARKER_L : chunk := ["L"%byte].
Definition MARKER_d : chunk := ["d"%byte].
Definition MARKER_D : chunk := ["D"%byte].
Definition MARKER_s : chunk := ["s"%byte].
Definition MARKER_S : chunk := ["S"%byte].
Definition MARKER_h : chunk := ["h"%byte].
Definition MARKER_H : chunk := ["H"%byte].
Definition MARKER_a : chunk := ["a"%byte].
Definition MARKER_A : chunk := ["A"%byte].
Definition MARKER_o : chunk := ["o"%byte].
Definition MARKER_O : chunk := ["O"%byte].
Definition MARKER_E : chunk := ["E"%byte].
Definition MARKER_FF : chunk := [xff].

(** ** Handlers and the registry *)

(** A handler is one of the encoder's own bound methods, or a caller's
    function bound to the encoder ([MethodType(handler, self)]), given by
    what calling it on a value and consuming the outcome does. *)
Inductive handler : Type :=
| self_encode_noop
| self_encode_none
| self_encode_bool
| self_encode_number
| self_encode_float
| self_encode_str
| self_encode_array
| self_encode_generator
| self_encode_iterated_dict
| self_encode_dict
| self_encode_huge_number
| self_encode_default
| MethodType (f : value -> result).

(** [self._handlers] is a dict, kept as its items in iteration order;
    [self.encode_default] is the attribute that [__init__] may rebind. *)
Record UBJSONEncoder : Type := {
  _handlers : list (pytype * option handler);
  encode_default_attr : handler
}.

(** [d.get(k)] *)
Fixpoint dict_get {V} (d : list (pytype * V)) (k : pytype) : option V :=
  match d with
  | [] => None
  | (k', v) :: rest => if pytype_eqb k k' then Some v else dict_get rest k
  end.

(** [d[k] = v]: an existing key keeps its place, a new one goes last. *)
Fixpoint dict_set {V} (d : list (pytype * V)) (k : pytype) (v : V) :
  list (pytype * V) :=
  match d with
  | [] => [(k, v)]
  | (k', v') :: rest =>
      if pytype_eqb k k' then (k, v) :: rest else (k', v') :: dict_set rest k v
  end.

(** [d.update(other)] *)
Definition dict_update {V} (d other : list (pytype * V)) : list (pytype * V) :=
  fold_left (fun d kv => dict_set d (fst kv) (snd kv)) other d.

(** The table [__init__] starts from. *)
Definition default_handlers : list (pytype * option handler) :=
  [ (t_NoneType, Some self_encode_none);
    (t_bool, Some self_encode_bool);
    (t_int, Some self_encode_number);
    (t_long, Some self_encode_number);
    (t_float, Some self_encode_float);
    (t_basestring, Some self_encode_str);
    (t_tuple, Some self_encode_array);
    (t_list, Some self_encode_array);
    (t_set, Some self_encode_array);
    (t_frozenset, Some self_encode_array);
    (dict_keysiterator, Some self_encode_generator);
    (dict_valuesiterator, Some self_encode_generator);
    (dict_itemsiterator, Some self_encode_iterated_dict);
    (XRangeType, Some self_encode_generator);
    (GeneratorType, Some self_encode_generator);
    (t_dict, Some self_encode_dict);
    (t_Decimal, Some self_encode_huge_number) ].

(** [UBJSONEncoder(default, handlers)]: [default], when given, replaces
    [encode_default]; the entries of [handlers] (a [None] handler stays
    [None]) are merged over the table. *)
Definition __init__ (default : option (value -> result))
    (handlers : option (list (pytype * option (value -> result)))) :
  UBJSONEncoder :=
  {| _handlers :=
       match handlers with
       | Some handlers =>
           dict_update default_handlers
             (map (fun kh => (fst kh, option_map MethodType (snd kh))) handlers)
       | None => default_handlers
       end;
     encode_default_attr :=
       match default with
       | Some default => MethodType default
       | None => self_encode_default
       end |}.

(** [get_handler]: the loop over [self._handlers.items()] has no [break],
    so [maybe_handler] ends as the handler of the last entry whose key the
    value is an instance of. *)
Definition get_handler (self : UBJSONEncoder) (value : value) : handler :=
  if is_NOOP value then self_encode_noop
  else
    let tval := type value in
    let maybe_handler := None in
    match dict_get (_handlers self) tval with
    | Some (Some handler) => handler
    | _ =>
        let maybe_handler :=
          fold_left
            (fun maybe_handler entry =>
               if isinstance value (fst entry) then snd entry
               else maybe_handler)
            (_handlers self) maybe_handler in
        match maybe_handler with
        | Some maybe_handler => maybe_handler
        | None => encode_default_attr self
        end
    end.

(** ** Encoders *)

(** ['Unable to encode %r to ubjson' % value]: a tuple on the right of [%]
    is taken as the argument list. *)
Definition unable_to_encode (value : value) : exn :=
  match value with
  | PySeq k_tuple [] => TypeError [Lit "not enough arguments for format string"]
  | PySeq k_tuple [item] =>
      TypeError [Lit "Unable to encode "; Repr item; Lit " to ubjson"]
  | PySeq k_tuple _ =>
      TypeError [Lit "not all arguments converted during string formatting"]
  | _ => TypeError [Lit "Unable to encode "; Repr value; Lit " to ubjson"]
  end.

Definition encode_default (value : value) : result :=
  raise (unable_to_encode value).

Definition encode_noop : result := yield MARKER_N.

Definition encode_none : result := yield MARKER_Z.

Definition encode_bool (value : bool) : result :=
  yield (nth (Nat.b2n value) [MARKER_F; MARKER_T] []).

(** What [encode_huge_number] is called on. *)
Inductive number : Type :=
| Integer (n : Z)
| Float (x : float)
| Decimal (text : list codepoint).

Section Encoder.

(** [unicode(x)] for a float [x]: the interpreter's float-to-text
    conversion, which differs between Python versions. *)
Variable float_unicode : float -> list codepoint.

Definition unicode (value : number) : list codepoint :=
  match value with
  | Integer n => unicode_of_Z n
  | Float x => float_unicode x
  | Decimal text => text
  end.

Definition encode_huge_number (value : number) : result :=
  let value := utf8_encode (unicode value) in
  let size := len value in
  if size <? 255 then
    returns (n <- struct.pack fmt_B size ;;;
             inr [MARKER_h; n; struct.pack_s size value])
  else
    returns (n <- struct.pack fmt_I size ;;;
             inr [MARKER_H; n; struct.pack_s size value]).

Definition encode_number (value : Z) : result :=
  if is_byte value then
    returns (p <- struct.pack fmt_b value ;;; inr [MARKER_B; p])
  else if is_int16 value then
    returns (p <- struct.pack fmt_h value ;;; inr [MARKER_i; p])
  else if is_int32 value then
    returns (p <- struct.pack fmt_i value ;;; inr [MARKER_I; p])
  else if is_int64 value then
    returns (p <- struct.pack fmt_q value ;;; inr [MARKER_L; p])
  else encode_huge_number (Integer value).

Definition encode_float (value : float) : result :=
  if is_float value then
    returns (p <- struct.pack_f value ;;; inr [MARKER_d; p])
  else if is_double value then
    returns (p <- struct.pack_d value ;;; inr [MARKER_D; p])
  else if is_infinity value then returns (inr [MARKER_Z])
  else encode_huge_number (Float value).

Definition encode_str (value : basestring) : result :=
  let value :=
    match value with
    | Unicode s => utf8_encode s
    | Str s => s
    end in
  let length := len value in
  if length <? 255 then
    returns (n <- struct.pack fmt_B length ;;;
             inr [MARKER_s; n; struct.pack_s length value])
  else
    returns (n <- struct.pack fmt_I length ;;;
             inr [MARKER_S; n; struct.pack_s length value]).

(** [yield e] for an expression [e] whose evaluation may raise. *)
Definition yield_value (e : exn + chunk) : result :=
  match e with
  | inr c => yield c
  | inl e => raise e
  end.

(** The container encoders call back into [self.iterencode], here the
    parameter [iterencode]. *)
Definition encode_array (iterencode : value -> result) (value : list value) :
  result :=
  let size := len value in
  (if size <? 255 then
     yield MARKER_a ;;
     yield_value (struct.pack fmt_B size)
   else
     yield MARKER_A ;;
     yield_value (struct.pack fmt_I size)) ;;
  for_each value (fun item => iterencode item).

Definition encode_generator (iterencode : value -> result)
    (value : list value) : result :=
  yield MARKER_a ;;
  yield MARKER_FF ;;
  for_each value (fun item => iterencode item) ;;
  yield MARKER_E.

Definition encode_dict (iterencode : value -> result)
    (value : list (value * value)) : result :=
  let size := len value in
  (if size <? 255 then
     yield MARKER_o ;;
     yield_value (struct.pack fmt_B size)
   else
     yield MARKER_O ;;
     yield_value (struct.pack fmt_I size)) ;;
  for_each value (fun entry =>
    let key := fst entry in
    let val := snd entry in
    assert (isinstance key t_basestring) "object key should be a string" ;;
    iterencode key ;;
    iterencode val).

(** [encode_iterated_dict] passes the pair it has just unpacked back to
    [self.iterencode] as one tuple, [(key, value)]; [iterencode_pair key
    value] stands for that call. *)
Definition encode_iterated_dict (iterencode_pair : value -> value -> result)
    (value : list (value * value)) : result :=
  yield MARKER_o ;;
  yield MARKER_FF ;;
  for_each value (fun entry =>
    let key := fst entry in
    let value := snd entry in
    assert (isinstance key t_basestring) "object key should be a string" ;;
    iterencode_pair key value) ;;
  yield MARKER_E.

Variable self : UBJSONEncoder.

(** A built-in encoder applied to a value that is not of its kind.  The
    registries [__init__] builds bind each built-in encoder to its own
    types only, so this outcome does not arise from them. *)
Definition not_applicable (value : value) : result :=
  raise (TypeError [Lit "bad operand: "; Repr value]).

(** The two chunks a sized container begins with ([encode_array] with the
    markers a and A, [encode_dict] with o and O): the marker is yielded
    before the length is packed. *)
Definition sized_header (short long : chunk) (size : Z) : result :=
  if size <? 255 then
    yield short ;; yield_value (struct.pack fmt_B size)
  else
    yield long ;; yield_value (struct.pack fmt_I size).

(** [self.iterencode(tuple)] for a tuple whose items, encoded one after the
    other, give [items]: what [encode_iterated_dict] needs for the pair it
    rebuilds.  [iterencode_tuple_eq] below shows it to be [iterencode]. *)
Definition iterencode_tuple (tuple : list value) (items : result) : result :=
  match get_handler self (PySeq k_tuple tuple) with
  | self_encode_array => sized_header MARKER_a MARKER_A (len tuple) ;; items
  | self_encode_default => encode_default (PySeq k_tuple tuple)
  | MethodType f => f (PySeq k_tuple tuple)
  | self_encode_noop => encode_noop
  | self_encode_none => encode_none
  | _ => not_applicable (PySeq k_tuple tuple)
  end.

(** [iterencode]: resolve the handler, call it, pass its chunks on. *)
Fixpoint iterencode (value : value) {struct value} : result :=
  match get_handler self value with
  | self_encode_noop => encode_noop
  | self_encode_none => encode_none
  | self_encode_default => encode_default value
  | MethodType f => f value
  | self_encode_bool =>
      match value with
      | PyBool b => encode_bool b
      | _ => not_applicable value
      end
  | self_encode_number =>
      match value with
      | PyBool b => encode_number (Z.b2z b)
      | PyInt n | PyLong n => encode_number n
      | _ => not_applicable value
      end
  | self_encode_float =>
      match value with
      | PyFloat x => encode_float x
      | _ => not_applicable value
      end
  | self_encode_str =>
      match value with
      | PyString s => encode_str s
      | _ => not_applicable value
      end
  | self_encode_huge_number =>
      match value with
      | PyDecimal text => encode_huge_number (Decimal text)
      | _ => not_applicable value
      end
  | self_encode_array =>
      match value with
      | PySeq _ items => encode_array iterencode items
      | _ => not_applicable value
      end
  | self_encode_generator =>
      match value with
      | PyIter _ items => encode_generator iterencode items
      | _ => not_applicable value
      end
  | self_encode_dict =>
      match value with
      | PyDict items => encode_dict iterencode items
      | _ => not_applicable value
      end
  | self_encode_iterated_dict =>
      match value with
      | PyItemsIter items =>
          encode_iterated_dict
            (fun key value =>
               iterencode_tuple [key; value]
                 (iterencode key ;; iterencode value ;; done))
            items
      | _ => not_applicable value
      end
  end.

(** [encode(value)]: the chunks joined, unless an exception ended them. *)
Definition encode (value : value) : exn + bytes :=
  match iterencode value with
  | (chunks, None) => inr (List.concat chunks)
  | (_, Some e) => inl e
  end.

(** [encode(value, output)]: every chunk produced is written to [output],
    also those that precede an exception. *)
Definition encode_to (value : value) (output : list chunk) :
  list chunk * option exn :=
  (output ++ fst (iterencode value), snd (iterencode value)).

End Encoder.

(** ** Vocabulary of the statements *)

(** The length field: one byte below 255, four big-endian bytes from 255. *)
Definition length_field (size : Z) : bytes :=
  if size <? 255 then big_endian 1 size else big_endian 4 size.

(** The bytes [encode_str] writes: a [unicode] string encoded to UTF-8, a
    byte string as it is. *)
Definition utf8_bytes (value : basestring) : bytes :=
  match value with
  | Unicode s => utf8_encode s
  | Str s => s
  end.

(** What [encode_str] and [encode_huge_number] build from a byte string. *)
Definition length_prefixed (short long : chunk) (payload : bytes) : result :=
  if len payload <? 255 then
    returns (bind (struct.pack fmt_B (len payload))
               (fun n => inr [short; n; struct.pack_s (len payload) payload]))
  else
    returns (bind (struct.pack fmt_I (len payload))
               (fun n => inr [long; n; struct.pack_s (len payload) payload])).

(** Calling a handler on a value, with [iterencode] for [self.iterencode]:
    the bodies of the source's encoders, the container ones recursing
    through [iterencode], [encode_iterated_dict] on the tuple it rebuilds. *)
Definition call (float_unicode : float -> list codepoint)
    (iterencode : value -> result) (h : handler) (value : value) : result :=
  match h with
  | self_encode_noop => encode_noop
  | self_encode_none => encode_none
  | self_encode_default => encode_default value
  | MethodType f => f value
  | self_encode_bool =>
      match value with
      | PyBool b => encode_bool b
      | _ => not_applicable value
      end
  | self_encode_number =>
      match value with
      | PyBool b => encode_number float_unicode (Z.b2z b)
      | PyInt n | PyLong n => encode_number float_unicode n
      | _ => not_applicable value
      end
  | self_encode_float =>
      match value with
      | PyFloat x => encode_float float_unicode x
      | _ => not_applicable value
      end
  | self_encode_str =>
      match value with
      | PyString s => encode_str s
      | _ => not_applicable value
      end
  | self_encode_huge_number =>
      match value with
      | PyDecimal text => encode_huge_number float_unicode (Decimal text)
      | _ => not_applicable value
      end
  | self_encode_array =>
      match value with
      | PySeq _ items => encode_array iterencode items
      | _ => not_applicable value
      end
  | self_encode_generator =>
      match value with
      | PyIter _ items => encode_generator iterencode items
      | _ => not_applicable value
      end
  | self_encode_dict =>
      match value with
      | PyDict items => encode_dict iterencode items
      | _ => not_applicable value
      end
  | self_encode_iterated_dict =>
      match value with
      | PyItemsIter items =>
          encode_iterated_dict
            (fun key value => iterencode (PySeq k_tuple [key; value])) items
      | _ => not_applicable value
      end
  end.

(** The values a handler can be called on: a built-in encoder those of its
    own kind, any other handler every value. *)
Definition applicable (h : handler) (v : value) : bool :=
  match h, v with
  | self_encode_bool, PyBool _ => true
  | self_encode_number, (PyBool _ | PyInt _ | PyLong _) => true
  | self_encode_float, PyFloat _ => true
  | self_encode_str, PyString _ => true
  | self_encode_huge_number, PyDecimal _ => true
  | self_encode_array, PySeq _ _ => true
  | self_encode_generator, PyIter _ _ => true
  | self_encode_dict, PyDict _ => true
  | self_encode_iterated_dict, PyItemsIter _ => true
  | (self_encode_noop | self_encode_none | self_encode_default
     | MethodType _), _ => true
  | _, _ => false
  end.

(** One round of [encode_dict]'s loop. *)
Definition dict_entry (iterencode : value -> result) (entry : value * value) :
  result :=
  assert (isinstance (fst entry) t_basestring) "object key should be a string" ;;
  iterencode (fst entry) ;;
  iterencode (snd entry).

(** One round of [encode_iterated_dict]'s loop. *)
Definition iterated_dict_entry (iterencode : value -> result)
    (entry : value * value) : result :=
  assert (isinstance (fst entry) t_basestring) "object key should be a string" ;;
  iterencode (PySeq k_tuple [fst entry; snd entry]).

(** The handler stored under exactly [type(value)], if there is one. *)
Definition exact_match (self : UBJSONEncoder) (value : value) : option handler :=
  match dict_get (_handlers self) (type value) with
  | Some (Some handler) => Some handler
  | _ => None
  end.

(** The entries whose key the value is an instance of: the last and the
    first of them in iteration order. *)
Definition last_instance_match (self : UBJSONEncoder) (value : value) :
  option (pytype * option handler) :=
  find (fun entry => isinstance value (fst entry)) (rev (_handlers self)).

Definition first_instance_match (self : UBJSONEncoder) (value : value) :
  option (pytype * option handler) :=
  find (fun entry => isinstance value (fst entry)) (_handlers self).

(** Resolution as the specification words it: step (3) takes the first
    instance match. *)
Definition get_handler_first_match (self : UBJSONEncoder) (value : value) :
  handler :=
  if is_NOOP value then self_encode_noop
  else
    match exact_match self value with
    | Some handler => handler
    | None =>
        match first_instance_match self value with
        | Some (_, Some handler) => handler
        | _ => encode_default_attr self
        end
    end.

(** ** Sample inputs *)

(** A float-to-text conversion for the examples, right on the two zeros and
    on nan. *)
Definition float_unicode_example (x : float) : list codepoint :=
  map N_of_ascii
    (list_ascii_of_string
       (if is_nan x then "nan"
        else if get_sign x then "-0.0" else "0.0")%string).

(** The byte string of an ASCII literal. *)
Definition py_str (s : string) : value := PyString (Str (list_byte_of_string s)).

(** A caller's handler that encodes whatever it is given as null. *)
Definition encode_as_null (value : value) : result := yield MARKER_Z.

(** A caller's handler that encodes whatever it is given as a no-op. *)
Definition encode_as_noop (value : value) : result := yield MARKER_N.

(** An instance of a class [Bar] derived from a class [Foo]. *)
Definition bar_instance : value := PyObject "Bar" ["Foo"%string] 1.

(** [UBJSONEncoder(handlers={Foo: encode_as_null, object: encode_as_noop})]
    and the encoder whose registry iterates the two entries the other way
    round. *)
Definition foo_then_object : UBJSONEncoder :=
  __init__ None
    (Some [(t_class "Foo", Some encode_as_null); (t_object, Some encode_as_noop)]).

Definition object_then_foo : UBJSONEncoder :=
  __init__ None
    (Some [(t_object, Some encode_as_noop); (t_class "Foo", Some encode_as_null)]).

(** A byte string of [2^32] bytes. *)
Definition four_gibibytes : basestring := Str (repeat x00 (Z.to_nat (2 ^ 32))).

(** A list of [2^32] items. *)
Definition four_gibi_items : list value := repeat PyNone (Z.to_nat (2 ^ 32)).

(** The fixed-width integer forms: marker and payload width in bytes. *)
Definition integer_forms : list (chunk * nat) :=
  [(MARKER_B, 1%nat); (MARKER_i, 2%nat); (MARKER_I, 4%nat); (MARKER_L, 8%nat)].

(** [v] lies within the signed range of [width] bytes. *)
Definition in_signed_range (width : nat) (v : Z) : Prop :=
  - 2 ^ (8 * Z.of_nat width - 1) <= v <= 2 ^ (8 * Z.of_nat width - 1) - 1.

(** ** Vocabulary of the further properties *)

(** The form [encode_number] gives an integer of the signed 64-bit range:
    the marker and the width of the payload. *)
Definition integer_form (v : Z) : chunk * nat :=
  if is_byte v then (MARKER_B, 1%nat)
  else if is_int16 v then (MARKER_i, 2%nat)
  else if is_int32 v then (MARKER_I, 4%nat)
  else (MARKER_L, 8%nat).

(** The bytes [bytes().join] makes of the chunks of an outcome. *)
Definition joined (r : result) : bytes := List.concat (fst r).

(** The marker bytes an encoded value can begin with. *)
Definition value_markers : list byte :=
  ["Z"; "N"; "F"; "T"; "B"; "i"; "I"; "L"; "d"; "D"; "s"; "S"; "h"; "H"; "a";
   "A"; "o"; "O"]%byte.

(** The handler the default table resolves each kind of value to. *)
Definition default_dispatch (default : option (value -> result)) (v : value) :
  handler :=
  match v with
  | NOOP => self_encode_noop
  | PyNone => self_encode_none
  | PyBool _ => self_encode_bool
  | PyInt _ | PyLong _ => self_encode_number
  | PyFloat _ => self_encode_float
  | PyString _ => self_encode_str
  | PyDecimal _ => self_encode_huge_number
  | PySeq _ _ => self_encode_array
  | PyIter _ _ => self_encode_generator
  | PyDict _ => self_encode_dict
  | PyItemsIter _ => self_encode_iterated_dict
  | PyObject _ _ _ =>
      match default with
      | Some default => MethodType default
      | None => self_encode_default
      end
  end.

(** The values an encoder built without overrides and without a [default]
    function encodes without an exception: no instance of an unregistered
    class, no key that is not a string, no string, numeral, sized array or
    sized object of [2^32] or more bytes or items. *)
Fixpoint encodable (float_unicode : float -> list codepoint) (v : value) :
  bool :=
  match v with
  | NOOP | PyNone | PyBool _ => true
  | PyInt n | PyLong n =>
      is_int64 n || (len (utf8_encode (unicode_of_Z n)) <? 2 ^ 32)
  | PyFloat x =>
      is_float x || is_double x || is_infinity x
      || (len (utf8_encode (float_unicode x)) <? 2 ^ 32)
  | PyString s => len (utf8_bytes s) <? 2 ^ 32
  | PyDecimal text => len (utf8_encode text) <? 2 ^ 32
  | PySeq _ items =>
      (len items <? 2 ^ 32) && forallb (encodable float_unicode) items
  | PyIter _ items => forallb (encodable float_unicode) items
  | PyDict items =>
      (len items <? 2 ^ 32)
      && forallb
           (fun entry =>
              isinstance (fst entry) t_basestring
              && encodable float_unicode (fst entry)
              && encodable float_unicode (snd entry))
           items
  | PyItemsIter items =>
      forallb
        (fun entry =>
           isinstance (fst entry) t_basestring
           && encodable float_unicode (fst entry)
           && encodable float_unicode (snd entry))
        items
  | PyObject _ _ _ => false
  end.

(** The bytes the encoder built without overrides and without a [default]
    function produces for a value. *)
Definition encoded (float_unicode : float -> list codepoint) (v : value) :
  bytes :=
  joined (iterencode float_unicode (__init__ None None) v).

(** The markers that stand before a payload of fixed width, with the
    width. *)
Definition fixed_forms : list (byte * nat) :=
  [("N", 0); ("Z", 0); ("F", 0); ("T", 0); ("B", 1); ("i", 2); ("I", 4);
   ("L", 8); ("d", 4); ("D", 8)]%byte%nat.

(** The marker pairs that stand before a length field and a payload of
    that length. *)
Definition prefixed_forms : list (byte * byte) :=
  [("s", "S"); ("h", "H")]%byte.

Definition fixed_form (data : bytes) : Prop :=
  exists marker payload,
    data = marker :: payload /\ In (marker, List.length payload) fixed_forms.

Definition prefixed_form (data : bytes) : Prop :=
  exists short long payload,
    In (short, long) prefixed_forms /\ len payload < 2 ^ 32 /\
    data = joined (length_prefixed [short] [long] payload).

(** What the first two bytes of a byte string announce. *)
Inductive wire_kind : Type :=
| fixed_width
| length_prefix
| sized_array
| unsized_array
| sized_object
| unsized_object.

Definition wire_kind_of (data : bytes) : option wire_kind :=
  match data with
  | [] => None
  | marker :: rest =>
      match marker with
      | "N" | "Z" | "F" | "T" | "B" | "i" | "I" | "L" | "d" | "D" =>
          Some fixed_width
      | "s" | "S" | "h" | "H" => Some length_prefix
      | "a" =>
          match rest with
          | xff :: _ => Some unsized_array
          | _ => Some sized_array
          end
      | "A" => Some sized_array
      | "o" =>
          match rest with
          | xff :: _ => Some unsized_object
          | _ => Some sized_object
          end
      | "O" => Some sized_object
      | _ => None
      end%byte
  end.

(** * Properties *)

(** ** Bytes and [struct.pack] *)

Lemma Z_of_byte_of_Z (z : Z) : Z_of_byte (byte_of_Z z) = z mod 256.
Proof.
  unfold Z_of_byte, byte_of_Z.
  assert (Hr : 0 <= z mod 256 < 256) by (apply Z.mod_pos_bound; lia).
  destruct (Byte.of_N (Z.to_N (z mod 256))) as [b|] eqn:E.
  - apply Byte.to_of_N in E. rewrite E. lia.
  - apply Byte.of_N_None_iff in E. lia.
Qed.

Lemma Z_of_byte_range (b : byte) : 0 <= Z_of_byte b < 256.
Proof.
  unfold Z_of_byte. pose proof (Byte.to_N_bounded b). lia.
Qed.

Lemma byte_of_Z_of_byte (b : byte) : byte_of_Z (Z_of_byte b) = b.
Proof.
  unfold byte_of_Z. pose proof (Z_of_byte_range b) as Hr.
  rewrite Z.mod_small by exact Hr.
  unfold Z_of_byte. rewrite N2Z.id, Byte.of_to_N. reflexivity.
Qed.

Lemma length_big_endian (w : nat) (z : Z) : List.length (big_endian w z) = w.
Proof. induction w as [|w IH]; simpl; [reflexivity | now rewrite IH]. Qed.

Lemma len_big_endian (w : nat) (z : Z) : len (big_endian w z) = Z.of_nat w.
Proof. unfold len. now rewrite length_big_endian. Qed.

Lemma fold_unsigned_acc (bs : bytes) (acc : Z) :
  fold_left (fun a b => a * 256 + Z_of_byte b) bs acc
  = acc * 256 ^ len bs + unsigned_of bs.
Proof.
  unfold unsigned_of, len. revert acc.
  induction bs as [|b bs IH]; intros acc.
  - simpl. lia.
  - cbn [fold_left List.length]. rewrite IH, (IH (0 * 256 + Z_of_byte b)).
    rewrite Nat2Z.inj_succ, Z.pow_succ_r by lia. lia.
Qed.

Lemma unsigned_of_cons (b : byte) (bs : bytes) :
  unsigned_of (b :: bs) = Z_of_byte b * 256 ^ len bs + unsigned_of bs.
Proof.
  unfold unsigned_of at 1. cbn [fold_left]. rewrite fold_unsigned_acc. lia.
Qed.

Lemma pow256 (n : Z) : 0 <= n -> 256 ^ n = 2 ^ (8 * n).
Proof. intros Hn. rewrite Z.pow_mul_r by lia. reflexivity. Qed.

(** The bytes of [big_endian w z] spell [z] modulo [2^(8w)]. *)
Lemma unsigned_of_big_endian (w : nat) (z : Z) :
  unsigned_of (big_endian w z) = z mod 2 ^ (8 * Z.of_nat w).
Proof.
  induction w as [|w IH].
  - cbn. now rewrite Z.mod_1_r.
  - cbn [big_endian]. rewrite unsigned_of_cons, IH, len_big_endian.
    rewrite Z_of_byte_of_Z, Z.shiftr_div_pow2 by lia.
    rewrite pow256 by lia.
    replace (8 * Z.of_nat (S w)) with (8 * Z.of_nat w + 8) by lia.
    rewrite Z.pow_add_r by lia.
    change (2 ^ 8) with 256.
    rewrite (Z.rem_mul_r z (2 ^ (8 * Z.of_nat w)) 256) by lia.
    lia.
Qed.

(** A value within the signed range of [w] bytes is read back from its
    big-endian bytes as a two's-complement number. *)
Lemma signed_of_big_endian (w : nat) (z : Z) :
  (0 < w)%nat -> in_signed_range w z -> signed_of (big_endian w z) = z.
Proof.
  unfold in_signed_range, signed_of. intros Hw Hr.
  rewrite unsigned_of_big_endian, len_big_endian.
  set (n := 8 * Z.of_nat w) in *.
  assert (Hp : 2 ^ n = 2 * 2 ^ (n - 1)).
  { replace n with (Z.succ (n - 1)) at 1 by lia.
    rewrite Z.pow_succ_r; lia. }
  assert (Hpos : 0 < 2 ^ (n - 1)) by (apply Z.pow_pos_nonneg; lia).
  destruct (Z.neg_nonneg_cases z) as [Hneg | Hnn].
  - rewrite <- (Z.mod_add z 1) by lia.
    rewrite (Z.mod_small (z + 1 * 2 ^ n)) by lia.
    destruct (Z.ltb_spec (z + 1 * 2 ^ n) (2 ^ (n - 1))); lia.
  - rewrite Z.mod_small by lia.
    destruct (Z.ltb_spec z (2 ^ (n - 1))); lia.
Qed.

(** An unsigned value below [2^(8w)] is read back unchanged. *)
Lemma unsigned_of_big_endian_small (w : nat) (z : Z) :
  0 <= z < 2 ^ (8 * Z.of_nat w) -> unsigned_of (big_endian w z) = z.
Proof.
  intros Hz. rewrite unsigned_of_big_endian. now apply Z.mod_small.
Qed.

Lemma pack_in_range (fmt : format) (v : Z) :
  struct.minimum fmt <= v <= struct.maximum fmt ->
  struct.pack fmt v = inr (big_endian (struct.width fmt) v).
Proof.
  intros [Hlo Hhi]. unfold struct.pack.
  apply Z.leb_le in Hlo, Hhi. now rewrite Hlo, Hhi.
Qed.

Lemma pack_out_of_range (fmt : format) (v : Z) :
  v < struct.minimum fmt \/ struct.maximum fmt < v ->
  struct.pack fmt v = inl (struct_error fmt v).
Proof.
  intros H. unfold struct.pack.
  destruct (Z.leb_spec (struct.minimum fmt) v);
    destruct (Z.leb_spec v (struct.maximum fmt)); simpl; try reflexivity; lia.
Qed.

(** [struct.pack('>%ds' % len(s), s)] is [s]. *)
Lemma pack_s_len (s : bytes) : struct.pack_s (len s) s = s.
Proof.
  unfold struct.pack_s, len. rewrite Nat2Z.id, firstn_all, Nat.sub_diag.
  simpl. now rewrite app_nil_r.
Qed.

(** ** Integers *)


Lemma is_byte_spec (v : Z) : is_byte v = true <-> in_signed_range 1 v.
Proof.
  unfold is_byte, in_signed_range. cbn.
  rewrite andb_true_iff, !Z.leb_le. lia.
Qed.

Lemma is_int16_spec (v : Z) : is_int16 v = true <-> in_signed_range 2 v.
Proof.
  unfold is_int16, in_signed_range. cbn.
  rewrite andb_true_iff, !Z.leb_le. lia.
Qed.

Lemma is_int32_spec (v : Z) : is_int32 v = true <-> in_signed_range 4 v.
Proof.
  unfold is_int32, in_signed_range. cbn.
  rewrite andb_true_iff, !Z.leb_le. lia.
Qed.

Lemma is_int64_spec (v : Z) : is_int64 v = true <-> in_signed_range 8 v.
Proof.
  unfold is_int64, in_signed_range. cbn.
  rewrite andb_true_iff, !Z.leb_le. lia.
Qed.


Section IntegerEncoding.

Variable float_unicode : float -> list codepoint.

Lemma encode_number_fixed (fmt : format) (marker : chunk) (v : Z) :
  struct.minimum fmt <= v <= struct.maximum fmt ->
  returns (bind (struct.pack fmt v) (fun p => inr [marker; p]))
  = ([marker; big_endian (struct.width fmt) v], None).
Proof. intros H. now rewrite pack_in_range. Qed.


End IntegerEncoding.

(** ** Generators: sequencing and loops *)

Lemma seq_normal (c1 : list chunk) (r2 : result) :
  (c1, None) ;; r2 = (c1 ++ fst r2, snd r2).
Proof. reflexivity. Qed.

Lemma seq_raised (c1 : list chunk) (e : exn) (r2 : result) :
  (c1, Some e) ;; r2 = (c1, Some e).
Proof. reflexivity. Qed.

Lemma seq_done_l (r : result) : done ;; r = r.
Proof. now destruct r. Qed.

Lemma seq_done_r (r : result) : r ;; done = r.
Proof.
  destruct r as [c [e|]]; cbn; [reflexivity | now rewrite app_nil_r].
Qed.

Lemma seq_assoc (r1 r2 r3 : result) : (r1 ;; r2) ;; r3 = r1 ;; (r2 ;; r3).
Proof.
  destruct r1 as [c1 [e1|]]; [reflexivity|].
  destruct r2 as [c2 [e2|]]; cbn; [reflexivity|].
  now rewrite app_assoc.
Qed.

Lemma for_each_cons {A} (x : A) (xs : list A) (body : A -> result) :
  for_each (x :: xs) body = body x ;; for_each xs body.
Proof. reflexivity. Qed.

Lemma for_each_app {A} (xs ys : list A) (body : A -> result) :
  for_each (xs ++ ys) body = for_each xs body ;; for_each ys body.
Proof.
  induction xs as [|x xs IH].
  - change (for_each ([] ++ ys) body) with (for_each ys body).
    change (for_each [] body) with done. now rewrite seq_done_l.
  - cbn [app]. now rewrite !for_each_cons, IH, seq_assoc.
Qed.

(** A loop all of whose rounds end normally yields the rounds' chunks, in
    order, and ends normally. *)
Lemma for_each_normal {A} (xs : list A) (body : A -> result) :
  (forall x, In x xs -> snd (body x) = None) ->
  for_each xs body = (flat_map (fun x => fst (body x)) xs, None).
Proof.
  induction xs as [|x xs IH]; intros Hok; [reflexivity|].
  rewrite for_each_cons, IH by (intros y Hy; apply Hok; now right).
  specialize (Hok x (or_introl eq_refl)). cbn [flat_map].
  destruct (body x) as [c o]. cbn in Hok. subst o. reflexivity.
Qed.

(** A loop ends at the first round that raises: the chunks of the rounds
    before it and its own are all that is yielded. *)
Lemma for_each_raises {A} (pre post : list A) (x : A) (body : A -> result)
    (e : exn) :
  (forall y, In y pre -> snd (body y) = None) ->
  snd (body x) = Some e ->
  for_each (pre ++ x :: post) body
  = (flat_map (fun y => fst (body y)) pre ++ fst (body x), Some e).
Proof.
  intros Hpre Hx.
  rewrite for_each_app, for_each_normal by exact Hpre.
  rewrite for_each_cons. destruct (body x) as [c o]. cbn in Hx. subst o.
  reflexivity.
Qed.

(** A loop that ends normally had only rounds that ended normally. *)
Lemma for_each_normal_inv {A} (xs : list A) (body : A -> result) :
  snd (for_each xs body) = None ->
  forall x, In x xs -> snd (body x) = None.
Proof.
  induction xs as [|x xs IH]; intros Hok y Hy; [destruct Hy|].
  rewrite for_each_cons in Hok.
  destruct (body x) as [c [e|]] eqn:E; [discriminate|].
  destruct Hy as [<-|Hy]; [now rewrite E|].
  apply IH; [exact Hok | exact Hy].
Qed.

(** ** The length prefix of sized containers and strings *)

Lemma pack_B_short (size : Z) :
  0 <= size < 255 -> struct.pack fmt_B size = inr (big_endian 1 size).
Proof.
  intros H. apply (pack_in_range fmt_B). cbn. lia.
Qed.

Lemma pack_I_long (size : Z) :
  0 <= size < 2 ^ 32 -> struct.pack fmt_I size = inr (big_endian 4 size).
Proof.
  intros H. apply (pack_in_range fmt_I). cbn in *. lia.
Qed.

Lemma pack_I_too_long (size : Z) :
  2 ^ 32 <= size -> struct.pack fmt_I size = inl (struct_error fmt_I size).
Proof.
  intros H. apply pack_out_of_range. right. cbn in *. lia.
Qed.

Lemma unsigned_of_length_field (size : Z) :
  0 <= size < 2 ^ 32 -> unsigned_of (length_field size) = size.
Proof.
  intros H. unfold length_field.
  destruct (Z.ltb_spec size 255);
    apply unsigned_of_big_endian_small; cbn in *; lia.
Qed.

Lemma length_length_field (size : Z) :
  List.length (length_field size) = if size <? 255 then 1%nat else 4%nat.
Proof.
  unfold length_field. destruct (size <? 255); apply length_big_endian.
Qed.

Lemma len_nonneg {A} (l : list A) : 0 <= len l.
Proof. unfold len. lia. Qed.

Lemma sized_header_fits (short long : chunk) (size : Z) :
  0 <= size < 2 ^ 32 ->
  sized_header short long size
  = ([if size <? 255 then short else long; length_field size], None).
Proof.
  intros H. unfold sized_header, length_field.
  destruct (Z.ltb_spec size 255).
  - now rewrite pack_B_short by lia.
  - now rewrite pack_I_long by lia.
Qed.

Lemma sized_header_too_long (short long : chunk) (size : Z) :
  2 ^ 32 <= size ->
  sized_header short long size = ([long], Some (struct_error fmt_I size)).
Proof.
  intros H. unfold sized_header.
  assert (H' : 255 <= size) by (cbn in H; lia).
  destruct (Z.ltb_spec size 255); [lia|].
  now rewrite pack_I_too_long.
Qed.

(** ** Strings and huge numbers *)

Lemma length_prefixed_fits (short long : chunk) (payload : bytes) :
  len payload < 2 ^ 32 ->
  length_prefixed short long payload
  = ([if len payload <? 255 then short else long;
      length_field (len payload); payload], None).
Proof.
  intros H. pose proof (len_nonneg payload) as H0.
  unfold length_prefixed, length_field. rewrite pack_s_len.
  destruct (Z.ltb_spec (len payload) 255).
  - now rewrite pack_B_short by lia.
  - now rewrite pack_I_long by lia.
Qed.

Lemma length_prefixed_too_long (short long : chunk) (payload : bytes) :
  2 ^ 32 <= len payload ->
  length_prefixed short long payload
  = ([], Some (struct_error fmt_I (len payload))).
Proof.
  intros H. unfold length_prefixed.
  assert (H' : 255 <= len payload) by (cbn in H; lia).
  destruct (Z.ltb_spec (len payload) 255); [lia|].
  now rewrite pack_I_too_long.
Qed.

Lemma encode_str_length_prefixed (value : basestring) :
  encode_str value = length_prefixed MARKER_s MARKER_S (utf8_bytes value).
Proof. reflexivity. Qed.

Lemma encode_huge_number_length_prefixed
    (float_unicode : float -> list codepoint) (value : number) :
  encode_huge_number float_unicode value
  = length_prefixed MARKER_h MARKER_H
      (utf8_encode (unicode float_unicode value)).
Proof. reflexivity. Qed.

(** C5, as amended.  A string whose UTF-8 bytes number fewer than 255 is
    encoded as the marker s, a one-byte length and the bytes; one of 255 up
    to [2^32 - 1] bytes as the marker S, a four-byte big-endian length and
    the bytes.  A huge number follows the same rule on the UTF-8 bytes of
    its text, with the markers h and H.  From [2^32] bytes on the length
    does not fit its field: packing it raises [struct.error] and nothing is
    produced. *)
Theorem encode_str_huge_number_threshold
    (float_unicode : float -> list codepoint) :
  (forall value : basestring,
     len (utf8_bytes value) < 2 ^ 32 ->
     encode_str value
     = ([if len (utf8_bytes value) <? 255 then MARKER_s else MARKER_S;
         length_field (len (utf8_bytes value)); utf8_bytes value], None)) /\
  (forall value : number,
     len (utf8_encode (unicode float_unicode value)) < 2 ^ 32 ->
     encode_huge_number float_unicode value
     = ([if len (utf8_encode (unicode float_unicode value)) <? 255
         then MARKER_h else MARKER_H;
         length_field (len (utf8_encode (unicode float_unicode value)));
         utf8_encode (unicode float_unicode value)], None)) /\
  (forall size : Z,
     0 <= size < 2 ^ 32 ->
     List.length (length_field size) = (if size <? 255 then 1%nat else 4%nat) /\
     unsigned_of (length_field size) = size) /\
  (forall value : basestring,
     2 ^ 32 <= len (utf8_bytes value) ->
     encode_str value
     = ([], Some (struct_error fmt_I (len (utf8_bytes value))))) /\
  (forall value : number,
     2 ^ 32 <= len (utf8_encode (unicode float_unicode value)) ->
     encode_huge_number float_unicode value
     = ([], Some (struct_error fmt_I
                    (len (utf8_encode (unicode float_unicode value)))))).
Proof.
  repeat split.
  - intros value H. rewrite encode_str_length_prefixed.
    now apply length_prefixed_fits.
  - intros value H. rewrite encode_huge_number_length_prefixed.
    now apply length_prefixed_fits.
  - apply length_length_field.
  - now apply unsigned_of_length_field.
  - intros value H. rewrite encode_str_length_prefixed.
    now apply length_prefixed_too_long.
  - intros value H. rewrite encode_huge_number_length_prefixed.
    now apply length_prefixed_too_long.
Qed.

Lemma len_repeat {A} (x : A) (n : Z) : 0 <= n -> len (repeat x (Z.to_nat n)) = n.
Proof. intros H. unfold len. rewrite repeat_length. now apply Z2Nat.id. Qed.

(** C5, as stated, fails on a string of [2^32] bytes: its length is not
    below 255, yet the encoding is not the marker S with a four-byte length
    and the bytes; [struct.pack('>I', length)] raises instead. *)
Lemma encode_str_four_gibibytes :
  255 <= len (utf8_bytes four_gibibytes) /\
  encode_str four_gibibytes = ([], Some (struct_error fmt_I (2 ^ 32))) /\
  ~ (exists n, encode_str four_gibibytes
               = ([MARKER_S; n; utf8_bytes four_gibibytes], None)).
Proof.
  assert (Hlen : len (utf8_bytes four_gibibytes) = 2 ^ 32).
  { unfold four_gibibytes, utf8_bytes. apply len_repeat. apply Z.pow_nonneg. lia. }
  assert (Henc : encode_str four_gibibytes
                 = ([], Some (struct_error fmt_I (2 ^ 32)))).
  { rewrite encode_str_length_prefixed, length_prefixed_too_long;
      rewrite Hlen; [reflexivity | lia]. }
  split; [|split].
  - rewrite Hlen. apply Z.lt_le_incl. reflexivity.
  - exact Henc.
  - intros [n Hn]. rewrite Henc in Hn. discriminate Hn.
Qed.

(** ** The recursion of [iterencode] *)

Lemma for_each_ext {A} (xs : list A) (f g : A -> result) :
  (forall x, In x xs -> f x = g x) -> for_each xs f = for_each xs g.
Proof.
  induction xs as [|x xs IH]; intros H; [reflexivity|].
  rewrite !for_each_cons, IH by (intros y Hy; apply H; now right).
  now rewrite (H x (or_introl eq_refl)).
Qed.

Section Recursion.

Variable float_unicode : float -> list codepoint.
Variable self : UBJSONEncoder.

Lemma iterencode_tuple_eq (key value : value) :
  iterencode_tuple self [key; value]
    (iterencode float_unicode self key ;;
     iterencode float_unicode self value ;; done)
  = iterencode float_unicode self (PySeq k_tuple [key; value]).
Proof.
  unfold iterencode_tuple. cbn [iterencode].
  destruct (get_handler self (PySeq k_tuple [key; value])); reflexivity.
Qed.

(** [iterencode] is the source's: the handler [get_handler] resolves,
    called on the value. *)
Lemma iterencode_eq (value : value) :
  iterencode float_unicode self value
  = call float_unicode (iterencode float_unicode self)
      (get_handler self value) value.
Proof.
  destruct value; cbn [iterencode];
    match goal with
    | |- context [get_handler self ?v] => destruct (get_handler self v)
    end; reflexivity.
Qed.

End Recursion.

(** ** Handler resolution *)

Lemma pytype_eqb_eq (a b : pytype) : pytype_eqb a b = true <-> a = b.
Proof.
  unfold pytype_eqb. destruct (pytype_eq_dec a b); split; congruence.
Qed.

Lemma pytype_eqb_refl (a : pytype) : pytype_eqb a a = true.
Proof. now apply pytype_eqb_eq. Qed.

Lemma pytype_eqb_neq (a b : pytype) : a <> b -> pytype_eqb a b = false.
Proof.
  intros H. destruct (pytype_eqb a b) eqn:E; [|reflexivity].
  now apply pytype_eqb_eq in E.
Qed.

Lemma isinstance_type (v : value) : isinstance v (type v) = true.
Proof.
  unfold isinstance, type.
  destruct v; try match goal with s : basestring |- _ => destruct s end;
    cbn [mro hd existsb]; now rewrite pytype_eqb_refl.
Qed.

Lemma dict_get_In {V} (d : list (pytype * V)) (k : pytype) (v : V) :
  dict_get d k = Some v -> In (k, v) d.
Proof.
  induction d as [|[k' v'] d IH]; cbn; [discriminate|].
  destruct (pytype_eqb k k') eqn:E.
  - apply pytype_eqb_eq in E. subst k'. intros [= ->]. now left.
  - intros H. right. now apply IH.
Qed.

Lemma dict_get_None {V} (d : list (pytype * V)) (k : pytype) :
  dict_get d k = None <-> ~ In k (map fst d).
Proof.
  induction d as [|[k' v'] d IH]; cbn; [tauto|].
  destruct (pytype_eqb k k') eqn:E.
  - apply pytype_eqb_eq in E. subst k'. split; [discriminate | tauto].
  - rewrite IH. split; [|tauto].
    intros Hn [Heq|Hin]; [|tauto]. subst k'.
    now rewrite pytype_eqb_refl in E.
Qed.

Lemma find_app {A} (p : A -> bool) (l1 l2 : list A) :
  find p (l1 ++ l2)
  = match find p l1 with
    | Some x => Some x
    | None => find p l2
    end.
Proof.
  induction l1 as [|x l1 IH]; [reflexivity|].
  cbn [app find]. now destruct (p x).
Qed.

Lemma scan_last_match (value : value) (items : list (pytype * option handler))
    (acc : option handler) :
  fold_left
    (fun maybe_handler entry =>
       if isinstance value (fst entry) then snd entry else maybe_handler)
    items acc
  = match find (fun entry => isinstance value (fst entry)) (rev items) with
    | Some entry => snd entry
    | None => acc
    end.
Proof.
  revert acc. induction items as [|entry items IH]; intros acc; [reflexivity|].
  cbn [fold_left rev]. rewrite IH, find_app.
  destruct (find _ (rev items)); [reflexivity|].
  cbn [find]. now destruct (isinstance value (fst entry)).
Qed.

(** The last instance match is the matching entry that no matching entry
    follows. *)
Lemma last_instance_match_Some (self : UBJSONEncoder) (value : value)
    (entry : pytype * option handler) :
  last_instance_match self value = Some entry <->
  exists before after,
    _handlers self = before ++ entry :: after /\
    isinstance value (fst entry) = true /\
    forall later, In later after -> isinstance value (fst later) = false.
Proof.
  unfold last_instance_match. generalize (_handlers self) as items.
  intros items. split.
  - intros H. rewrite <- (rev_involutive items).
    induction (rev items) as [|e r IH]; [discriminate|].
    cbn [find] in H. destruct (isinstance value (fst e)) eqn:E.
    + injection H as ->. exists (rev r), []. cbn [rev]. repeat split; auto.
      intros later [].
    + destruct (IH H) as (before & after & Hsplit & Hm & Hafter).
      exists before, (after ++ [e]). cbn [rev]. rewrite Hsplit.
      rewrite <- app_assoc. repeat split; auto.
      intros later Hin. apply in_app_or in Hin.
      destruct Hin as [Hin|[<-|[]]]; auto.
  - intros (before & after & -> & Hm & Hafter).
    rewrite rev_app_distr. cbn [rev]. rewrite <- app_assoc, find_app.
    destruct (find _ (rev after)) as [e|] eqn:E.
    + apply find_some in E. destruct E as [Hin He].
      apply in_rev in Hin. rewrite (Hafter e Hin) in He. discriminate.
    + cbn [app find]. now rewrite Hm.
Qed.

Lemma last_instance_match_None (self : UBJSONEncoder) (value : value) :
  last_instance_match self value = None <->
  forall entry, In entry (_handlers self) ->
    isinstance value (fst entry) = false.
Proof.
  unfold last_instance_match. split.
  - intros H entry Hin. apply in_rev in Hin.
    apply (find_none _ _ H entry Hin).
  - intros H. destruct (find _ _) as [e|] eqn:E; [|reflexivity].
    apply find_some in E. destruct E as [Hin He].
    apply in_rev in Hin. rewrite (H e Hin) in He. discriminate.
Qed.

Lemma get_handler_by_last_match (self : UBJSONEncoder) (value : value) :
  get_handler self value
  = (if is_NOOP value then self_encode_noop
     else
       match exact_match self value with
       | Some handler => handler
       | None =>
           match last_instance_match self value with
           | Some (_, Some handler) => handler
           | _ => encode_default_attr self
           end
       end).
Proof.
  unfold get_handler, exact_match, last_instance_match.
  destruct (is_NOOP value); [reflexivity|].
  rewrite scan_last_match.
  destruct (dict_get (_handlers self) (type value)) as [[h|]|];
    try reflexivity;
    destruct (find _ (rev (_handlers self))) as [[k [h|]]|]; reflexivity.
Qed.

(** C6, as amended.  Resolution proceeds in this order: (1) the Noop
    sentinel gets the noop encoder; (2) a handler stored under the value's
    exact type is returned; (3) otherwise the handler of the LAST entry, in
    registry iteration order, of whose key the value is an instance is
    returned, the loop never stopping at a match; (4) if no entry matches,
    or that last entry stores no handler, the default handler is returned.
    The last instance match is the matching entry after which no entry
    matches. *)
Theorem get_handler_resolution (self : UBJSONEncoder) (value : value) :
  get_handler self value
  = (if is_NOOP value then self_encode_noop
     else
       match exact_match self value with
       | Some handler => handler
       | None =>
           match last_instance_match self value with
           | Some (_, Some handler) => handler
           | _ => encode_default_attr self
           end
       end) /\
  (forall entry,
     last_instance_match self value = Some entry <->
     exists before after,
       _handlers self = before ++ entry :: after /\
       isinstance value (fst entry) = true /\
       forall later, In later after -> isinstance value (fst later) = false) /\
  (last_instance_match self value = None <->
   forall entry, In entry (_handlers self) ->
     isinstance value (fst entry) = false).
Proof.
  split; [|split].
  - apply get_handler_by_last_match.
  - apply last_instance_match_Some.
  - apply last_instance_match_None.
Qed.

(** ** The registry [__init__] builds *)

Lemma dict_get_set {V} (d : list (pytype * V)) (k k' : pytype) (v : V) :
  dict_get (dict_set d k v) k'
  = if pytype_eqb k' k then Some v else dict_get d k'.
Proof.
  induction d as [|[k0 v0] d IH]; cbn [dict_set dict_get]; [reflexivity|].
  destruct (pytype_eqb k k0) eqn:E; cbn [dict_get].
  - apply pytype_eqb_eq in E. subst k0.
    now destruct (pytype_eqb k' k).
  - rewrite IH. destruct (pytype_eqb k' k0) eqn:E0; [|reflexivity].
    apply pytype_eqb_eq in E0. subst k0.
    destruct (pytype_eqb k' k) eqn:E1; [|reflexivity].
    apply pytype_eqb_eq in E1. subst k'. now rewrite pytype_eqb_refl in E.
Qed.

Lemma dict_get_update_other {V} (d other : list (pytype * V)) (k : pytype) :
  ~ In k (map fst other) -> dict_get (dict_update d other) k = dict_get d k.
Proof.
  unfold dict_update. revert d.
  induction other as [|[k0 v0] other IH]; intros d Hk; [reflexivity|].
  cbn [fold_left fst snd]. rewrite IH by (cbn in Hk; tauto).
  rewrite dict_get_set, pytype_eqb_neq; [reflexivity|].
  cbn in Hk. intros ->. tauto.
Qed.

Lemma dict_set_keeps_keys {V} (d : list (pytype * V)) (k k' : pytype) (v : V) :
  In k' (map fst d) -> In k' (map fst (dict_set d k v)).
Proof.
  induction d as [|[k0 v0] d IH]; cbn [dict_set map fst]; [intros []|].
  destruct (pytype_eqb k k0) eqn:E; cbn [map fst In].
  - apply pytype_eqb_eq in E. subst k0. tauto.
  - intros [H|H]; [now left | right; now apply IH].
Qed.

Lemma dict_update_keeps_keys {V} (d other : list (pytype * V)) (k : pytype) :
  In k (map fst d) -> In k (map fst (dict_update d other)).
Proof.
  unfold dict_update. revert d.
  induction other as [|[k0 v0] other IH]; intros d Hk; [exact Hk|].
  cbn [fold_left]. apply IH. now apply dict_set_keeps_keys.
Qed.

(** Overrides add and replace entries; no key of the default table is ever
    removed. *)
Lemma init_keeps_default_keys (default : option (value -> result))
    (handlers : option (list (pytype * option (value -> result))))
    (k : pytype) :
  In k (map fst default_handlers) ->
  In k (map fst (_handlers (__init__ default handlers))).
Proof.
  intros Hk. destruct handlers as [handlers|]; cbn [__init__ _handlers].
  - now apply dict_update_keeps_keys.
  - exact Hk.
Qed.

(** An entry of the default table that the overrides do not name is looked
    up as in the default table. *)
Lemma init_get_not_overridden (default : option (value -> result))
    (handlers : option (list (pytype * option (value -> result))))
    (k : pytype) :
  (forall hs, handlers = Some hs -> ~ In k (map fst hs)) ->
  dict_get (_handlers (__init__ default handlers)) k
  = dict_get default_handlers k.
Proof.
  intros Hk. destruct handlers as [handlers|]; cbn [__init__ _handlers];
    [|reflexivity].
  apply dict_get_update_other. rewrite map_map. cbn [fst].
  now apply Hk.
Qed.

(** *** Built-in encoders meet only values of their own kind *)

Lemma dict_set_In {V} (d : list (pytype * V)) (k : pytype) (v : V)
    (entry : pytype * V) :
  In entry (dict_set d k v) -> entry = (k, v) \/ In entry d.
Proof.
  induction d as [|[k0 v0] d IH]; cbn [dict_set].
  - intros [<-|[]]. now left.
  - destruct (pytype_eqb k k0); cbn [In].
    + intros [<-|H]; auto.
    + intros [<-|H]; auto. destruct (IH H); auto.
Qed.

Lemma dict_update_In {V} (d other : list (pytype * V)) (entry : pytype * V) :
  In entry (dict_update d other) -> In entry other \/ In entry d.
Proof.
  unfold dict_update. revert d.
  induction other as [|[k0 v0] other IH]; intros d H; [now right|].
  cbn [fold_left fst snd] in H. destruct (IH _ H) as [Hin|Hin].
  - left. now right.
  - destruct (dict_set_In _ _ _ _ Hin) as [->|Hd]; [left; now left | now right].
Qed.

(** Every handler in a registry [__init__] builds is a caller's function
    or stands where the default table put it. *)
Lemma init_entries (default : option (value -> result))
    (handlers : option (list (pytype * option (value -> result))))
    (k : pytype) (h : handler) :
  In (k, Some h) (_handlers (__init__ default handlers)) ->
  (exists f, h = MethodType f) \/ In (k, Some h) default_handlers.
Proof.
  destruct handlers as [handlers|]; cbn [__init__ _handlers]; [|now right].
  intros H. destruct (dict_update_In _ _ _ H) as [Hin|Hin]; [left | now right].
  apply in_map_iff in Hin. destruct Hin as ([k0 [f|]] & Heq & _);
    cbn in Heq; inversion Heq. now exists f.
Qed.

Lemma isinstance_PyObject (cls : string) (bases : list string) (id : N)
    (k : pytype) :
  isinstance (PyObject cls bases id) k = true ->
  k = t_object \/ exists name, k = t_class name.
Proof.
  unfold isinstance. cbn [mro]. rewrite existsb_exists.
  intros (t & Hin & Heq). apply pytype_eqb_eq in Heq. subst t.
  destruct Hin as [<-|Hin]; [right; eauto|].
  apply in_app_or in Hin. destruct Hin as [Hin|[<-|[]]]; [|now left].
  apply in_map_iff in Hin. destruct Hin as (name & <- & _). right; eauto.
Qed.

Lemma default_handlers_applicable (k : pytype) (h : handler) (v : value) :
  In (k, Some h) default_handlers -> isinstance v k = true ->
  applicable h v = true.
Proof.
  intros Hin Hinst.
  assert (Hk : k <> t_object /\ forall name, k <> t_class name).
  { cbn in Hin.
    repeat (destruct Hin as [Hin|Hin];
            [inversion Hin; split; [discriminate | intros name; discriminate]|]).
    destruct Hin. }
  destruct v as [| | | | | |[s|s]| |[| | |]|[| | |]| | |cls bases id];
    try (cbn in Hin;
         repeat (destruct Hin as [Hin|Hin];
                 [inversion Hin; subst; first [reflexivity | discriminate Hinst]|]);
         now destruct Hin).
  destruct (isinstance_PyObject _ _ _ _ Hinst) as [->|[name ->]];
    [now destruct Hk | now destruct Hk as [_ Hk]; destruct (Hk name)].
Qed.

(** The handler [get_handler] resolves, on an encoder [__init__] built, can
    be called on the value: [not_applicable] is never the outcome. *)
Lemma get_handler_applicable (default : option (value -> result))
    (handlers : option (list (pytype * option (value -> result))))
    (v : value) :
  applicable (get_handler (__init__ default handlers) v) v = true.
Proof.
  set (self := __init__ default handlers).
  assert (Hentry : forall k h, In (k, Some h) (_handlers self) ->
            isinstance v k = true -> applicable h v = true).
  { intros k h Hin Hinst. destruct (init_entries _ _ _ _ Hin) as [[f ->]|Hd].
    - now destruct v.
    - now apply (default_handlers_applicable k). }
  assert (Hdefault : applicable (encode_default_attr self) v = true).
  { unfold self. destruct default; cbn; now destruct v. }
  rewrite get_handler_by_last_match.
  destruct (is_NOOP v); [now destruct v|].
  unfold exact_match.
  destruct (dict_get (_handlers self) (type v)) as [[h|]|] eqn:Hget.
  - apply dict_get_In in Hget. apply (Hentry _ _ Hget), isinstance_type.
  - destruct (last_instance_match self v) as [[k [h|]]|] eqn:Hlast;
      try exact Hdefault.
    apply last_instance_match_Some in Hlast.
    destruct Hlast as (before & after & Hsplit & Hinst & _).
    apply (Hentry k); [|exact Hinst].
    rewrite Hsplit. apply in_or_app. right. now left.
  - destruct (last_instance_match self v) as [[k [h|]]|] eqn:Hlast;
      try exact Hdefault.
    apply last_instance_match_Some in Hlast.
    destruct Hlast as (before & after & Hsplit & Hinst & _).
    apply (Hentry k); [|exact Hinst].
    rewrite Hsplit. apply in_or_app. right. now left.
Qed.

Lemma get_handler_exact (self : UBJSONEncoder) (value : value) (h : handler) :
  is_NOOP value = false ->
  dict_get (_handlers self) (type value) = Some (Some h) ->
  get_handler self value = h.
Proof.
  intros Hn Hget. unfold get_handler. now rewrite Hn, Hget.
Qed.

Lemma get_handler_no_match (self : UBJSONEncoder) (value : value) :
  is_NOOP value = false ->
  (forall entry, In entry (_handlers self) ->
     isinstance value (fst entry) = false) ->
  get_handler self value = encode_default_attr self.
Proof.
  intros Hn Hnone.
  rewrite get_handler_by_last_match, Hn. unfold exact_match.
  destruct (dict_get (_handlers self) (type value)) as [stored|] eqn:Hget.
  - apply dict_get_In in Hget. apply Hnone in Hget. cbn [fst] in Hget.
    now rewrite isinstance_type in Hget.
  - apply last_instance_match_None in Hnone. now rewrite Hnone.
Qed.

Lemma encode_as_noop_not_null : MethodType encode_as_noop <> MethodType encode_as_null.
Proof.
  intros H. injection H as H.
  assert (Hc : encode_as_noop PyNone = encode_as_null PyNone) by now rewrite H.
  discriminate Hc.
Qed.

(** C6, as stated, fails.  With handlers registered for a class [Foo] and
    for [object], an instance of a subclass of [Foo] has no exact-type
    entry and is an instance of both keys.  Iterating the registry the
    first match is [Foo], yet [get_handler] returns the handler of
    [object], the last match; with the two entries the other way round the
    first match is [object] and [get_handler] returns the handler of
    [Foo].  Whichever order the registry iterates in, the first match is
    not the one returned. *)
Lemma get_handler_last_match_wins :
  (exact_match foo_then_object bar_instance = None /\
   first_instance_match foo_then_object bar_instance
   = Some (t_class "Foo", Some (MethodType encode_as_null)) /\
   get_handler_first_match foo_then_object bar_instance
   = MethodType encode_as_null /\
   get_handler foo_then_object bar_instance = MethodType encode_as_noop /\
   get_handler foo_then_object bar_instance
   <> get_handler_first_match foo_then_object bar_instance) /\
  (exact_match object_then_foo bar_instance = None /\
   first_instance_match object_then_foo bar_instance
   = Some (t_object, Some (MethodType encode_as_noop)) /\
   get_handler_first_match object_then_foo bar_instance
   = MethodType encode_as_noop /\
   get_handler object_then_foo bar_instance = MethodType encode_as_null /\
   get_handler object_then_foo bar_instance
   <> get_handler_first_match object_then_foo bar_instance).
Proof.
  assert (H1 : get_handler_first_match foo_then_object bar_instance
               = MethodType encode_as_null) by reflexivity.
  assert (H2 : get_handler foo_then_object bar_instance
               = MethodType encode_as_noop) by reflexivity.
  assert (H3 : get_handler_first_match object_then_foo bar_instance
               = MethodType encode_as_noop) by reflexivity.
  assert (H4 : get_handler object_then_foo bar_instance
               = MethodType encode_as_null) by reflexivity.
  split; (split; [reflexivity|]; split; [reflexivity|]).
  - split; [exact H1|]. split; [exact H2|]. rewrite H1, H2.
    exact encode_as_noop_not_null.
  - split; [exact H3|]. split; [exact H4|]. rewrite H3, H4.
    intros H. now apply encode_as_noop_not_null.
Qed.

(** ** Values no handler is registered for *)

Section Unsupported.

Variable float_unicode : float -> list codepoint.

(** C8, as amended.  For every value other than the Noop sentinel that is
    an instance of no key of the registry (so neither an exact-type nor a
    subtype match exists), on an encoder constructed without a default
    handler, encoding raises [TypeError] with the message
    ['Unable to encode %r to ubjson'] formatted with the value: nothing is
    yielded and [encode] returns no bytes. *)
Theorem encode_unsupported_type
    (handlers : option (list (pytype * option (value -> result))))
    (value : value) :
  value <> NOOP ->
  (forall entry, In entry (_handlers (__init__ None handlers)) ->
     isinstance value (fst entry) = false) ->
  get_handler (__init__ None handlers) value = self_encode_default /\
  iterencode float_unicode (__init__ None handlers) value
  = ([], Some (TypeError
                 [Lit "Unable to encode "; Repr value; Lit " to ubjson"])) /\
  encode float_unicode (__init__ None handlers) value
  = inl (TypeError [Lit "Unable to encode "; Repr value; Lit " to ubjson"]).
Proof.
  intros Hnoop Hnone.
  assert (Hn : is_NOOP value = false) by (destruct value; cbn; congruence).
  assert (Hh : get_handler (__init__ None handlers) value = self_encode_default).
  { now rewrite get_handler_no_match. }
  assert (Htuple : forall items, value <> PySeq k_tuple items).
  { intros items ->.
    assert (Hk : In t_tuple (map fst (_handlers (__init__ None handlers)))).
    { apply init_keeps_default_keys. cbn. tauto. }
    apply in_map_iff in Hk. destruct Hk as (entry & Hfst & Hin).
    specialize (Hnone entry Hin). rewrite Hfst in Hnone. discriminate. }
  assert (Hit : iterencode float_unicode (__init__ None handlers) value
                = ([], Some (TypeError [Lit "Unable to encode "; Repr value;
                                        Lit " to ubjson"]))).
  { rewrite iterencode_eq, Hh. cbn [call]. unfold encode_default, raise.
    do 2 f_equal.
    destruct value as [| | | | | | | |[| | |] items| | | |]; try reflexivity.
    now destruct (Htuple items). }
  repeat split; [exact Hh | exact Hit |].
  unfold encode. now rewrite Hit.
Qed.

End Unsupported.

(** C8, as stated, fails on the Noop sentinel: with the default registry it
    is an instance of no registered key, so neither an exact-type nor a
    subtype match exists, and no default handler was given; yet encoding
    raises nothing and produces the marker N. *)
Lemma encode_NOOP_unregistered :
  (forall entry, In entry (_handlers (__init__ None None)) ->
     isinstance NOOP (fst entry) = false) /\
  dict_get (_handlers (__init__ None None)) (type NOOP) = None /\
  encode float_unicode_example (__init__ None None) NOOP = inr ["N"%byte].
Proof.
  split; [|split; reflexivity].
  intros entry Hin.
  assert (H : forallb (fun entry => negb (isinstance NOOP (fst entry)))
                (_handlers (__init__ None None)) = true) by reflexivity.
  rewrite forallb_forall in H. specialize (H entry Hin).
  now destruct (isinstance NOOP (fst entry)).
Qed.

(** ** Booleans *)

Section Booleans.

Variable float_unicode : float -> list codepoint.

(** C10.  On an encoder whose overrides do not name [bool], [True] and
    [False] resolve to [encode_bool] by the exact-type lookup, although
    they are instances of [int] and [int] is a registered key; the encoding
    is the single chunk T or F, never the marker B with a payload. *)
Theorem encode_bool_exact_type (default : option (value -> result))
    (handlers : option (list (pytype * option (value -> result))))
    (value : bool) :
  (forall hs, handlers = Some hs -> ~ In t_bool (map fst hs)) ->
  isinstance (PyBool value) t_int = true /\
  In t_int (map fst (_handlers (__init__ default handlers))) /\
  get_handler (__init__ default handlers) (PyBool value) = self_encode_bool /\
  iterencode float_unicode (__init__ default handlers) (PyBool value)
  = ([if value then MARKER_T else MARKER_F], None) /\
  encode float_unicode (__init__ default handlers) (PyBool value)
  = inr (if value then MARKER_T else MARKER_F) /\
  (forall payload,
     iterencode float_unicode (__init__ default handlers) (PyBool value)
     <> ([MARKER_B; payload], None)).
Proof.
  intros Hbool.
  assert (Hh : get_handler (__init__ default handlers) (PyBool value)
               = self_encode_bool).
  { apply get_handler_exact; [reflexivity|].
    change (type (PyBool value)) with t_bool.
    now rewrite init_get_not_overridden. }
  assert (Hit : iterencode float_unicode (__init__ default handlers)
                  (PyBool value)
                = ([if value then MARKER_T else MARKER_F], None)).
  { rewrite iterencode_eq, Hh. now destruct value. }
  split; [reflexivity|]. split.
  { apply init_keeps_default_keys. cbn. tauto. }
  split; [exact Hh|]. split; [exact Hit|]. split.
  - unfold encode. rewrite Hit. cbn. now rewrite app_nil_r.
  - intros payload. rewrite Hit. now destruct value.
Qed.

End Booleans.

(** ** Containers *)

Lemma flat_map_ext_in {A B} (f g : A -> list B) (l : list A) :
  (forall x, In x l -> f x = g x) -> flat_map f l = flat_map g l.
Proof.
  induction l as [|x l IH]; intros H; [reflexivity|].
  cbn [flat_map]. rewrite (H x (or_introl eq_refl)), IH; [reflexivity|].
  intros y Hy. apply H. now right.
Qed.

Lemma result_normal (r : result) : snd r = None -> r = (fst r, None).
Proof. destruct r as [c o]. cbn. now intros ->. Qed.

Lemma seq_normal_l (r1 r2 : result) :
  snd r1 = None -> r1 ;; r2 = (fst r1 ++ fst r2, snd r2).
Proof. intros H. now rewrite (result_normal r1 H). Qed.

Section Containers.

Variable iterencode : value -> result.

Lemma dict_entry_normal (entry : value * value) :
  isinstance (fst entry) t_basestring = true ->
  snd (iterencode (fst entry)) = None ->
  snd (iterencode (snd entry)) = None ->
  (dict_entry iterencode) entry
  = (fst (iterencode (fst entry)) ++ fst (iterencode (snd entry)), None).
Proof.
  intros Hkey Hk Hv. unfold dict_entry. rewrite Hkey. cbn [assert].
  rewrite seq_done_l, seq_normal_l by exact Hk. now rewrite Hv.
Qed.

Lemma dict_entry_bad_key (entry : value * value) :
  isinstance (fst entry) t_basestring = false ->
  (dict_entry iterencode) entry
  = ([], Some (AssertionError "object key should be a string")).
Proof. intros Hkey. unfold dict_entry. now rewrite Hkey. Qed.

Lemma iterated_dict_entry_normal (entry : value * value) :
  isinstance (fst entry) t_basestring = true ->
  (iterated_dict_entry iterencode) entry = iterencode (PySeq k_tuple [fst entry; snd entry]).
Proof.
  intros Hkey. unfold iterated_dict_entry. rewrite Hkey. cbn [assert].
  now rewrite seq_done_l.
Qed.

Lemma iterated_dict_entry_bad_key (entry : value * value) :
  isinstance (fst entry) t_basestring = false ->
  (iterated_dict_entry iterencode) entry
  = ([], Some (AssertionError "object key should be a string")).
Proof. intros Hkey. unfold iterated_dict_entry. now rewrite Hkey. Qed.

Lemma encode_array_eq (items : list value) :
  encode_array iterencode items
  = sized_header MARKER_a MARKER_A (len items) ;;
    for_each items (fun item => iterencode item).
Proof. reflexivity. Qed.

Lemma encode_dict_eq (items : list (value * value)) :
  encode_dict iterencode items
  = sized_header MARKER_o MARKER_O (len items) ;; for_each items (dict_entry iterencode).
Proof. reflexivity. Qed.

Lemma encode_iterated_dict_eq (items : list (value * value)) :
  encode_iterated_dict
    (fun key value => iterencode (PySeq k_tuple [key; value])) items
  = yield MARKER_o ;; yield MARKER_FF ;;
    for_each items (iterated_dict_entry iterencode) ;; yield MARKER_E.
Proof. reflexivity. Qed.

(** A sized array whose length fits four bytes and whose items all encode. *)
Lemma encode_array_normal (items : list value) :
  len items < 2 ^ 32 ->
  (forall item, In item items -> snd (iterencode item) = None) ->
  encode_array iterencode items
  = ([if len items <? 255 then MARKER_a else MARKER_A; length_field (len items)]
     ++ flat_map (fun item => fst (iterencode item)) items, None).
Proof.
  intros Hlen Hok. rewrite encode_array_eq.
  rewrite sized_header_fits by (pose proof (len_nonneg items); lia).
  now rewrite for_each_normal by exact Hok.
Qed.

Lemma encode_array_too_long (items : list value) :
  2 ^ 32 <= len items ->
  encode_array iterencode items
  = ([MARKER_A], Some (struct_error fmt_I (len items))).
Proof.
  intros Hlen. rewrite encode_array_eq. now rewrite sized_header_too_long.
Qed.

(** A sized object whose length fits, whose keys are strings and whose keys
    and values all encode. *)
Lemma encode_dict_normal (items : list (value * value)) :
  len items < 2 ^ 32 ->
  (forall entry, In entry items ->
     isinstance (fst entry) t_basestring = true /\
     snd (iterencode (fst entry)) = None /\
     snd (iterencode (snd entry)) = None) ->
  encode_dict iterencode items
  = ([if len items <? 255 then MARKER_o else MARKER_O; length_field (len items)]
     ++ flat_map
          (fun entry =>
             fst (iterencode (fst entry)) ++ fst (iterencode (snd entry)))
          items, None).
Proof.
  intros Hlen Hok. rewrite encode_dict_eq.
  rewrite sized_header_fits by (pose proof (len_nonneg items); lia).
  rewrite (for_each_ext items (dict_entry iterencode)
             (fun entry => (fst (iterencode (fst entry))
                            ++ fst (iterencode (snd entry)), None))).
  - now rewrite for_each_normal by reflexivity.
  - intros entry Hin. destruct (Hok entry Hin) as (Hkey & Hk & Hv).
    now apply dict_entry_normal.
Qed.

Lemma encode_dict_too_long (items : list (value * value)) :
  2 ^ 32 <= len items ->
  encode_dict iterencode items
  = ([MARKER_O], Some (struct_error fmt_I (len items))).
Proof.
  intros Hlen. rewrite encode_dict_eq. now rewrite sized_header_too_long.
Qed.

(** The first key that is not a string ends [encode_dict] with the
    assertion's error, after the entries before it. *)
Lemma encode_dict_bad_key (pre post : list (value * value))
    (entry : value * value) :
  len (pre ++ entry :: post) < 2 ^ 32 ->
  (forall earlier, In earlier pre ->
     isinstance (fst earlier) t_basestring = true /\
     snd (iterencode (fst earlier)) = None /\
     snd (iterencode (snd earlier)) = None) ->
  isinstance (fst entry) t_basestring = false ->
  encode_dict iterencode (pre ++ entry :: post)
  = ([if len (pre ++ entry :: post) <? 255 then MARKER_o else MARKER_O;
      length_field (len (pre ++ entry :: post))]
     ++ flat_map
          (fun earlier =>
             fst (iterencode (fst earlier)) ++ fst (iterencode (snd earlier)))
          pre,
     Some (AssertionError "object key should be a string")).
Proof.
  intros Hlen Hpre Hkey. rewrite encode_dict_eq.
  rewrite sized_header_fits
    by (pose proof (len_nonneg (pre ++ entry :: post)); lia).
  rewrite (for_each_raises pre post entry (dict_entry iterencode)
             (AssertionError "object key should be a string")).
  - rewrite dict_entry_bad_key by exact Hkey. cbn [fst seq snd].
    rewrite app_nil_r. do 2 f_equal.
    apply flat_map_ext_in. intros earlier Hin.
    destruct (Hpre earlier Hin) as (Hk0 & Hk & Hv).
    now rewrite dict_entry_normal.
  - intros earlier Hin. destruct (Hpre earlier Hin) as (Hk0 & Hk & Hv).
    now rewrite dict_entry_normal.
  - now rewrite dict_entry_bad_key.
Qed.

(** An unsized array whose items all encode. *)
Lemma encode_generator_normal (items : list value) :
  (forall item, In item items -> snd (iterencode item) = None) ->
  encode_generator iterencode items
  = ([MARKER_a; MARKER_FF]
     ++ flat_map (fun item => fst (iterencode item)) items
     ++ [MARKER_E], None).
Proof.
  intros Hok. unfold encode_generator.
  now rewrite for_each_normal by exact Hok.
Qed.

(** An unsized array that ended normally had only items that encoded. *)
Lemma encode_generator_normal_inv (items : list value) :
  snd (encode_generator iterencode items) = None ->
  forall item, In item items -> snd (iterencode item) = None.
Proof.
  unfold encode_generator. intros H.
  apply for_each_normal_inv.
  destruct (for_each items (fun item => iterencode item)) as [c [e|]];
    [discriminate H | reflexivity].
Qed.

(** An unsized object whose keys are strings and whose rebuilt pairs all
    encode. *)
Lemma encode_iterated_dict_normal (items : list (value * value)) :
  (forall entry, In entry items ->
     isinstance (fst entry) t_basestring = true /\
     snd (iterencode (PySeq k_tuple [fst entry; snd entry])) = None) ->
  encode_iterated_dict
    (fun key value => iterencode (PySeq k_tuple [key; value])) items
  = ([MARKER_o; MARKER_FF]
     ++ flat_map
          (fun entry => fst (iterencode (PySeq k_tuple [fst entry; snd entry])))
          items
     ++ [MARKER_E], None).
Proof.
  intros Hok. rewrite encode_iterated_dict_eq.
  rewrite (for_each_ext items (iterated_dict_entry iterencode)
             (fun entry => iterencode (PySeq k_tuple [fst entry; snd entry]))).
  - rewrite for_each_normal; [reflexivity|].
    intros entry Hin. now destruct (Hok entry Hin).
  - intros entry Hin. destruct (Hok entry Hin) as [Hkey _].
    now apply iterated_dict_entry_normal.
Qed.

Lemma encode_iterated_dict_normal_inv (items : list (value * value)) :
  snd (encode_iterated_dict
         (fun key value => iterencode (PySeq k_tuple [key; value])) items)
  = None ->
  forall entry, In entry items ->
    isinstance (fst entry) t_basestring = true /\
    snd (iterencode (PySeq k_tuple [fst entry; snd entry])) = None.
Proof.
  rewrite encode_iterated_dict_eq. intros H entry Hin.
  assert (Hloop : snd (for_each items (iterated_dict_entry iterencode)) = None).
  { destruct (for_each items (iterated_dict_entry iterencode)) as [c [e|]];
      [discriminate H | reflexivity]. }
  pose proof (for_each_normal_inv _ _ Hloop entry Hin) as Hentry.
  destruct (isinstance (fst entry) t_basestring) eqn:Hkey.
  - split; [reflexivity|]. now rewrite iterated_dict_entry_normal in Hentry.
  - rewrite iterated_dict_entry_bad_key in Hentry by exact Hkey.
    discriminate Hentry.
Qed.

(** The first key that is not a string ends [encode_iterated_dict] with the
    assertion's error, after the pairs before it; no end marker follows. *)
Lemma encode_iterated_dict_bad_key (pre post : list (value * value))
    (entry : value * value) :
  (forall earlier, In earlier pre ->
     isinstance (fst earlier) t_basestring = true /\
     snd (iterencode (PySeq k_tuple [fst earlier; snd earlier])) = None) ->
  isinstance (fst entry) t_basestring = false ->
  encode_iterated_dict
    (fun key value => iterencode (PySeq k_tuple [key; value]))
    (pre ++ entry :: post)
  = ([MARKER_o; MARKER_FF]
     ++ flat_map
          (fun earlier =>
             fst (iterencode (PySeq k_tuple [fst earlier; snd earlier])))
          pre,
     Some (AssertionError "object key should be a string")).
Proof.
  intros Hpre Hkey. rewrite encode_iterated_dict_eq.
  rewrite (for_each_raises pre post entry (iterated_dict_entry iterencode)
             (AssertionError "object key should be a string")).
  - rewrite iterated_dict_entry_bad_key by exact Hkey. cbn [fst seq snd yield].
    rewrite app_nil_r. cbn [app]. do 3 f_equal.
    apply flat_map_ext_in. intros earlier Hin.
    destruct (Hpre earlier Hin) as (Hk0 & Hk).
    now rewrite iterated_dict_entry_normal.
  - intros earlier Hin. destruct (Hpre earlier Hin) as (Hk0 & Hk).
    now rewrite iterated_dict_entry_normal.
  - now rewrite iterated_dict_entry_bad_key.
Qed.

End Containers.

(** With the default table, every container resolves to its own encoder. *)
Lemma get_handler_default_containers (default : option (value -> result)) :
  (forall k items,
     get_handler (__init__ default None) (PySeq k items) = self_encode_array) /\
  (forall k items,
     get_handler (__init__ default None) (PyIter k items)
     = self_encode_generator) /\
  (forall items,
     get_handler (__init__ default None) (PyDict items) = self_encode_dict) /\
  (forall items,
     get_handler (__init__ default None) (PyItemsIter items)
     = self_encode_iterated_dict).
Proof.
  repeat split; try reflexivity; intros k items; now destruct k.
Qed.

Section ContainerEncoding.

Variable float_unicode : float -> list codepoint.
Variable self : UBJSONEncoder.

(** C3, as amended.  A sized array (tuple, list, set, frozenset) or sized
    object (dict) of fewer than [2^32] elements whose elements all encode
    (and whose keys are strings) is encoded as the marker, the length field
    and the encodings of the elements (of each key, then its value) in
    enumeration order.  The marker is a or o with a one-byte length below
    255 elements, A or O with a four-byte big-endian length from 255; the
    length field reads back as the element count.  From [2^32] elements on,
    the long marker is yielded and packing the length raises
    [struct.error]. *)
Theorem sized_container_encoding :
  (forall k items,
     get_handler self (PySeq k items) = self_encode_array ->
     len items < 2 ^ 32 ->
     (forall item, In item items ->
        snd (iterencode float_unicode self item) = None) ->
     iterencode float_unicode self (PySeq k items)
     = ([if len items <? 255 then MARKER_a else MARKER_A;
         length_field (len items)]
        ++ flat_map (fun item => fst (iterencode float_unicode self item)) items,
        None)) /\
  (forall items,
     get_handler self (PyDict items) = self_encode_dict ->
     len items < 2 ^ 32 ->
     (forall entry, In entry items ->
        isinstance (fst entry) t_basestring = true /\
        snd (iterencode float_unicode self (fst entry)) = None /\
        snd (iterencode float_unicode self (snd entry)) = None) ->
     iterencode float_unicode self (PyDict items)
     = ([if len items <? 255 then MARKER_o else MARKER_O;
         length_field (len items)]
        ++ flat_map
             (fun entry =>
                fst (iterencode float_unicode self (fst entry))
                ++ fst (iterencode float_unicode self (snd entry)))
             items,
        None)) /\
  (forall size,
     0 <= size < 2 ^ 32 ->
     List.length (length_field size) = (if size <? 255 then 1%nat else 4%nat) /\
     unsigned_of (length_field size) = size) /\
  (forall k items,
     get_handler self (PySeq k items) = self_encode_array ->
     2 ^ 32 <= len items ->
     iterencode float_unicode self (PySeq k items)
     = ([MARKER_A], Some (struct_error fmt_I (len items)))) /\
  (forall items,
     get_handler self (PyDict items) = self_encode_dict ->
     2 ^ 32 <= len items ->
     iterencode float_unicode self (PyDict items)
     = ([MARKER_O], Some (struct_error fmt_I (len items)))).
Proof.
  split; [|split; [|split; [|split]]].
  - intros k items Hh Hlen Hok. rewrite iterencode_eq, Hh. cbn [call].
    now apply encode_array_normal.
  - intros items Hh Hlen Hok. rewrite iterencode_eq, Hh. cbn [call].
    now apply encode_dict_normal.
  - intros size Hsize. split;
      [apply length_length_field | now apply unsigned_of_length_field].
  - intros k items Hh Hlen. rewrite iterencode_eq, Hh. cbn [call].
    now apply encode_array_too_long.
  - intros items Hh Hlen. rewrite iterencode_eq, Hh. cbn [call].
    now apply encode_dict_too_long.
Qed.

(** C4.  An unsized producer of finitely many items whose items all encode
    is encoded as the unsized marker (a, or o for a dict's item iterator),
    the placeholder byte 0xFF, the encoding of each produced item in
    production order (for an item iterator the produced item is the pair,
    whose key must be a string), and the end marker E; there is no length
    field.  Conversely an encoding that ends normally had only items that
    encode, so it has this form and ends with E. *)
Theorem unsized_container_encoding :
  (forall k items,
     get_handler self (PyIter k items) = self_encode_generator ->
     ((forall item, In item items ->
         snd (iterencode float_unicode self item) = None) <->
      snd (iterencode float_unicode self (PyIter k items)) = None) /\
     ((forall item, In item items ->
         snd (iterencode float_unicode self item) = None) ->
      iterencode float_unicode self (PyIter k items)
      = ([MARKER_a; MARKER_FF]
         ++ flat_map (fun item => fst (iterencode float_unicode self item)) items
         ++ [MARKER_E], None))) /\
  (forall items,
     get_handler self (PyItemsIter items) = self_encode_iterated_dict ->
     ((forall entry, In entry items ->
         isinstance (fst entry) t_basestring = true /\
         snd (iterencode float_unicode self
                (PySeq k_tuple [fst entry; snd entry])) = None) <->
      snd (iterencode float_unicode self (PyItemsIter items)) = None) /\
     ((forall entry, In entry items ->
         isinstance (fst entry) t_basestring = true /\
         snd (iterencode float_unicode self
                (PySeq k_tuple [fst entry; snd entry])) = None) ->
      iterencode float_unicode self (PyItemsIter items)
      = ([MARKER_o; MARKER_FF]
         ++ flat_map
              (fun entry =>
                 fst (iterencode float_unicode self
                        (PySeq k_tuple [fst entry; snd entry])))
              items
         ++ [MARKER_E], None))).
Proof.
  split.
  - intros k items Hh. rewrite iterencode_eq, Hh. cbn [call]. split.
    + split.
      * intros Hok. now rewrite encode_generator_normal.
      * apply encode_generator_normal_inv.
    + apply encode_generator_normal.
  - intros items Hh. rewrite iterencode_eq, Hh. cbn [call]. split.
    + split.
      * intros Hok. now rewrite encode_iterated_dict_normal.
      * apply encode_iterated_dict_normal_inv.
    + apply encode_iterated_dict_normal.
Qed.

(** C9.  In a sized object (of fewer than [2^32] entries) and in an unsized
    object alike, the first key that is not a string ends the encoding
    with [AssertionError('object key should be a string')], raised when
    its entry is reached: the header and the entries before it have been
    yielded, nothing of the offending entry is, and [encode] returns no
    bytes. *)
Theorem non_string_key_asserts (pre post : list (value * value))
    (key val : value) :
  isinstance key t_basestring = false ->
  (get_handler self (PyDict (pre ++ (key, val) :: post)) = self_encode_dict ->
   len (pre ++ (key, val) :: post) < 2 ^ 32 ->
   (forall earlier, In earlier pre ->
      isinstance (fst earlier) t_basestring = true /\
      snd (iterencode float_unicode self (fst earlier)) = None /\
      snd (iterencode float_unicode self (snd earlier)) = None) ->
   iterencode float_unicode self (PyDict (pre ++ (key, val) :: post))
   = ([if len (pre ++ (key, val) :: post) <? 255 then MARKER_o else MARKER_O;
       length_field (len (pre ++ (key, val) :: post))]
      ++ flat_map
           (fun earlier =>
              fst (iterencode float_unicode self (fst earlier))
              ++ fst (iterencode float_unicode self (snd earlier)))
           pre,
      Some (AssertionError "object key should be a string")) /\
   encode float_unicode self (PyDict (pre ++ (key, val) :: post))
   = inl (AssertionError "object key should be a string")) /\
  (get_handler self (PyItemsIter (pre ++ (key, val) :: post))
   = self_encode_iterated_dict ->
   (forall earlier, In earlier pre ->
      isinstance (fst earlier) t_basestring = true /\
      snd (iterencode float_unicode self
             (PySeq k_tuple [fst earlier; snd earlier])) = None) ->
   iterencode float_unicode self (PyItemsIter (pre ++ (key, val) :: post))
   = ([MARKER_o; MARKER_FF]
      ++ flat_map
           (fun earlier =>
              fst (iterencode float_unicode self
                     (PySeq k_tuple [fst earlier; snd earlier])))
           pre,
      Some (AssertionError "object key should be a string")) /\
   encode float_unicode self (PyItemsIter (pre ++ (key, val) :: post))
   = inl (AssertionError "object key should be a string")).
Proof.
  intros Hkey. split.
  - intros Hh Hlen Hpre.
    assert (Hit : iterencode float_unicode self
                    (PyDict (pre ++ (key, val) :: post))
                  = ([if len (pre ++ (key, val) :: post) <? 255
                      then MARKER_o else MARKER_O;
                      length_field (len (pre ++ (key, val) :: post))]
                     ++ flat_map
                          (fun earlier =>
                             fst (iterencode float_unicode self (fst earlier))
                             ++ fst (iterencode float_unicode self (snd earlier)))
                          pre,
                     Some (AssertionError "object key should be a string"))).
    { rewrite iterencode_eq, Hh. cbn [call].
      now apply encode_dict_bad_key. }
    split; [exact Hit|]. unfold encode. now rewrite Hit.
  - intros Hh Hpre.
    assert (Hit : iterencode float_unicode self
                    (PyItemsIter (pre ++ (key, val) :: post))
                  = ([MARKER_o; MARKER_FF]
                     ++ flat_map
                          (fun earlier =>
                             fst (iterencode float_unicode self
                                    (PySeq k_tuple [fst earlier; snd earlier])))
                          pre,
                     Some (AssertionError "object key should be a string"))).
    { rewrite iterencode_eq, Hh. cbn [call].
      now apply encode_iterated_dict_bad_key. }
    split; [exact Hit|]. unfold encode. now rewrite Hit.
Qed.

End ContainerEncoding.

(** ** Floats *)

Lemma digits2_pos_bounds (m : positive) :
  2 ^ (Z.pos (digits2_pos m) - 1) <= Z.pos m < 2 ^ Z.pos (digits2_pos m).
Proof.
  induction m as [m IH|m IH|]; cbn [digits2_pos].
  - rewrite Pos2Z.inj_succ. change (Z.pos m~1) with (2 * Z.pos m + 1).
    replace (Z.succ (Z.pos (digits2_pos m)) - 1)
      with (Z.succ (Z.pos (digits2_pos m) - 1)) by lia.
    rewrite !Z.pow_succ_r by lia. lia.
  - rewrite Pos2Z.inj_succ. change (Z.pos m~0) with (2 * Z.pos m).
    replace (Z.succ (Z.pos (digits2_pos m)) - 1)
      with (Z.succ (Z.pos (digits2_pos m) - 1)) by lia.
    rewrite !Z.pow_succ_r by lia. lia.
  - cbn. lia.
Qed.

Lemma round_half_even_le (m shift : Z) :
  round_half_even m shift <= m / 2 ^ shift + 1.
Proof.
  unfold round_half_even.
  destruct (m mod 2 ^ shift <? 2 ^ (shift - 1)); [lia|].
  destruct (2 ^ (shift - 1) <? m mod 2 ^ shift); [lia|].
  destruct (Z.even (m / 2 ^ shift)); lia.
Qed.

Lemma div_pow2_lt (m d shift k : Z) :
  0 <= m < 2 ^ d -> 0 <= shift -> 0 <= k -> d <= shift + k ->
  m / 2 ^ shift < 2 ^ k.
Proof.
  intros Hm Hs Hk Hd.
  apply Z.div_lt_upper_bound; [apply Z.pow_pos_nonneg; lia|].
  rewrite <- Z.pow_add_r by lia.
  apply Z.lt_le_trans with (2 ^ d); [lia|].
  apply Z.pow_le_mono_r; lia.
Qed.

(** A double in canonical form has at most 53 mantissa bits, and fewer only
    at the least exponent. *)
Lemma bounded_binary64 (m : positive) (e : Z) :
  bounded prec emax m e = true ->
  Z.pos (digits2_pos m) <= 53 /\ -1074 <= e <= 971 /\
  (Z.pos (digits2_pos m) = 53 \/ e = -1074).
Proof.
  unfold bounded, canonical_mantissa, fexp, SpecFloat.emin, prec, emax.
  rewrite andb_true_iff, Z.eqb_eq, Z.leb_le. lia.
Qed.

(** Converting a canonical double of exponent at most 75, and of mantissa
    at most that of [3.4e38] when the exponent is 75, to single precision
    does not overflow. *)
Lemma binary32_magnitude_no_overflow (m : positive) (e : Z) :
  bounded prec emax m e = true ->
  e < 75 \/ (e = 75 /\ Z.pos m <= 8999725064576941) ->
  binary32_magnitude m e < 255 * 2 ^ 23.
Proof.
  intros Hvalid Hle.
  destruct (bounded_binary64 m e Hvalid) as (Hd & He & Hnorm).
  pose proof (digits2_pos_bounds m) as Hm.
  unfold binary32_magnitude.
  set (d := Z.pos (digits2_pos m)) in *.
  set (e' := Z.max (d + e - 24) (-149)).
  assert (Hd0 : 0 < d) by (unfold d; lia).
  assert (He' : e < e') by (unfold e'; lia).
  destruct (Z.leb_spec e' e) as [Hcontra|_]; [lia|].
  pose proof (round_half_even_le (Z.pos m) (e' - e)) as Hq.
  assert (Hdiv : Z.pos m / 2 ^ (e' - e) < 2 ^ 24).
  { apply (div_pow2_lt _ d); unfold e'; lia. }
  change (2 ^ 23) with 8388608. change (2 ^ 24) with 16777216 in Hdiv.
  destruct (Z.le_gt_cases (e' + 149) 252) as [Hsmall|Hbig]; [lia|].
  assert (Htop : e = 75 /\ d = 53 /\ e' = 104) by (unfold e' in *; lia).
  destruct Htop as (-> & Hd53 & ->).
  destruct Hle as [Hlt|[_ Hmh]]; [lia|].
  change (104 - 75) with 29 in *.
  assert (Hdiv' : Z.pos m / 2 ^ 29 <= 8999725064576941 / 2 ^ 29)
    by (apply Z.div_le_mono; [reflexivity | exact Hmh]).
  change (8999725064576941 / 2 ^ 29) with 16763294 in Hdiv'.
  lia.
Qed.

Lemma round_half_even_ge (m shift : Z) :
  m / 2 ^ shift <= round_half_even m shift.
Proof.
  unfold round_half_even.
  destruct (m mod 2 ^ shift <? 2 ^ (shift - 1)); [lia|].
  destruct (2 ^ (shift - 1) <? m mod 2 ^ shift); [lia|].
  destruct (Z.even (m / 2 ^ shift)); lia.
Qed.

(** [round_half_even m shift] is a multiple of [2^shift] nearest to [m],
    and the even one of the two when [m] lies half-way. *)
Lemma round_half_even_nearest (m shift : Z) :
  0 < shift ->
  2 * Z.abs (round_half_even m shift * 2 ^ shift - m) <= 2 ^ shift /\
  (2 * Z.abs (round_half_even m shift * 2 ^ shift - m) = 2 ^ shift ->
   Z.even (round_half_even m shift) = true).
Proof.
  intros Hs. unfold round_half_even.
  assert (Hp : 2 ^ shift = 2 * 2 ^ (shift - 1)).
  { replace shift with (Z.succ (shift - 1)) at 1 by lia.
    rewrite Z.pow_succ_r; lia. }
  assert (Hh : 0 < 2 ^ (shift - 1)) by (apply Z.pow_pos_nonneg; lia).
  pose proof (Z.div_mod m (2 ^ shift) ltac:(lia)) as Hdm.
  pose proof (Z.mod_pos_bound m (2 ^ shift) ltac:(lia)) as Hr.
  set (q := m / 2 ^ shift) in *. set (r := m mod 2 ^ shift) in *.
  set (P := 2 ^ shift) in *. set (h := 2 ^ (shift - 1)) in *.
  destruct (Z.ltb_spec r h); [split; nia|].
  destruct (Z.ltb_spec h r); [split; nia|].
  destruct (Z.even q) eqn:Eq; [split; [nia | auto]|].
  split; [nia|]. intros _.
  rewrite Z.add_1_r, Z.even_succ, <- Z.negb_even. now rewrite Eq.
Qed.

Lemma Prim2SF_3_4e38 :
  Prim2SF 3.4e38 = S754_finite false 8999725064576941 75.
Proof. reflexivity. Qed.

Lemma Prim2SF_1_18e_38 :
  Prim2SF 1.18e-38 = S754_finite false 4520861845554372 (-178).
Proof. reflexivity. Qed.

(** What the two tests of [is_float] say of a double: it is finite, of
    exponent between that of [1.18e-38] and that of [3.4e38], its mantissa
    at most that of [3.4e38] at the top exponent. *)
Lemma is_float_finite (x : float) :
  is_float x = true ->
  exists s m e,
    Prim2SF x = S754_finite s m e /\ bounded prec emax m e = true /\
    -178 <= e /\ (e < 75 \/ (e = 75 /\ Z.pos m <= 8999725064576941)).
Proof.
  unfold is_float. rewrite andb_true_iff. intros [Hlo Hhi].
  rewrite leb_spec, abs_spec in Hlo, Hhi.
  rewrite Prim2SF_3_4e38 in Hhi. rewrite Prim2SF_1_18e_38 in Hlo.
  pose proof (Prim2SF_valid x) as Hvalid.
  destruct (Prim2SF x) as [s|s| |s m e]; try discriminate Hlo;
    try discriminate Hhi.
  exists s, m, e. split; [reflexivity|]. split; [exact Hvalid|].
  clear Hvalid. cbn [SFabs] in Hlo, Hhi.
  unfold SFleb, SFcompare in Hlo, Hhi. split.
  - clear Hhi. revert Hlo.
    destruct (Z.compare_spec (-178) e) as [<-|Hlt|Hgt]; intros Hlo;
      [lia | lia | discriminate Hlo].
  - clear Hlo. revert Hhi.
    destruct (Z.compare_spec e 75) as [->|Hlt|Hgt];
      [|intros _; left; exact Hlt|discriminate].
    rewrite Pos.compare_cont_spec. unfold Pos.switch_Eq.
    destruct (Pos.compare_spec m 8999725064576941) as [->|Hm|Hm];
      try discriminate; intros _; right; (split; [reflexivity|]).
    + apply Z.le_refl.
    + apply Pos2Z.pos_le_pos. now apply Pos.lt_le_incl.
Qed.

(** Within the range [is_float] tests the double converts to a single, a
    normal number: the 53 mantissa bits are rounded
    to 24 by dropping 29, to nearest and ties to even, and the exponent
    field is the double's exponent rebased (a carry out of the mantissa
    moves into it). *)
Lemma is_float_binary32_bits (x : float) :
  is_float x = true ->
  exists s m e,
    Prim2SF x = S754_finite s m e /\
    binary32_bits (Prim2SF x)
    = Some (sign_bit s 31
            + ((e + 178) * 2 ^ 23 + round_half_even (Z.pos m) 29)) /\
    2 ^ 23 <= round_half_even (Z.pos m) 29 <= 2 ^ 24 /\
    0 <= e + 178 <= 253.
Proof.
  intros H. destruct (is_float_finite x H) as (s & m & e & Hx & Hb & Hlo & Hhi).
  exists s, m, e. split; [exact Hx|]. rewrite Hx. cbn [binary32_bits].
  pose proof (binary32_magnitude_no_overflow m e Hb Hhi) as Hmag.
  apply Z.ltb_lt in Hmag. rewrite Hmag. clear Hmag.
  destruct (bounded_binary64 m e Hb) as (Hd & He & Hnorm).
  pose proof (digits2_pos_bounds m) as Hm.
  assert (Hd53 : Z.pos (digits2_pos m) = 53) by lia.
  rewrite Hd53 in Hm. change (2 ^ (53 - 1)) with (2 ^ 52) in Hm.
  unfold binary32_magnitude. rewrite Hd53.
  replace (Z.max (53 + e - 24) (-149)) with (e + 29) by lia.
  destruct (Z.leb_spec (e + 29) e) as [Hcontra|_]; [lia|].
  replace (e + 29 - e) with 29 by lia.
  replace (e + 29 + 149) with (e + 178) by lia.
  split; [reflexivity|].
  pose proof (round_half_even_le (Z.pos m) 29) as Hle.
  pose proof (round_half_even_ge (Z.pos m) 29) as Hge.
  assert (Hq : 2 ^ 23 <= Z.pos m / 2 ^ 29 < 2 ^ 24).
  { split.
    - apply Z.div_le_lower_bound; [reflexivity|].
      change (2 ^ 29 * 2 ^ 23) with (2 ^ 52). lia.
    - apply Z.div_lt_upper_bound; [reflexivity|].
      change (2 ^ 29 * 2 ^ 24) with (2 ^ 53). lia. }
  lia.
Qed.




(** [binary32_bits] and the Standard Library's rounding agree on sample
    doubles: values exact in single precision, values that round up and
    down, ties, the largest single and the overflow threshold above it,
    the least normal single and subnormal singles, values that round to
    zero. *)
Example binary32_bits_agrees_with_SpecFloat :
  forallb
    (fun x =>
       match binary32_bits (Prim2SF x), SpecFloat_binary32_bits (Prim2SF x) with
       | Some a, Some b => a =? b
       | None, None => true
       | _, _ => false
       end)
    [1.5; 0.1; 3.4e38; 1.18e-38; 1e-40; -2.5; 1e-45; 7e-46; 3.4028235e38;
     3.4028235677973366e38; 3.4028235677973362e38; 1e300; -1e300; 16777217;
     16777219; 16777218; 0; -0; 5e-324; 1.1754943e-38; 1.17549435e-38;
     1.1754942e-38; 2.8e-45; 4.2e-45; 1.401298464324817e-45;
     7.006492321624085e-46; 0.333333333333; 123456789.125; 65504; infinity;
     neg_infinity]%float
  = true.
Proof. vm_compute. reflexivity. Qed.

Lemma Prim2SF_infinities :
  Prim2SF infinity = S754_infinity false /\
  Prim2SF neg_infinity = S754_infinity true /\
  Prim2SF 1.8e308 = S754_infinity false.
Proof. repeat split. Qed.

Lemma SFeqb_infinity (sx : spec_float) (s : bool) :
  SFeqb sx (S754_infinity s) = true <-> sx = S754_infinity s.
Proof.
  unfold SFeqb, SFcompare.
  destruct sx as [s0|s0| |s0 m e]; try destruct s0; destruct s;
    split; intros H; try reflexivity; try discriminate H.
Qed.

(** [is_infinity] holds of the two infinities and of nothing else. *)
Lemma is_infinity_spec (x : float) :
  is_infinity x = true <-> exists s, Prim2SF x = S754_infinity s.
Proof.
  destruct Prim2SF_infinities as (Hp & Hn & _).
  unfold is_infinity. rewrite orb_true_iff, !eqb_spec, Hp, Hn.
  rewrite !SFeqb_infinity. split.
  - intros [H|H]; eauto.
  - intros [[|] H]; auto.
Qed.



Section FloatEncoding.

Variable float_unicode : float -> list codepoint.


End FloatEncoding.

(** ** Unsized objects, entry by entry *)

(** With the default table a pair handed to [iterencode] is a tuple of two
    items, so it comes out as a sized array: the marker a, the length 2,
    then the key and the value. *)
Lemma iterencode_pair_default (float_unicode : float -> list codepoint)
    (default : option (value -> result)) (key val : value) :
  iterencode float_unicode (__init__ default None) (PySeq k_tuple [key; val])
  = yield MARKER_a ;; yield [x02] ;;
    iterencode float_unicode (__init__ default None) key ;;
    iterencode float_unicode (__init__ default None) val.
Proof.
  rewrite iterencode_eq.
  destruct (get_handler_default_containers default) as (-> & _).
  cbn [call]. unfold encode_array. rewrite !for_each_cons.
  change (for_each [] _) with done. now rewrite seq_done_r.
Qed.

(** C7 (the code departs from it).  [encode_iterated_dict] hands each
    unpacked pair back to [iterencode] as a tuple, so in an unsized object
    every entry is the key's encoding followed by the value's encoding
    only after the two chunks of a sized-array header, a and the length 2;
    [encode_dict] encodes the key and the value themselves.  For the item
    iterator of [{'a': 1}] the chunks are o, 0xFF, a, 2, s, 1, 'a', B, 1,
    E, where the dict itself gives o, 1, s, 1, 'a', B, 1. *)
Theorem encode_iterated_dict_wraps_entries
    (float_unicode : float -> list codepoint)
    (default : option (value -> result)) :
  (forall items,
     iterencode float_unicode (__init__ default None) (PyItemsIter items)
     = yield MARKER_o ;; yield MARKER_FF ;;
       for_each items (fun entry =>
         assert (isinstance (fst entry) t_basestring)
           "object key should be a string" ;;
         yield MARKER_a ;; yield [x02] ;;
         iterencode float_unicode (__init__ default None) (fst entry) ;;
         iterencode float_unicode (__init__ default None) (snd entry)) ;;
       yield MARKER_E) /\
  iterencode float_unicode (__init__ default None)
    (PyItemsIter [(py_str "a", PyInt 1)])
  = ([MARKER_o; MARKER_FF; MARKER_a; [x02]; MARKER_s; [x01]; ["a"%byte];
      MARKER_B; [x01]; MARKER_E], None) /\
  iterencode float_unicode (__init__ default None) (PyDict [(py_str "a", PyInt 1)])
  = ([MARKER_o; [x01]; MARKER_s; [x01]; ["a"%byte]; MARKER_B; [x01]], None).
Proof.
  split; [|split; reflexivity].
  intros items. rewrite iterencode_eq.
  destruct (get_handler_default_containers default) as (_ & _ & _ & ->).
  cbn [call]. rewrite encode_iterated_dict_eq. do 2 f_equal.
  f_equal. apply for_each_ext. intros entry _.
  unfold iterated_dict_entry. now rewrite iterencode_pair_default.
Qed.

(** ** Sized containers beyond the length field *)

(** C3, as stated, fails on a list of [2^32] items: the count is not below
    255, yet no four-byte length follows the long marker;
    [struct.pack('>I', size)] raises and [encode] returns no bytes. *)
Lemma encode_array_four_gibi_items :
  255 <= len four_gibi_items /\
  iterencode float_unicode_example (__init__ None None)
    (PySeq k_list four_gibi_items)
  = ([MARKER_A], Some (struct_error fmt_I (2 ^ 32))) /\
  encode float_unicode_example (__init__ None None)
    (PySeq k_list four_gibi_items)
  = inl (struct_error fmt_I (2 ^ 32)).
Proof.
  assert (Hlen : len four_gibi_items = 2 ^ 32).
  { unfold four_gibi_items. apply len_repeat. apply Z.pow_nonneg. lia. }
  assert (Hit : iterencode float_unicode_example (__init__ None None)
                  (PySeq k_list four_gibi_items)
                = ([MARKER_A], Some (struct_error fmt_I (2 ^ 32)))).
  { rewrite iterencode_eq.
    destruct (get_handler_default_containers None) as (-> & _).
    cbn [call]. rewrite encode_array_too_long; rewrite Hlen;
      [reflexivity | lia]. }
  split; [|split].
  - rewrite Hlen. apply Z.lt_le_incl. reflexivity.
  - exact Hit.
  - unfold encode. now rewrite Hit.
Qed.

(** ** The encoder on sample values *)

(** [encode] of [None], [5], [30000], ['hi'], [[1, 2, 3]], [{'a': 1}], a
    generator yielding 1 then 2, [2**64], [True], the Noop sentinel and
    zero, on the default encoder. *)
Example encode_samples :
  map (encode float_unicode_example (__init__ None None))
    [PyNone; PyInt 5; PyInt 30000; py_str "hi";
     PySeq k_list [PyInt 1; PyInt 2; PyInt 3];
     PyDict [(py_str "a", PyInt 1)];
     PyIter k_generator [PyInt 1; PyInt 2];
     PyLong (2 ^ 64); PyBool true; NOOP; PyFloat 0]
  = map inr
      [["Z"]; ["B"; x05]; ["i"; x75; x30]; ["s"; x02; "h"; "i"];
       ["a"; x03; "B"; x01; "B"; x02; "B"; x03];
       ["o"; x01; "s"; x01; "a"; "B"; x01];
       ["a"; xff; "B"; x01; "B"; x02; "E"];
       "h" :: x14 :: list_byte_of_string "18446744073709551616";
       ["T"]; ["N"]; ["h"; x03; "0"; "."; "0"]]%byte.
Proof. vm_compute. reflexivity. Qed.

(** A list with an item no handler is registered for: the chunks before
    the item have been yielded when [TypeError] is raised, and [encode]
    returns no bytes. *)
Example encode_aborts_at_item :
  iterencode float_unicode_example (__init__ None None)
    (PySeq k_list [PyInt 1; PyObject "Foo" [] 1; PyInt 3])
  = ([MARKER_a; [x03]; MARKER_B; [x01]],
     Some (TypeError [Lit "Unable to encode "; Repr (PyObject "Foo" [] 1);
                      Lit " to ubjson"])) /\
  encode float_unicode_example (__init__ None None)
    (PySeq k_list [PyInt 1; PyObject "Foo" [] 1; PyInt 3])
  = inl (TypeError [Lit "Unable to encode "; Repr (PyObject "Foo" [] 1);
                    Lit " to ubjson"]).
Proof. split; reflexivity. Qed.

(** ** The statements at sample inputs *)

Lemma entries_forallb (items : list (pytype * option handler)) (v : value) :
  forallb (fun entry => negb (isinstance v (fst entry))) items = true ->
  forall entry, In entry items -> isinstance v (fst entry) = false.
Proof.
  intros H entry Hin. rewrite forallb_forall in H.
  specialize (H entry Hin). now destruct (isinstance v (fst entry)).
Qed.



(** C3 at the list [[1, 2, 3]] and the dict [{'a': 1}], default encoder. *)
Lemma sized_container_encoding_witness :
  (get_handler (__init__ None None) (PySeq k_list [PyInt 1; PyInt 2; PyInt 3])
   = self_encode_array /\
   len [PyInt 1; PyInt 2; PyInt 3] < 2 ^ 32 /\
   (forall item, In item [PyInt 1; PyInt 2; PyInt 3] ->
      snd (iterencode float_unicode_example (__init__ None None) item) = None) /\
   iterencode float_unicode_example (__init__ None None)
     (PySeq k_list [PyInt 1; PyInt 2; PyInt 3])
   = ([if len [PyInt 1; PyInt 2; PyInt 3] <? 255 then MARKER_a else MARKER_A;
       length_field (len [PyInt 1; PyInt 2; PyInt 3])]
      ++ flat_map
           (fun item =>
              fst (iterencode float_unicode_example (__init__ None None) item))
           [PyInt 1; PyInt 2; PyInt 3],
      None)) /\
  (get_handler (__init__ None None) (PyDict [(py_str "a", PyInt 1)])
   = self_encode_dict /\
   len [(py_str "a", PyInt 1)] < 2 ^ 32 /\
   (forall entry, In entry [(py_str "a", PyInt 1)] ->
      isinstance (fst entry) t_basestring = true /\
      snd (iterencode float_unicode_example (__init__ None None) (fst entry))
      = None /\
      snd (iterencode float_unicode_example (__init__ None None) (snd entry))
      = None) /\
   iterencode float_unicode_example (__init__ None None)
     (PyDict [(py_str "a", PyInt 1)])
   = ([if len [(py_str "a", PyInt 1)] <? 255 then MARKER_o else MARKER_O;
       length_field (len [(py_str "a", PyInt 1)])]
      ++ flat_map
           (fun entry =>
              fst (iterencode float_unicode_example (__init__ None None)
                     (fst entry))
              ++ fst (iterencode float_unicode_example (__init__ None None)
                        (snd entry)))
           [(py_str "a", PyInt 1)],
      None)).
Proof.
  destruct (sized_container_encoding float_unicode_example (__init__ None None))
    as (Harray & Hdict & _).
  assert (Hitems : forall item, In item [PyInt 1; PyInt 2; PyInt 3] ->
            snd (iterencode float_unicode_example (__init__ None None) item)
            = None).
  { intros item [<-|[<-|[<-|[]]]]; reflexivity. }
  assert (Hentries : forall entry, In entry [(py_str "a", PyInt 1)] ->
            isinstance (fst entry) t_basestring = true /\
            snd (iterencode float_unicode_example (__init__ None None)
                   (fst entry)) = None /\
            snd (iterencode float_unicode_example (__init__ None None)
                   (snd entry)) = None).
  { intros entry [<-|[]]. repeat split. }
  split.
  - split; [reflexivity|]. split; [reflexivity|]. split; [exact Hitems|].
    apply Harray; [reflexivity | reflexivity | exact Hitems].
  - split; [reflexivity|]. split; [reflexivity|]. split; [exact Hentries|].
    apply Hdict; [reflexivity | reflexivity | exact Hentries].
Defined.

(** C4 at a generator yielding 1 then 2 and at the item iterator of
    [{'a': 1}], default encoder. *)
Lemma unsized_container_encoding_witness :
  (get_handler (__init__ None None) (PyIter k_generator [PyInt 1; PyInt 2])
   = self_encode_generator /\
   (forall item, In item [PyInt 1; PyInt 2] ->
      snd (iterencode float_unicode_example (__init__ None None) item) = None) /\
   iterencode float_unicode_example (__init__ None None)
     (PyIter k_generator [PyInt 1; PyInt 2])
   = ([MARKER_a; MARKER_FF]
      ++ flat_map
           (fun item =>
              fst (iterencode float_unicode_example (__init__ None None) item))
           [PyInt 1; PyInt 2]
      ++ [MARKER_E], None)) /\
  (get_handler (__init__ None None) (PyItemsIter [(py_str "a", PyInt 1)])
   = self_encode_iterated_dict /\
   (forall entry, In entry [(py_str "a", PyInt 1)] ->
      isinstance (fst entry) t_basestring = true /\
      snd (iterencode float_unicode_example (__init__ None None)
             (PySeq k_tuple [fst entry; snd entry])) = None) /\
   iterencode float_unicode_example (__init__ None None)
     (PyItemsIter [(py_str "a", PyInt 1)])
   = ([MARKER_o; MARKER_FF]
      ++ flat_map
           (fun entry =>
              fst (iterencode float_unicode_example (__init__ None None)
                     (PySeq k_tuple [fst entry; snd entry])))
           [(py_str "a", PyInt 1)]
      ++ [MARKER_E], None)).
Proof.
  destruct (unsized_container_encoding float_unicode_example
              (__init__ None None)) as (Hgen & Hitems).
  assert (Hok : forall item, In item [PyInt 1; PyInt 2] ->
            snd (iterencode float_unicode_example (__init__ None None) item)
            = None).
  { intros item [<-|[<-|[]]]; reflexivity. }
  assert (Hentries : forall entry, In entry [(py_str "a", PyInt 1)] ->
            isinstance (fst entry) t_basestring = true /\
            snd (iterencode float_unicode_example (__init__ None None)
                   (PySeq k_tuple [fst entry; snd entry])) = None).
  { intros entry [<-|[]]. repeat split. }
  split.
  - split; [reflexivity|]. split; [exact Hok|].
    apply (Hgen k_generator [PyInt 1; PyInt 2]); [reflexivity | exact Hok].
  - split; [reflexivity|]. split; [exact Hentries|].
    apply (Hitems [(py_str "a", PyInt 1)]); [reflexivity | exact Hentries].
Defined.

(** C5 at the string ['hi'] and at the huge number [2^64]. *)
Lemma encode_str_huge_number_threshold_witness :
  (len (utf8_bytes (Str (list_byte_of_string "hi"))) < 2 ^ 32 /\
   encode_str (Str (list_byte_of_string "hi"))
   = ([if len (utf8_bytes (Str (list_byte_of_string "hi"))) <? 255
       then MARKER_s else MARKER_S;
       length_field (len (utf8_bytes (Str (list_byte_of_string "hi"))));
       utf8_bytes (Str (list_byte_of_string "hi"))], None)) /\
  (len (utf8_encode (unicode float_unicode_example (Integer (2 ^ 64))))
   < 2 ^ 32 /\
   encode_huge_number float_unicode_example (Integer (2 ^ 64))
   = ([if len (utf8_encode (unicode float_unicode_example (Integer (2 ^ 64))))
          <? 255
       then MARKER_h else MARKER_H;
       length_field
         (len (utf8_encode (unicode float_unicode_example (Integer (2 ^ 64)))));
       utf8_encode (unicode float_unicode_example (Integer (2 ^ 64)))], None)).
Proof.
  destruct (encode_str_huge_number_threshold float_unicode_example)
    as (Hstr & Hhuge & _).
  split.
  - split; [reflexivity|]. apply Hstr. reflexivity.
  - split; [reflexivity|]. apply Hhuge. reflexivity.
Defined.

(** C8 at an instance of a user class, default registry. *)
Lemma encode_unsupported_type_witness :
  PyObject "Foo" [] 1 <> NOOP /\
  (forall entry, In entry (_handlers (__init__ None None)) ->
     isinstance (PyObject "Foo" [] 1) (fst entry) = false) /\
  get_handler (__init__ None None) (PyObject "Foo" [] 1)
  = self_encode_default /\
  iterencode float_unicode_example (__init__ None None) (PyObject "Foo" [] 1)
  = ([], Some (TypeError
                 [Lit "Unable to encode "; Repr (PyObject "Foo" [] 1);
                  Lit " to ubjson"])) /\
  encode float_unicode_example (__init__ None None) (PyObject "Foo" [] 1)
  = inl (TypeError
           [Lit "Unable to encode "; Repr (PyObject "Foo" [] 1);
            Lit " to ubjson"]).
Proof.
  assert (Hnoop : PyObject "Foo" [] 1 <> NOOP) by discriminate.
  assert (Hnone : forall entry, In entry (_handlers (__init__ None None)) ->
            isinstance (PyObject "Foo" [] 1) (fst entry) = false).
  { apply entries_forallb. reflexivity. }
  split; [exact Hnoop|]. split; [exact Hnone|].
  exact (encode_unsupported_type float_unicode_example None
           (PyObject "Foo" [] 1) Hnoop Hnone).
Defined.

(** C9 at [{'a': 1, 1: 1}] and at its item iterator, default encoder. *)
Lemma non_string_key_asserts_witness :
  isinstance (PyInt 1) t_basestring = false /\
  (get_handler (__init__ None None)
     (PyDict ([(py_str "a", PyInt 1)] ++ (PyInt 1, PyInt 1) :: []))
   = self_encode_dict /\
   len ([(py_str "a", PyInt 1)] ++ (PyInt 1, PyInt 1) :: []) < 2 ^ 32 /\
   iterencode float_unicode_example (__init__ None None)
     (PyDict ([(py_str "a", PyInt 1)] ++ (PyInt 1, PyInt 1) :: []))
   = ([MARKER_o; [x02]; MARKER_s; [x01]; ["a"%byte]; MARKER_B; [x01]],
      Some (AssertionError "object key should be a string")) /\
   encode float_unicode_example (__init__ None None)
     (PyDict ([(py_str "a", PyInt 1)] ++ (PyInt 1, PyInt 1) :: []))
   = inl (AssertionError "object key should be a string")) /\
  (get_handler (__init__ None None)
     (PyItemsIter ([(py_str "a", PyInt 1)] ++ (PyInt 1, PyInt 1) :: []))
   = self_encode_iterated_dict /\
   encode float_unicode_example (__init__ None None)
     (PyItemsIter ([(py_str "a", PyInt 1)] ++ (PyInt 1, PyInt 1) :: []))
   = inl (AssertionError "object key should be a string")).
Proof.
  assert (Hkey : isinstance (PyInt 1) t_basestring = false) by reflexivity.
  destruct (non_string_key_asserts float_unicode_example (__init__ None None)
              [(py_str "a", PyInt 1)] [] (PyInt 1) (PyInt 1) Hkey)
    as (Hdict & Hiter).
  split; [exact Hkey|]. split.
  - split; [reflexivity|]. split; [reflexivity|].
    apply Hdict; [reflexivity | reflexivity |].
    intros earlier [<-|[]]. repeat split.
  - split; [reflexivity|].
    apply Hiter; [reflexivity|].
    intros earlier [<-|[]]. repeat split.
Defined.

(** C10 at [True], on an encoder whose overrides replace the handler of
    [int] and leave [bool] alone. *)
Lemma encode_bool_exact_type_witness :
  (forall hs, Some [(t_int, Some encode_as_null)] = Some hs ->
     ~ In t_bool (map fst hs)) /\
  isinstance (PyBool true) t_int = true /\
  In t_int
    (map fst (_handlers (__init__ None (Some [(t_int, Some encode_as_null)])))) /\
  get_handler (__init__ None (Some [(t_int, Some encode_as_null)]))
    (PyBool true)
  = self_encode_bool /\
  iterencode float_unicode_example
    (__init__ None (Some [(t_int, Some encode_as_null)])) (PyBool true)
  = ([MARKER_T], None) /\
  encode float_unicode_example
    (__init__ None (Some [(t_int, Some encode_as_null)])) (PyBool true)
  = inr MARKER_T /\
  (forall payload,
     iterencode float_unicode_example
       (__init__ None (Some [(t_int, Some encode_as_null)])) (PyBool true)
     <> ([MARKER_B; payload], None)).
Proof.
  assert (H : forall hs, Some [(t_int, Some encode_as_null)] = Some hs ->
            ~ In t_bool (map fst hs)).
  { intros hs [= <-]. cbn. intros [H|[]]. discriminate H. }
  split; [exact H|].
  exact (encode_bool_exact_type float_unicode_example None
           (Some [(t_int, Some encode_as_null)]) true H).
Defined.

(** * Further properties *)

(** ** Decimal text *)

Lemma byte_of_Z_inj (a b : Z) :
  0 <= a < 256 -> 0 <= b < 256 -> byte_of_Z a = byte_of_Z b -> a = b.
Proof.
  intros Ha Hb H. apply (f_equal Z_of_byte) in H.
  rewrite !Z_of_byte_of_Z, !Z.mod_small in H by assumption. exact H.
Qed.

Lemma utf8_encode_ascii (l : list codepoint) :
  Forall (fun c => (c < 128)%N) l ->
  utf8_encode l = map (fun c => byte_of_Z (Z.of_N c)) l.
Proof.
  induction 1 as [|c l Hc _ IH]; [reflexivity|].
  unfold utf8_encode in *. cbn [flat_map map]. rewrite IH.
  unfold utf8_encode_char.
  destruct (Z.ltb_spec (Z.of_N c) 128); [reflexivity | lia].
Qed.

Lemma utf8_encode_ascii_inj (l1 l2 : list codepoint) :
  Forall (fun c => (c < 128)%N) l1 -> Forall (fun c => (c < 128)%N) l2 ->
  utf8_encode l1 = utf8_encode l2 -> l1 = l2.
Proof.
  intros H1 H2. rewrite !utf8_encode_ascii by assumption.
  revert l2 H2. induction H1 as [|c l1 Hc _ IH]; intros l2 H2 H.
  - destruct l2; [reflexivity | discriminate H].
  - destruct H2 as [|c' l2 Hc' H2]; [discriminate H|].
    cbn [map] in H. injection H as Hb Hl.
    apply byte_of_Z_inj in Hb; [|lia|lia].
    f_equal; [lia | now apply IH].
Qed.

Lemma string_of_uint_ascii (d : Decimal.uint) :
  Forall (fun c => (c < 128)%N)
    (map N_of_ascii (list_ascii_of_string (NilEmpty.string_of_uint d))).
Proof.
  induction d; cbn [NilEmpty.string_of_uint list_ascii_of_string map];
    constructor; try assumption; reflexivity.
Qed.

(** The decimal numeral of an integer is ASCII text. *)
Lemma unicode_of_Z_ascii (n : Z) :
  Forall (fun c => (c < 128)%N) (unicode_of_Z n).
Proof.
  unfold unicode_of_Z, NilZero.string_of_int, NilZero.string_of_uint.
  destruct (Z.to_int n) as [d|d].
  - destruct d; try apply string_of_uint_ascii. repeat constructor.
  - cbn [list_ascii_of_string map]. constructor; [reflexivity|].
    destruct d; try apply string_of_uint_ascii. repeat constructor.
Qed.

Lemma N_of_ascii_inj (a b : ascii) : N_of_ascii a = N_of_ascii b -> a = b.
Proof.
  intros H. rewrite <- (ascii_N_embedding a), <- (ascii_N_embedding b).
  now rewrite H.
Qed.

Lemma map_inj {A B} (f : A -> B) (l1 l2 : list A) :
  (forall a b, f a = f b -> a = b) -> map f l1 = map f l2 -> l1 = l2.
Proof.
  intros Hf. revert l2. induction l1 as [|a l1 IH]; intros [|b l2] H;
    try discriminate H; [reflexivity|].
  injection H as Ha Hl. f_equal; auto.
Qed.

Lemma to_int_not_nil (n : Z) :
  Z.to_int n <> Decimal.Pos Decimal.Nil /\ Z.to_int n <> Decimal.Neg Decimal.Nil.
Proof.
  split; intros H; pose proof (f_equal Z.of_int H) as H0;
    rewrite DecimalZ.of_to in H0; cbn in H0; subst n; discriminate H.
Qed.

(** Distinct integers have distinct decimal numerals. *)
Lemma unicode_of_Z_inj (a b : Z) : unicode_of_Z a = unicode_of_Z b -> a = b.
Proof.
  unfold unicode_of_Z. intros H.
  apply map_inj in H; [|apply N_of_ascii_inj].
  apply (f_equal string_of_list_ascii) in H.
  rewrite !string_of_list_ascii_of_string in H.
  apply (f_equal NilZero.int_of_string) in H.
  destruct (to_int_not_nil a), (to_int_not_nil b).
  rewrite !NilZero.isi in H by assumption.
  injection H as H. now apply DecimalZ.to_int_inj.
Qed.

(** ** Integers: one encoding per value *)

Lemma is_int64_false (v : Z) :
  is_int64 v = false ->
  is_byte v = false /\ is_int16 v = false /\ is_int32 v = false.
Proof.
  unfold is_int64, is_int32, is_int16, is_byte.
  rewrite !andb_false_iff, !Z.leb_gt. cbn. lia.
Qed.

Lemma integer_form_spec (v : Z) :
  is_int64 v = true ->
  In (integer_form v) integer_forms /\
  in_signed_range (snd (integer_form v)) v /\
  (0 < snd (integer_form v))%nat.
Proof.
  intros H64. unfold integer_form.
  destruct (is_byte v) eqn:Eb;
    [split; [cbn; tauto | split; [now apply is_byte_spec | cbn; lia]]|].
  destruct (is_int16 v) eqn:Eh;
    [split; [cbn; tauto | split; [now apply is_int16_spec | cbn; lia]]|].
  destruct (is_int32 v) eqn:Ei;
    [split; [cbn; tauto | split; [now apply is_int32_spec | cbn; lia]]|].
  split; [cbn; tauto | split; [now apply is_int64_spec | cbn; lia]].
Qed.

Lemma encode_number_int64 (float_unicode : float -> list codepoint) (v : Z) :
  is_int64 v = true ->
  encode_number float_unicode v
  = ([fst (integer_form v); big_endian (snd (integer_form v)) v], None).
Proof.
  intros H64. unfold encode_number, integer_form.
  destruct (is_byte v) eqn:Eb;
    [apply (encode_number_fixed fmt_b); now apply is_byte_spec|].
  destruct (is_int16 v) eqn:Eh;
    [apply (encode_number_fixed fmt_h); now apply is_int16_spec|].
  destruct (is_int32 v) eqn:Ei;
    [apply (encode_number_fixed fmt_i); now apply is_int32_spec|].
  rewrite H64. apply (encode_number_fixed fmt_q). now apply is_int64_spec.
Qed.

Lemma encode_number_beyond_int64 (float_unicode : float -> list codepoint)
    (v : Z) :
  is_int64 v = false ->
  encode_number float_unicode v
  = length_prefixed MARKER_h MARKER_H (utf8_encode (unicode_of_Z v)).
Proof.
  intros H64. destruct (is_int64_false v H64) as (Eb & Eh & Ei).
  unfold encode_number. now rewrite Eb, Eh, Ei, H64.
Qed.

(** A length-prefixed outcome that ended normally has its three chunks. *)
Lemma length_prefixed_normal_inv (short long : chunk) (payload : bytes)
    (chunks : list chunk) :
  length_prefixed short long payload = (chunks, None) ->
  len payload < 2 ^ 32 /\
  chunks = [if len payload <? 255 then short else long;
            length_field (len payload); payload].
Proof.
  intros H. destruct (Z.lt_ge_cases (len payload) (2 ^ 32)) as [Hlt|Hge].
  - rewrite length_prefixed_fits in H by exact Hlt. split; [exact Hlt|].
    now injection H.
  - rewrite length_prefixed_too_long in H by exact Hge. discriminate H.
Qed.

(** ** Self-delimiting encodings *)

Lemma app_eq_length_inv {A} (l1 l2 r1 r2 : list A) :
  List.length l1 = List.length l2 -> l1 ++ r1 = l2 ++ r2 ->
  l1 = l2 /\ r1 = r2.
Proof.
  revert l2. induction l1 as [|a l1 IH]; intros [|b l2] Hl H;
    try discriminate Hl.
  - now split.
  - cbn in H. injection H as -> H. injection Hl as Hl.
    destruct (IH _ Hl H) as [-> ->]. now split.
Qed.

Lemma big_endian_signed_inj (w : nat) (v v' : Z) :
  (0 < w)%nat -> in_signed_range w v -> in_signed_range w v' ->
  big_endian w v = big_endian w v' -> v = v'.
Proof.
  intros Hw Hv Hv' H.
  rewrite <- (signed_of_big_endian w v), <- (signed_of_big_endian w v')
    by assumption.
  now f_equal.
Qed.

Lemma length_field_inj (size size' : Z) :
  0 <= size < 2 ^ 32 -> 0 <= size' < 2 ^ 32 ->
  length_field size = length_field size' -> size = size'.
Proof.
  intros Hs Hs' H.
  rewrite <- (unsigned_of_length_field size), <- (unsigned_of_length_field size')
    by assumption.
  now f_equal.
Qed.

Lemma length_prefixed_normal (short long : chunk) (payload : bytes) :
  snd (length_prefixed short long payload) = None -> len payload < 2 ^ 32.
Proof.
  intros H. destruct (Z.lt_ge_cases (len payload) (2 ^ 32)) as [Hlt|Hge];
    [exact Hlt|].
  rewrite length_prefixed_too_long in H by exact Hge. discriminate H.
Qed.

Lemma length_prefixed_joined (short long : chunk) (payload : bytes) :
  len payload < 2 ^ 32 ->
  joined (length_prefixed short long payload)
  = (if len payload <? 255 then short else long)
    ++ length_field (len payload) ++ payload.
Proof.
  intros H. rewrite length_prefixed_fits by exact H.
  unfold joined. cbn [fst List.concat]. now rewrite app_nil_r.
Qed.

(** A marker, a length field and that many bytes can be cut off the front
    of a byte string in one way only. *)
Lemma length_prefixed_self_delimiting (short long : byte)
    (payload payload' rest rest' : bytes) :
  short <> long ->
  len payload < 2 ^ 32 -> len payload' < 2 ^ 32 ->
  joined (length_prefixed [short] [long] payload) ++ rest
  = joined (length_prefixed [short] [long] payload') ++ rest' ->
  payload = payload' /\ rest = rest'.
Proof.
  intros Hm Hp Hp' H.
  rewrite !length_prefixed_joined in H by assumption.
  pose proof (len_nonneg payload) as H0. pose proof (len_nonneg payload') as H0'.
  assert (Hfield : List.length (length_field (len payload))
                   = List.length (length_field (len payload')) ->
                   payload = payload' /\ rest = rest').
  { intros Hl. rewrite <- !app_assoc in H. cbn [app] in H.
    assert (H' : length_field (len payload) ++ payload ++ rest
                 = length_field (len payload') ++ payload' ++ rest')
      by (destruct (len payload <? 255), (len payload' <? 255);
          now injection H).
    apply app_eq_length_inv in H'; [|exact Hl]. destruct H' as [Hf H'].
    apply length_field_inj in Hf; [|lia|lia].
    apply app_eq_length_inv in H'; [exact H'|].
    unfold len in Hf. lia. }
  rewrite !length_length_field in Hfield.
  destruct (len payload <? 255), (len payload' <? 255);
    try (now apply Hfield);
    cbn [app] in H; injection H as H _; congruence.
Qed.

Lemma encode_number_joined (float_unicode : float -> list codepoint) (v : Z) :
  snd (encode_number float_unicode v) = None ->
  (is_int64 v = true /\
   joined (encode_number float_unicode v)
   = fst (integer_form v) ++ big_endian (snd (integer_form v)) v) \/
  (is_int64 v = false /\
   len (utf8_encode (unicode_of_Z v)) < 2 ^ 32 /\
   encode_number float_unicode v
   = length_prefixed MARKER_h MARKER_H (utf8_encode (unicode_of_Z v))).
Proof.
  intros H. destruct (is_int64 v) eqn:E64.
  - left. split; [reflexivity|]. rewrite encode_number_int64 by exact E64.
    unfold joined. cbn [fst List.concat]. now rewrite app_nil_r.
  - right. split; [reflexivity|].
    rewrite encode_number_beyond_int64 in * by exact E64.
    split; [now apply length_prefixed_normal in H | reflexivity].
Qed.

Lemma integer_form_marker (v : Z) :
  exists m, fst (integer_form v) = [m] /\
    (m = "B" /\ snd (integer_form v) = 1 \/
     m = "i" /\ snd (integer_form v) = 2 \/
     m = "I" /\ snd (integer_form v) = 4 \/
     m = "L" /\ snd (integer_form v) = 8)%byte%nat.
Proof.
  unfold integer_form.
  destruct (is_byte v); [eexists; split; [reflexivity | tauto]|].
  destruct (is_int16 v); [eexists; split; [reflexivity | tauto]|].
  destruct (is_int32 v); eexists; (split; [reflexivity | tauto]).
Qed.

(** X1. Integers are self-delimiting on the wire: when the encodings of two
    integers, each followed by arbitrary bytes, give the same byte string,
    the integers are equal and so are the bytes that follow. *)
Theorem encode_number_self_delimiting
    (float_unicode : float -> list codepoint) (v w : Z) (rest rest' : bytes) :
  snd (encode_number float_unicode v) = None ->
  snd (encode_number float_unicode w) = None ->
  joined (encode_number float_unicode v) ++ rest
  = joined (encode_number float_unicode w) ++ rest' ->
  v = w /\ rest = rest'.
Proof.
  intros Hv Hw H.
  destruct (encode_number_joined float_unicode v Hv) as [[Ev Jv]|(Ev & Lv & Jv)];
    destruct (encode_number_joined float_unicode w Hw) as [[Ew Jw]|(Ew & Lw & Jw)].
  - rewrite Jv, Jw in H.
    destruct (integer_form_spec v Ev) as (_ & Rv & Pv).
    destruct (integer_form_spec w Ew) as (_ & Rw & Pw).
    destruct (integer_form_marker v) as (m & Em & Cv).
    destruct (integer_form_marker w) as (m' & Em' & Cw).
    rewrite Em, Em' in H. cbn [app] in H. injection H as Hm H.
    assert (Hwidth : snd (integer_form v) = snd (integer_form w)).
    { destruct Cv as [[-> ->]|[[-> ->]|[[-> ->]|[-> ->]]]];
        destruct Cw as [[-> ->]|[[-> ->]|[[-> ->]|[-> ->]]]];
        try reflexivity; discriminate Hm. }
    rewrite <- Hwidth in *.
    apply app_eq_length_inv in H; [|now rewrite !length_big_endian].
    destruct H as [H ->]. split; [|reflexivity].
    now apply (big_endian_signed_inj (snd (integer_form v))).
  - exfalso. rewrite Jv, Jw, length_prefixed_joined in H by exact Lw.
    destruct (integer_form_marker v) as (m & Em & Cv). rewrite Em in H.
    destruct (len (utf8_encode (unicode_of_Z w)) <? 255);
      cbn [app MARKER_h MARKER_H] in H; injection H as Hm _;
      destruct Cv as [[-> _]|[[-> _]|[[-> _]|[-> _]]]]; discriminate Hm.
  - exfalso. rewrite Jv, Jw, length_prefixed_joined in H by exact Lv.
    destruct (integer_form_marker w) as (m & Em & Cw). rewrite Em in H.
    destruct (len (utf8_encode (unicode_of_Z v)) <? 255);
      cbn [app MARKER_h MARKER_H] in H; injection H as Hm _;
      destruct Cw as [[-> _]|[[-> _]|[[-> _]|[-> _]]]]; discriminate Hm.
  - rewrite Jv, Jw in H.
    apply length_prefixed_self_delimiting in H;
      [|discriminate|exact Lv|exact Lw].
    destruct H as [H ->]. split; [|reflexivity].
    apply unicode_of_Z_inj.
    apply utf8_encode_ascii_inj; [apply unicode_of_Z_ascii ..| exact H].
Qed.

(** X2. Strings are self-delimiting on the wire: when the encodings of two
    strings, each followed by arbitrary bytes, give the same byte string,
    the strings have the same bytes and so have the remainders. *)
Theorem encode_str_self_delimiting (value value' : basestring)
    (rest rest' : bytes) :
  snd (encode_str value) = None ->
  snd (encode_str value') = None ->
  joined (encode_str value) ++ rest = joined (encode_str value') ++ rest' ->
  utf8_bytes value = utf8_bytes value' /\ rest = rest'.
Proof.
  rewrite !encode_str_length_prefixed. intros Hv Hv' H.
  apply length_prefixed_normal in Hv, Hv'.
  now apply (length_prefixed_self_delimiting "s" "S")%byte in H.
Qed.

(** ** The registry an encoder is built with *)

Lemma dict_set_keys {V} (d : list (pytype * V)) (k k' : pytype) (v : V) :
  In k' (map fst (dict_set d k v)) -> k' = k \/ In k' (map fst d).
Proof.
  induction d as [|[k0 v0] d IH]; cbn [dict_set map fst In].
  - intros [<-|[]]. now left.
  - destruct (pytype_eqb k k0); cbn [map fst In].
    + intros [<-|H]; [now left | right; now right].
    + intros [<-|H]; [right; now left|].
      destruct (IH H) as [->|H']; [now left | right; now right].
Qed.

Lemma dict_set_NoDup {V} (d : list (pytype * V)) (k : pytype) (v : V) :
  NoDup (map fst d) -> NoDup (map fst (dict_set d k v)).
Proof.
  induction d as [|[k0 v0] d IH]; cbn [dict_set map fst].
  - intros _. constructor; [intros [] | constructor].
  - intros Hd. inversion Hd as [|? ? Hnotin Hrest]; subst.
    destruct (pytype_eqb k k0) eqn:E; cbn [map fst].
    + apply pytype_eqb_eq in E. subst k0. now constructor.
    + constructor; [|now apply IH].
      intros Hin. apply dict_set_keys in Hin. destruct Hin as [->|Hin].
      * now rewrite pytype_eqb_refl in E.
      * now apply Hnotin.
Qed.

Lemma dict_update_NoDup {V} (d other : list (pytype * V)) :
  NoDup (map fst d) -> NoDup (map fst (dict_update d other)).
Proof.
  unfold dict_update. revert d.
  induction other as [|[k v] other IH]; intros d Hd; cbn [fold_left];
    [exact Hd|].
  apply IH. now apply dict_set_NoDup.
Qed.

Lemma NoDup_dict_get {V} (d : list (pytype * V)) (k : pytype) (v : V) :
  NoDup (map fst d) -> In (k, v) d -> dict_get d k = Some v.
Proof.
  induction d as [|[k0 v0] d IH]; cbn [map fst dict_get]; [intros _ []|].
  intros Hd Hin. inversion Hd as [|? ? Hnotin Hrest]; subst.
  destruct Hin as [[= -> ->]|Hin].
  - now rewrite pytype_eqb_refl.
  - destruct (pytype_eqb k k0) eqn:E; [|now apply IH].
    apply pytype_eqb_eq in E. subst k0. destruct Hnotin.
    now apply (in_map fst) in Hin.
Qed.

(** [d.update(other)] leaves under every key of [other] the value [other]
    holds for it. *)
Lemma dict_get_update {V} (d other : list (pytype * V)) (k : pytype) (v : V) :
  NoDup (map fst other) -> In (k, v) other ->
  dict_get (dict_update d other) k = Some v.
Proof.
  unfold dict_update. revert d.
  induction other as [|[k0 v0] other IH]; intros d Hnd Hin; [destruct Hin|].
  cbn [map fst] in Hnd. inversion Hnd as [|? ? Hnotin Hrest]; subst.
  cbn [fold_left fst snd]. destruct Hin as [[= -> ->]|Hin].
  - change (dict_get (dict_update (dict_set d k v) other) k = Some v).
    rewrite dict_get_update_other by exact Hnotin.
    now rewrite dict_get_set, pytype_eqb_refl.
  - now apply IH.
Qed.

Lemma default_handlers_NoDup : NoDup (map fst default_handlers).
Proof.
  cbn. repeat (constructor; [cbn; intuition discriminate|]). constructor.
Qed.

(** The registry holds one entry per type. *)
Lemma init_NoDup (default : option (value -> result))
    (handlers : option (list (pytype * option (value -> result)))) :
  NoDup (map fst (_handlers (__init__ default handlers))).
Proof.
  destruct handlers as [hs|]; cbn [__init__ _handlers].
  - apply dict_update_NoDup, default_handlers_NoDup.
  - apply default_handlers_NoDup.
Qed.

Lemma bound_handlers_keys (hs : list (pytype * option (value -> result))) :
  map fst (map (fun kh => (fst kh, option_map MethodType (snd kh))) hs)
  = map fst hs.
Proof. rewrite map_map. now apply map_ext. Qed.

Lemma init_get_overridden (default : option (value -> result))
    (hs : list (pytype * option (value -> result))) (k : pytype)
    (f : option (value -> result)) :
  NoDup (map fst hs) -> In (k, f) hs ->
  dict_get (_handlers (__init__ default (Some hs))) k
  = Some (option_map MethodType f).
Proof.
  intros Hnd Hin. cbn [__init__ _handlers].
  apply dict_get_update; [now rewrite bound_handlers_keys|].
  apply (in_map (fun kh => (fst kh, option_map MethodType (snd kh)))) in Hin.
  exact Hin.
Qed.

Lemma init_keys (default : option (value -> result))
    (hs : list (pytype * option (value -> result))) (k : pytype) :
  In k (map fst (_handlers (__init__ default (Some hs)))) ->
  In k (map fst hs) \/ In k (map fst default_handlers).
Proof.
  cbn [__init__ _handlers]. intros Hin.
  apply in_map_iff in Hin. destruct Hin as (entry & <- & Hin).
  apply dict_update_In in Hin. destruct Hin as [Hin|Hin].
  - left. rewrite <- bound_handlers_keys. now apply in_map.
  - right. now apply in_map.
Qed.

Lemma is_NOOP_false (v : value) : v <> NOOP -> is_NOOP v = false.
Proof. intros H. destruct v; try reflexivity. now destruct H. Qed.

Lemma isinstance_PyObject_default (cls : string) (bases : list string) (id : N)
    (entry : pytype * option handler) :
  In entry default_handlers ->
  isinstance (PyObject cls bases id) (fst entry) = false.
Proof.
  intros Hin. destruct (isinstance _ _) eqn:E; [|reflexivity].
  apply isinstance_PyObject in E. cbn in Hin.
  repeat (destruct Hin as [<-|Hin];
          [cbn in E; destruct E as [E|[name E]]; discriminate E|]).
  destruct Hin.
Qed.

(** When the type of a value is registered with [None] and no other
    registered type matches the value, the fallback is resolved. *)
Lemma get_handler_disabled (self : UBJSONEncoder) (v : value) :
  is_NOOP v = false ->
  NoDup (map fst (_handlers self)) ->
  dict_get (_handlers self) (type v) = Some None ->
  (forall k, In k (map fst (_handlers self)) -> isinstance v k = true ->
     k = type v) ->
  get_handler self v = encode_default_attr self.
Proof.
  intros Hn Hnd Hget Honly.
  rewrite get_handler_by_last_match, Hn. unfold exact_match. rewrite Hget.
  destruct (last_instance_match self v) as [[k [h|]]|] eqn:Hlast;
    try reflexivity.
  apply last_instance_match_Some in Hlast.
  destruct Hlast as (before & after & Hsplit & Hinst & _). cbn [fst] in Hinst.
  assert (Hin : In (k, Some h) (_handlers self))
    by (rewrite Hsplit; apply in_or_app; right; now left).
  assert (Hk : k = type v)
    by (apply Honly; [now apply (in_map fst) in Hin | exact Hinst]).
  subst k. apply NoDup_dict_get in Hin; [|exact Hnd]. congruence.
Qed.

(** The built-in table resolved: see [default_dispatch]. *)
Lemma default_dispatch_resolved (default : option (value -> result))
    (v : value) :
  get_handler (__init__ default None) v = default_dispatch default v.
Proof.
  destruct v as [| | | | | |[s|s]| |[| | |]|[| | |]| | |cls bases id];
    try reflexivity.
  rewrite get_handler_no_match;
    [now destruct default | reflexivity |].
  intros entry. apply isinstance_PyObject_default.
Qed.

(** Looking for the instance matches of a value passes over an entry whose
    key the value is no instance of. *)
Lemma scan_dict_set (v : value) (d : list (pytype * option handler))
    (k : pytype) (x acc : option handler) :
  isinstance v k = false ->
  fold_left
    (fun maybe_handler entry =>
       if isinstance v (fst entry) then snd entry else maybe_handler)
    (dict_set d k x) acc
  = fold_left
      (fun maybe_handler entry =>
         if isinstance v (fst entry) then snd entry else maybe_handler)
      d acc.
Proof.
  intros H. revert acc.
  induction d as [|[k0 x0] d IH]; intros acc; cbn [dict_set].
  - cbn [fold_left fst snd]. now rewrite H.
  - destruct (pytype_eqb k k0) eqn:E.
    + apply pytype_eqb_eq in E. subst k0. cbn [fold_left fst snd].
      now rewrite H.
    + cbn [fold_left fst snd]. apply IH.
Qed.

Lemma scan_dict_update (v : value) (d other : list (pytype * option handler))
    (acc : option handler) :
  (forall k, In k (map fst other) -> isinstance v k = false) ->
  fold_left
    (fun maybe_handler entry =>
       if isinstance v (fst entry) then snd entry else maybe_handler)
    (dict_update d other) acc
  = fold_left
      (fun maybe_handler entry =>
         if isinstance v (fst entry) then snd entry else maybe_handler)
      d acc.
Proof.
  unfold dict_update. revert d.
  induction other as [|[k x] other IH]; intros d H; [reflexivity|].
  cbn [fold_left fst snd]. rewrite IH by (intros k' Hk'; apply H; now right).
  apply scan_dict_set, H. now left.
Qed.

Section Dispatch.

Variable float_unicode : float -> list codepoint.

(** X3. The table of the class's docstring, as [get_handler] resolves it on
    an encoder built without overrides: each kind of value goes to the
    encoder the table names, booleans to [encode_bool] and not to the
    integer encoder, byte and unicode strings to [encode_str] through
    their base class [basestring], and an instance of an unregistered class
    to the fallback; [iterencode] yields what that encoder yields. *)
Theorem get_handler_default_table (default : option (value -> result))
    (v : value) :
  get_handler (__init__ default None) v = default_dispatch default v /\
  iterencode float_unicode (__init__ default None) v
  = call float_unicode (iterencode float_unicode (__init__ default None))
      (default_dispatch default v) v.
Proof.
  split; [apply default_dispatch_resolved|].
  now rewrite iterencode_eq, default_dispatch_resolved.
Qed.

(** X4. Whatever the registry holds, [get_handler] resolves a value other
    than [NOOP] to the fallback or to a handler registered for a type the
    value is an instance of, and [NOOP] to [encode_noop]. *)
Theorem get_handler_sound (self : UBJSONEncoder) (v : value) :
  (v = NOOP /\ get_handler self v = self_encode_noop) \/
  (is_NOOP v = false /\
   (get_handler self v = encode_default_attr self \/
    exists k, In (k, Some (get_handler self v)) (_handlers self) /\
              isinstance v k = true)).
Proof.
  rewrite get_handler_by_last_match.
  destruct (is_NOOP v) eqn:Hn; [left; now destruct v|].
  right. split; [reflexivity|]. unfold exact_match.
  assert (Hlast :
    match last_instance_match self v with
    | Some (_, Some handler) => handler
    | _ => encode_default_attr self
    end = encode_default_attr self \/
    exists k,
      In (k, Some match last_instance_match self v with
                  | Some (_, Some handler) => handler
                  | _ => encode_default_attr self
                  end) (_handlers self) /\
      isinstance v k = true).
  { destruct (last_instance_match self v) as [[k [h|]]|] eqn:Hlast;
      try (now left).
    right. exists k. apply last_instance_match_Some in Hlast.
    destruct Hlast as (before & after & Hsplit & Hinst & _).
    split; [|exact Hinst]. rewrite Hsplit. apply in_or_app. right. now left. }
  destruct (dict_get (_handlers self) (type v)) as [[h|]|] eqn:Hget;
    try exact Hlast.
  right. exists (type v). split; [now apply dict_get_In | apply isinstance_type].
Qed.

(** X5. A handler the caller registers for the exact type of a value takes
    the place of the built-in one: the value is encoded by calling it. *)
Theorem handler_for_exact_type (default : option (value -> result))
    (hs : list (pytype * option (value -> result))) (v : value)
    (f : value -> result) :
  v <> NOOP -> NoDup (map fst hs) -> In (type v, Some f) hs ->
  get_handler (__init__ default (Some hs)) v = MethodType f /\
  iterencode float_unicode (__init__ default (Some hs)) v = f v.
Proof.
  intros Hn Hnd Hin.
  assert (Hget : get_handler (__init__ default (Some hs)) v = MethodType f).
  { apply get_handler_exact; [now apply is_NOOP_false|].
    now rewrite (init_get_overridden default hs (type v) (Some f)). }
  split; [exact Hget|]. now rewrite iterencode_eq, Hget.
Qed.

(** X6. The [default] function given to the constructor is called on every
    value, other than [NOOP], that is an instance of no registered type;
    what it yields is the encoding. *)
Theorem default_handler_called (default : value -> result)
    (handlers : option (list (pytype * option (value -> result))))
    (v : value) :
  v <> NOOP ->
  (forall entry, In entry (_handlers (__init__ (Some default) handlers)) ->
     isinstance v (fst entry) = false) ->
  get_handler (__init__ (Some default) handlers) v = MethodType default /\
  iterencode float_unicode (__init__ (Some default) handlers) v = default v.
Proof.
  intros Hn Hnone.
  assert (Hget : get_handler (__init__ (Some default) handlers) v
                 = MethodType default).
  { rewrite get_handler_no_match;
      [reflexivity | now apply is_NOOP_false | exact Hnone]. }
  split; [exact Hget|]. now rewrite iterencode_eq, Hget.
Qed.

(** X7. Registering [None] for the type of a value takes its built-in
    encoder away: when no other registered type matches the value, the
    fallback is called, which without a [default] function raises
    [TypeError]. *)
Theorem handler_None_disables_type (default : option (value -> result))
    (hs : list (pytype * option (value -> result))) (v : value) :
  v <> NOOP -> NoDup (map fst hs) -> In (type v, None) hs ->
  (forall k, In k (map fst hs) \/ In k (map fst default_handlers) ->
     isinstance v k = true -> k = type v) ->
  get_handler (__init__ default (Some hs)) v
  = encode_default_attr (__init__ default (Some hs)) /\
  iterencode float_unicode (__init__ default (Some hs)) v
  = match default with
    | Some default => default v
    | None => raise (unable_to_encode v)
    end.
Proof.
  intros Hn Hnd Hin Honly.
  assert (Hget : get_handler (__init__ default (Some hs)) v
                 = encode_default_attr (__init__ default (Some hs))).
  { apply get_handler_disabled.
    - now apply is_NOOP_false.
    - apply init_NoDup.
    - now rewrite (init_get_overridden default hs (type v) None).
    - intros k Hk. apply Honly. now apply init_keys in Hk. }
  split; [exact Hget|]. rewrite iterencode_eq, Hget. now destruct default.
Qed.

(** X8. The message of the fallback's [TypeError] is formatted with the
    value as the right operand of [%]: for a tuple whose encoder has been
    taken away, the error names the single item of a one-item tuple and
    not the tuple, and is a formatting error for every other tuple. *)
Theorem encode_default_formats_tuple
    (hs : list (pytype * option (value -> result))) (items : list value) :
  NoDup (map fst hs) -> In (t_tuple, None) hs -> ~ In t_object (map fst hs) ->
  encode float_unicode (__init__ None (Some hs)) (PySeq k_tuple items)
  = inl (TypeError
           match items with
           | [] => [Lit "not enough arguments for format string"]
           | [item] => [Lit "Unable to encode "; Repr item; Lit " to ubjson"]
           | _ => [Lit "not all arguments converted during string formatting"]
           end).
Proof.
  intros Hnd Hin Hobj.
  assert (Hget : get_handler (__init__ None (Some hs)) (PySeq k_tuple items)
                 = self_encode_default).
  { rewrite get_handler_disabled; [reflexivity | reflexivity | apply init_NoDup | |].
    - exact (init_get_overridden None hs t_tuple None Hnd Hin).
    - intros k Hk Hinst. cbn in Hinst. rewrite orb_false_r in Hinst.
      apply orb_true_iff in Hinst. destruct Hinst as [E|E];
        apply pytype_eqb_eq in E; [exact E|]. subst k.
      apply init_keys in Hk. destruct Hk as [Hk|Hk]; [now destruct Hobj|].
      cbn in Hk. exfalso. intuition discriminate. }
  unfold encode. rewrite iterencode_eq, Hget. cbn [call].
  now destruct items as [|item [|item' items]].
Qed.

(** X9. Overrides are local: a value that is an instance of none of the
    types the caller registers is resolved as on an encoder built without
    overrides. *)
Theorem overrides_are_local (default : option (value -> result))
    (hs : list (pytype * option (value -> result))) (v : value) :
  (forall k, In k (map fst hs) -> isinstance v k = false) ->
  get_handler (__init__ default (Some hs)) v
  = get_handler (__init__ default None) v.
Proof.
  intros H. unfold get_handler. destruct (is_NOOP v); [reflexivity|].
  cbn [__init__ _handlers encode_default_attr].
  rewrite dict_get_update_other.
  - rewrite scan_dict_update; [reflexivity|].
    now rewrite bound_handlers_keys.
  - rewrite bound_handlers_keys. intros Hin. apply H in Hin.
    now rewrite isinstance_type in Hin.
Qed.

(** X10. When exactly one registered type matches a value, the handler of
    that type is resolved, wherever its entry stands in the registry: the
    order of the entries matters only between overlapping types. *)
Theorem get_handler_unique_match (self : UBJSONEncoder) (v : value)
    (k : pytype) (h : handler) :
  v <> NOOP ->
  NoDup (map fst (_handlers self)) ->
  In (k, Some h) (_handlers self) ->
  isinstance v k = true ->
  (forall k', In k' (map fst (_handlers self)) -> isinstance v k' = true ->
     k' = k) ->
  get_handler self v = h.
Proof.
  intros Hn Hnd Hin Hinst Honly.
  assert (Hentry : forall k' x, In (k', x) (_handlers self) ->
            isinstance v k' = true -> x = Some h).
  { intros k' x Hin' Hinst'.
    assert (Hk : k' = k)
      by (apply Honly; [now apply (in_map fst) in Hin' | exact Hinst']).
    subst k'. apply (NoDup_dict_get _ _ _ Hnd) in Hin, Hin'. congruence. }
  rewrite get_handler_by_last_match, (is_NOOP_false v Hn). unfold exact_match.
  destruct (dict_get (_handlers self) (type v)) as [stored|] eqn:Hget.
  - apply dict_get_In in Hget.
    rewrite (Hentry _ _ Hget (isinstance_type v)). reflexivity.
  - destruct (last_instance_match self v) as [[k' x]|] eqn:Hlast.
    + apply last_instance_match_Some in Hlast.
      destruct Hlast as (before & after & Hsplit & Hinst' & _).
      cbn [fst] in Hinst'.
      rewrite (Hentry k' x); [reflexivity | | exact Hinst'].
      rewrite Hsplit. apply in_or_app. right. now left.
    + exfalso.
      pose proof (proj1 (last_instance_match_None self v) Hlast _ Hin) as E.
      cbn [fst] in E. congruence.
Qed.

End Dispatch.

(** ** Exceptions inside containers *)

Lemma seq_snd_None (r1 r2 : result) :
  snd (r1 ;; r2) = None <-> snd r1 = None /\ snd r2 = None.
Proof.
  destruct r1 as [c1 [e|]]; cbn;
    [split; [discriminate | intros [H _]; discriminate H] | tauto].
Qed.

Lemma for_each_snd_None {A} (xs : list A) (body : A -> result) :
  snd (for_each xs body) = None <->
  forall x, In x xs -> snd (body x) = None.
Proof.
  induction xs as [|x xs IH].
  - split; [intros _ x [] | reflexivity].
  - rewrite for_each_cons, seq_snd_None, IH. split.
    + intros [Hx Hxs] y [<-|Hy]; [exact Hx | now apply Hxs].
    + intros H. split; [apply H; now left | intros y Hy; apply H; now right].
Qed.

Lemma sized_header_snd_None (short long : chunk) (size : Z) :
  0 <= size -> snd (sized_header short long size) = None <-> size < 2 ^ 32.
Proof.
  intros H0. destruct (Z.lt_ge_cases size (2 ^ 32)) as [Hlt|Hge].
  - rewrite sized_header_fits by lia. now split.
  - rewrite sized_header_too_long by exact Hge. split; [discriminate | lia].
Qed.

Lemma length_prefixed_snd_None (short long : chunk) (payload : bytes) :
  snd (length_prefixed short long payload) = None <-> len payload < 2 ^ 32.
Proof.
  split; [apply length_prefixed_normal|].
  intros H. now rewrite length_prefixed_fits.
Qed.

Lemma fst_yield_seq (c : chunk) (r : result) : fst (yield c ;; r) = c :: fst r.
Proof. reflexivity. Qed.

Lemma encode_outcome (r : result) (bs : bytes) :
  match r with
  | (chunks, None) => inr (List.concat chunks)
  | (_, Some e) => inl e
  end = inr bs ->
  snd r = None /\ joined r = bs.
Proof.
  destruct r as [chunks [e|]]; [discriminate|]. intros [= <-]. now split.
Qed.

Section Propagation.

Variable float_unicode : float -> list codepoint.
Variable self : UBJSONEncoder.

Lemma encode_raises (v : value) (chunks : list chunk) (e : exn) :
  iterencode float_unicode self v = (chunks, Some e) ->
  encode float_unicode self v = inl e /\
  forall output,
    encode_to float_unicode self v output = (output ++ chunks, Some e).
Proof.
  intros H. unfold encode, encode_to. now rewrite H.
Qed.

(** X11. An exception raised while an item of a sized array is encoded ends
    the encoding with that exception: the header, the chunks of the items
    before it and the chunks the failing item had yielded are all that is
    produced, no later item is touched, [encode(value)] raises the
    exception and [encode(value, output)] leaves those chunks written. *)
Theorem encode_array_item_error (k : seq_kind) (pre post : list value)
    (item : value) (e : exn) :
  get_handler self (PySeq k (pre ++ item :: post)) = self_encode_array ->
  len (pre ++ item :: post) < 2 ^ 32 ->
  (forall earlier, In earlier pre -> snd (iterencode float_unicode self earlier) = None) ->
  snd (iterencode float_unicode self item) = Some e ->
  iterencode float_unicode self (PySeq k (pre ++ item :: post))
  = ([if len (pre ++ item :: post) <? 255 then MARKER_a else MARKER_A;
      length_field (len (pre ++ item :: post))]
     ++ flat_map (fun earlier => fst (iterencode float_unicode self earlier)) pre
     ++ fst (iterencode float_unicode self item), Some e) /\
  encode float_unicode self (PySeq k (pre ++ item :: post)) = inl e /\
  forall output,
    encode_to float_unicode self (PySeq k (pre ++ item :: post)) output
    = (output
       ++ [if len (pre ++ item :: post) <? 255 then MARKER_a else MARKER_A;
           length_field (len (pre ++ item :: post))]
       ++ flat_map (fun earlier => fst (iterencode float_unicode self earlier)) pre
       ++ fst (iterencode float_unicode self item), Some e).
Proof.
  intros Hget Hlen Hpre Hitem.
  assert (H : iterencode float_unicode self (PySeq k (pre ++ item :: post))
              = ([if len (pre ++ item :: post) <? 255 then MARKER_a else MARKER_A;
                  length_field (len (pre ++ item :: post))]
                 ++ flat_map (fun earlier => fst (iterencode float_unicode self earlier)) pre
                 ++ fst (iterencode float_unicode self item), Some e)).
  { rewrite iterencode_eq, Hget. cbn [call].
    rewrite encode_array_eq, sized_header_fits
      by (split; [apply len_nonneg | exact Hlen]).
    rewrite seq_normal.
    now rewrite (for_each_raises pre post item
               (fun item => iterencode float_unicode self item) e Hpre Hitem). }
  split; [exact H|]. now apply encode_raises.
Qed.

(** X12. An exception raised while an item of a generator is encoded ends
    the unsized array where it stands: the chunks produced so far are kept
    and the end marker is not written. *)
Theorem encode_generator_item_error (k : iter_kind) (pre post : list value)
    (item : value) (e : exn) :
  get_handler self (PyIter k (pre ++ item :: post)) = self_encode_generator ->
  (forall earlier, In earlier pre -> snd (iterencode float_unicode self earlier) = None) ->
  snd (iterencode float_unicode self item) = Some e ->
  iterencode float_unicode self (PyIter k (pre ++ item :: post))
  = ([MARKER_a; MARKER_FF]
     ++ flat_map (fun earlier => fst (iterencode float_unicode self earlier)) pre
     ++ fst (iterencode float_unicode self item), Some e) /\
  encode float_unicode self (PyIter k (pre ++ item :: post)) = inl e /\
  forall output,
    encode_to float_unicode self (PyIter k (pre ++ item :: post)) output
    = (output
       ++ [MARKER_a; MARKER_FF]
       ++ flat_map (fun earlier => fst (iterencode float_unicode self earlier)) pre
       ++ fst (iterencode float_unicode self item), Some e).
Proof.
  intros Hget Hpre Hitem.
  assert (H : iterencode float_unicode self (PyIter k (pre ++ item :: post))
              = ([MARKER_a; MARKER_FF]
                 ++ flat_map (fun earlier => fst (iterencode float_unicode self earlier)) pre
                 ++ fst (iterencode float_unicode self item), Some e)).
  { rewrite iterencode_eq, Hget. cbn [call]. unfold encode_generator.
    rewrite (for_each_raises pre post item
               (fun item => iterencode float_unicode self item) e Hpre Hitem).
    reflexivity. }
  split; [exact H|]. now apply encode_raises.
Qed.

(** X13. An exception raised while a value of a dict is encoded comes
    after the chunks of its key: the header, the earlier entries and the
    key of the failing entry are produced, then the exception ends the
    encoding. *)
Theorem encode_dict_value_error (pre post : list (value * value))
    (key val : value) (e : exn) :
  get_handler self (PyDict (pre ++ (key, val) :: post)) = self_encode_dict ->
  len (pre ++ (key, val) :: post) < 2 ^ 32 ->
  (forall earlier, In earlier pre ->
     isinstance (fst earlier) t_basestring = true /\
     snd (iterencode float_unicode self (fst earlier)) = None /\
     snd (iterencode float_unicode self (snd earlier)) = None) ->
  isinstance key t_basestring = true ->
  snd (iterencode float_unicode self key) = None ->
  snd (iterencode float_unicode self val) = Some e ->
  iterencode float_unicode self (PyDict (pre ++ (key, val) :: post))
  = ([if len (pre ++ (key, val) :: post) <? 255 then MARKER_o else MARKER_O;
      length_field (len (pre ++ (key, val) :: post))]
     ++ flat_map
          (fun earlier =>
             fst (iterencode float_unicode self (fst earlier)) ++ fst (iterencode float_unicode self (snd earlier)))
          pre
     ++ fst (iterencode float_unicode self key) ++ fst (iterencode float_unicode self val), Some e) /\
  encode float_unicode self (PyDict (pre ++ (key, val) :: post)) = inl e.
Proof.
  intros Hget Hlen Hpre Hkey Hk Hv.
  assert (H : iterencode float_unicode self (PyDict (pre ++ (key, val) :: post))
              = ([if len (pre ++ (key, val) :: post) <? 255
                  then MARKER_o else MARKER_O;
                  length_field (len (pre ++ (key, val) :: post))]
                 ++ flat_map
                      (fun earlier =>
                         fst (iterencode float_unicode self (fst earlier))
                         ++ fst (iterencode float_unicode self (snd earlier)))
                      pre
                 ++ fst (iterencode float_unicode self key) ++ fst (iterencode float_unicode self val), Some e)).
  { rewrite iterencode_eq, Hget. cbn [call].
    rewrite encode_dict_eq, sized_header_fits
      by (split; [apply len_nonneg | exact Hlen]).
    rewrite seq_normal.
    assert (Hentry : dict_entry (iterencode float_unicode self) (key, val)
                     = (fst (iterencode float_unicode self key) ++ fst (iterencode float_unicode self val), Some e)).
    { unfold dict_entry. cbn [fst snd]. rewrite Hkey. cbn [assert].
      rewrite seq_done_l, (seq_normal_l _ _ Hk). cbn [snd fst].
      now rewrite Hv. }
    rewrite (for_each_raises pre post (key, val) _ e).
    - rewrite Hentry. cbn [fst snd]. f_equal. f_equal. f_equal.
      apply flat_map_ext_in. intros earlier Hin.
      destruct (Hpre earlier Hin) as (Hb & Hek & Hev).
      now rewrite dict_entry_normal.
    - intros earlier Hin. destruct (Hpre earlier Hin) as (Hb & Hek & Hev).
      now rewrite dict_entry_normal.
    - now rewrite Hentry. }
  split; [exact H|]. exact (proj1 (encode_raises _ _ _ H)).
Qed.

End Propagation.

(** ** Sized and unsized containers on the wire *)

Lemma joined_yield_seq (c : chunk) (r : result) :
  joined (yield c ;; r) = c ++ joined r.
Proof. reflexivity. Qed.

Lemma sized_header_joined (short long : byte) (size : Z) (r : result) :
  0 <= size ->
  exists rest,
    joined (sized_header [short] [long] size ;; r)
    = (if size <? 255 then short :: byte_of_Z size :: rest else long :: rest).
Proof.
  intros H0. unfold sized_header. destruct (Z.ltb_spec size 255) as [Hlt|Hge].
  - rewrite pack_B_short by lia. cbn [yield_value].
    rewrite seq_assoc, !joined_yield_seq. cbn [big_endian app].
    eexists. reflexivity.
  - rewrite seq_assoc, joined_yield_seq. cbn [app]. eexists. reflexivity.
Qed.

Lemma byte_of_Z_not_ff (size : Z) : 0 <= size < 255 -> byte_of_Z size <> xff.
Proof.
  intros H E. change xff with (byte_of_Z 255) in E.
  apply byte_of_Z_inj in E; lia.
Qed.

(** X14. The byte 0xFF after the marker is reserved for the containers of
    unknown length: an unsized array begins with [a 0xFF] and an unsized
    object with [o 0xFF], whatever their items give, while no sized array
    or sized object begins that way, for the short forms stop at 254
    items. *)
Theorem unsized_header_reserved (iterencode : value -> result)
    (iterencode_pair : value -> value -> result) :
  (forall items,
     firstn 2 (joined (encode_generator iterencode items)) = ["a"; xff]%byte) /\
  (forall items,
     firstn 2 (joined (encode_iterated_dict iterencode_pair items))
     = ["o"; xff]%byte) /\
  (forall items,
     firstn 2 (joined (encode_array iterencode items)) <> ["a"; xff]%byte) /\
  (forall items,
     firstn 2 (joined (encode_dict iterencode items)) <> ["o"; xff]%byte).
Proof.
  repeat split; try reflexivity; intros items.
  - rewrite encode_array_eq. unfold MARKER_a, MARKER_A.
    destruct (sized_header_joined "a" "A" (len items)
                (for_each items (fun item => iterencode item))
                (len_nonneg items)) as (rest & ->).
    destruct (Z.ltb_spec (len items) 255) as [Hlt|Hge].
    + cbn [firstn]. intros [= E].
      apply (byte_of_Z_not_ff (len items)); [|exact E].
      split; [apply len_nonneg | exact Hlt].
    + destruct rest; discriminate.
  - rewrite encode_dict_eq. unfold MARKER_o, MARKER_O.
    destruct (sized_header_joined "o" "O" (len items)
                (for_each items (dict_entry iterencode))
                (len_nonneg items)) as (rest & ->).
    destruct (Z.ltb_spec (len items) 255) as [Hlt|Hge].
    + cbn [firstn]. intros [= E].
      apply (byte_of_Z_not_ff (len items)); [|exact E].
      split; [apply len_nonneg | exact Hlt].
    + destruct rest; discriminate.
Qed.

(** ** What the default encoder accepts *)

Lemma value_ind_nested (P : value -> Prop) :
  P NOOP -> P PyNone -> (forall b, P (PyBool b)) ->
  (forall n, P (PyInt n)) -> (forall n, P (PyLong n)) ->
  (forall x, P (PyFloat x)) -> (forall s, P (PyString s)) ->
  (forall text, P (PyDecimal text)) ->
  (forall k items, Forall P items -> P (PySeq k items)) ->
  (forall k items, Forall P items -> P (PyIter k items)) ->
  (forall items,
     Forall (fun entry => P (fst entry) /\ P (snd entry)) items ->
     P (PyDict items)) ->
  (forall items,
     Forall (fun entry => P (fst entry) /\ P (snd entry)) items ->
     P (PyItemsIter items)) ->
  (forall cls bases id, P (PyObject cls bases id)) ->
  forall v, P v.
Proof.
  intros HNOOP HNone Hbool Hint Hlong Hfloat Hstr Hdec Hseq Hiter Hdict Hitems
    Hobj.
  fix IH 1. intros [| |b|n|n|x|s|text|k items|k items|items|items|cls bases id].
  - exact HNOOP.
  - exact HNone.
  - apply Hbool.
  - apply Hint.
  - apply Hlong.
  - apply Hfloat.
  - apply Hstr.
  - apply Hdec.
  - apply Hseq. induction items as [|item items IHitems]; constructor;
      [apply IH | exact IHitems].
  - apply Hiter. induction items as [|item items IHitems]; constructor;
      [apply IH | exact IHitems].
  - apply Hdict. induction items as [|[key val] items IHitems]; constructor;
      [split; apply IH | exact IHitems].
  - apply Hitems. induction items as [|[key val] items IHitems]; constructor;
      [split; apply IH | exact IHitems].
  - apply Hobj.
Qed.

Lemma encode_number_snd_None (float_unicode : float -> list codepoint)
    (n : Z) :
  snd (encode_number float_unicode n) = None <->
  is_int64 n || (len (utf8_encode (unicode_of_Z n)) <? 2 ^ 32) = true.
Proof.
  destruct (is_int64 n) eqn:E64.
  - rewrite encode_number_int64 by exact E64. now split.
  - rewrite encode_number_beyond_int64 by exact E64.
    rewrite length_prefixed_snd_None. cbn [orb]. symmetry. apply Z.ltb_lt.
Qed.

Lemma encode_float_snd_None (float_unicode : float -> list codepoint)
    (x : float) :
  snd (encode_float float_unicode x) = None <->
  is_float x || is_double x || is_infinity x
  || (len (utf8_encode (float_unicode x)) <? 2 ^ 32) = true.
Proof.
  unfold encode_float. destruct (is_float x) eqn:Ef.
  - destruct (is_float_binary32_bits x Ef) as (s & m & e & _ & Hbits & _).
    unfold struct.pack_f. rewrite Hbits. now split.
  - destruct (is_double x); [now split|].
    destruct (is_infinity x); [now split|].
    rewrite encode_huge_number_length_prefixed, length_prefixed_snd_None.
    cbn [orb unicode]. symmetry. apply Z.ltb_lt.
Qed.

Lemma forallb_Forall_iff {A} (p : A -> bool) (P : A -> Prop) (l : list A) :
  Forall (fun x => P x <-> p x = true) l ->
  (forall x, In x l -> P x) <-> forallb p l = true.
Proof.
  intros H. rewrite forallb_forall. rewrite Forall_forall in H.
  split; intros Hall x Hin; apply (H x Hin), Hall, Hin.
Qed.

Section Accepted.

Variable float_unicode : float -> list codepoint.

Lemma iterencode_snd_None (v : value) :
  snd (iterencode float_unicode (__init__ None None) v) = None <->
  encodable float_unicode v = true.
Proof.
  induction v as [| |b|n|n|x|s|text|k items IH|k items IH|items IH|items IH
                  |cls bases id] using value_ind_nested;
    rewrite iterencode_eq, default_dispatch_resolved;
    cbn [default_dispatch call encodable].
  - now split.
  - now split.
  - now split.
  - apply encode_number_snd_None.
  - apply encode_number_snd_None.
  - apply encode_float_snd_None.
  - rewrite encode_str_length_prefixed, length_prefixed_snd_None.
    symmetry. apply Z.ltb_lt.
  - rewrite encode_huge_number_length_prefixed, length_prefixed_snd_None.
    symmetry. apply Z.ltb_lt.
  - rewrite encode_array_eq, seq_snd_None, sized_header_snd_None,
      for_each_snd_None, andb_true_iff, Z.ltb_lt by apply len_nonneg.
    now rewrite (forallb_Forall_iff (encodable float_unicode) _ items IH).
  - unfold encode_generator. rewrite !seq_snd_None, for_each_snd_None.
    rewrite <- (forallb_Forall_iff (encodable float_unicode) _ items IH).
    cbn [yield snd]. tauto.
  - rewrite encode_dict_eq, seq_snd_None, sized_header_snd_None,
      for_each_snd_None, andb_true_iff, Z.ltb_lt by apply len_nonneg.
    apply and_iff_compat_l. apply forallb_Forall_iff.
    apply Forall_forall. intros entry Hin. rewrite Forall_forall in IH.
    destruct (IH entry Hin) as [IHk IHv].
    unfold dict_entry. rewrite !seq_snd_None, !andb_true_iff, IHk, IHv.
    destruct (isinstance (fst entry) t_basestring); cbn [assert snd done raise];
      intuition discriminate.
  - rewrite encode_iterated_dict_eq, !seq_snd_None, for_each_snd_None.
    cbn [yield snd].
    rewrite <- (forallb_Forall_iff
                  (fun entry =>
                     isinstance (fst entry) t_basestring
                     && encodable float_unicode (fst entry)
                     && encodable float_unicode (snd entry))
                  (fun entry =>
                     snd (iterated_dict_entry
                            (iterencode float_unicode (__init__ None None))
                            entry) = None) items).
    + tauto.
    + apply Forall_forall. intros entry Hin. rewrite Forall_forall in IH.
      destruct (IH entry Hin) as [IHk IHv].
      unfold iterated_dict_entry.
      rewrite iterencode_pair_default, !seq_snd_None, !andb_true_iff, IHk, IHv.
      destruct (isinstance (fst entry) t_basestring);
        cbn [assert snd done raise yield]; intuition discriminate.
  - split; discriminate.
Qed.


(** X16. Whatever the encoder built without overrides and without a
    [default] function returns is not empty and begins with the marker of a
    value: never with the end marker [E] or with the byte 0xFF. *)
Theorem encode_begins_with_marker (v : value) (data : bytes) :
  encode float_unicode (__init__ None None) v = inr data ->
  exists marker rest, data = marker :: rest /\ In marker value_markers.
Proof.
  unfold encode. intros H. apply encode_outcome in H. destruct H as [Hs <-].
  revert Hs. rewrite iterencode_eq, default_dispatch_resolved.
  assert (Hprefixed : forall short long payload,
            In short value_markers -> In long value_markers ->
            snd (length_prefixed [short] [long] payload) = None ->
            exists marker rest,
              joined (length_prefixed [short] [long] payload) = marker :: rest /\
              In marker value_markers).
  { intros short long payload Hshort Hlong Hs.
    apply length_prefixed_normal in Hs. rewrite length_prefixed_joined by exact Hs.
    destruct (len payload <? 255); cbn [app]; eauto. }
  assert (Hsized : forall short long size r,
            In short value_markers -> In long value_markers -> 0 <= size ->
            exists marker rest,
              joined (sized_header [short] [long] size ;; r) = marker :: rest /\
              In marker value_markers).
  { intros short long size r Hshort Hlong H0.
    destruct (sized_header_joined short long size r H0) as (rest & ->).
    destruct (size <? 255); eauto. }
  destruct v as [| |[|]|n|n|x|s|text|k items|k items|items|items|cls bases id];
    cbn [default_dispatch call]; intros Hs.
  - exists "N"%byte, []. split; [reflexivity | cbn; tauto].
  - exists "Z"%byte, []. split; [reflexivity | cbn; tauto].
  - exists "T"%byte, []. split; [reflexivity | cbn; tauto].
  - exists "F"%byte, []. split; [reflexivity | cbn; tauto].
  - destruct (encode_number_joined float_unicode n Hs) as [[E ->]|(E & L & J)].
    + destruct (integer_form_marker n) as (m & -> & C). cbn [app].
      exists m. eexists. split; [reflexivity|]. cbn. intuition.
    + rewrite J in *. apply Hprefixed; [cbn; tauto ..| exact Hs].
  - destruct (encode_number_joined float_unicode n Hs) as [[E ->]|(E & L & J)].
    + destruct (integer_form_marker n) as (m & -> & C). cbn [app].
      exists m. eexists. split; [reflexivity|]. cbn. intuition.
    + rewrite J in *. apply Hprefixed; [cbn; tauto ..| exact Hs].
  - revert Hs. unfold encode_float. destruct (is_float x) eqn:Ef.
    + destruct (is_float_binary32_bits x Ef) as (s & m & e & _ & Hbits & _).
      unfold struct.pack_f. rewrite Hbits. intros _.
      exists "d"%byte. eexists. split; [reflexivity | cbn; tauto].
    + destruct (is_double x).
      { intros _. exists "D"%byte. eexists. split; [reflexivity | cbn; tauto]. }
      destruct (is_infinity x).
      { intros _. exists "Z"%byte, []. split; [reflexivity | cbn; tauto]. }
      rewrite encode_huge_number_length_prefixed.
      apply Hprefixed; cbn; tauto.
  - revert Hs. rewrite encode_str_length_prefixed. apply Hprefixed; cbn; tauto.
  - revert Hs. rewrite encode_huge_number_length_prefixed.
    apply Hprefixed; cbn; tauto.
  - rewrite encode_array_eq. apply Hsized; [cbn; tauto ..| apply len_nonneg].
  - exists "a"%byte. eexists. split; [reflexivity | cbn; tauto].
  - rewrite encode_dict_eq. apply Hsized; [cbn; tauto ..| apply len_nonneg].
  - exists "o"%byte. eexists. split; [reflexivity | cbn; tauto].
  - discriminate Hs.
Qed.

(** X17. A float of the single-precision range is stored as the single
    nearest to it, ties going to the even mantissa: for [x = m * 2^e] the
    four bytes hold the sign, the exponent field [e + 178] carried into by
    the 24-bit mantissa [q], and [q * 2^29] differs from the 53-bit
    mantissa [m] by at most [2^28].  The encoding keeps 24 of the 53 bits
    of the double. *)
Theorem encode_float_single_nearest (x : float) :
  is_float x = true ->
  exists s m e q,
    Prim2SF x = S754_finite s m e /\
    encode_float float_unicode x
    = ([MARKER_d;
        big_endian 4 (sign_bit s 31 + ((e + 178) * 2 ^ 23 + q))], None) /\
    2 ^ 23 <= q <= 2 ^ 24 /\ 0 <= e + 178 <= 253 /\
    2 * Z.abs (q * 2 ^ 29 - Z.pos m) <= 2 ^ 29 /\
    (2 * Z.abs (q * 2 ^ 29 - Z.pos m) = 2 ^ 29 -> Z.even q = true).
Proof.
  intros Hf.
  destruct (is_float_binary32_bits x Hf) as (s & m & e & Hx & Hbits & Hq & He).
  exists s, m, e, (round_half_even (Z.pos m) 29).
  split; [exact Hx|]. split.
  - unfold encode_float, struct.pack_f. now rewrite Hf, Hbits.
  - split; [exact Hq|]. split; [exact He|].
    apply round_half_even_nearest. lia.
Qed.

End Accepted.

(** ** The encoding as a prefix code *)

Lemma concat_flat_map {A} (f : A -> list chunk) (l : list A) :
  List.concat (flat_map f l) = flat_map (fun x => List.concat (f x)) l.
Proof.
  induction l as [|x l IH]; cbn [flat_map]; [reflexivity|].
  now rewrite concat_app, IH.
Qed.

Lemma flat_map_of_map {A B C} (f : B -> list C) (g : A -> B) (l : list A) :
  flat_map f (map g l) = flat_map (fun x => f (g x)) l.
Proof.
  induction l as [|x l IH]; cbn [map flat_map]; [reflexivity|].
  now rewrite IH.
Qed.

Lemma header_inj (short long : byte) (n n' : Z) (b b' : bytes) :
  short <> long -> 0 <= n < 2 ^ 32 -> 0 <= n' < 2 ^ 32 ->
  (if n <? 255 then short else long) :: length_field n ++ b
  = (if n' <? 255 then short else long) :: length_field n' ++ b' ->
  n = n' /\ b = b'.
Proof.
  intros Hm Hn Hn' H. injection H as Hmarker H.
  assert (Hl : List.length (length_field n) = List.length (length_field n')).
  { rewrite !length_length_field.
    destruct (n <? 255), (n' <? 255); congruence. }
  apply app_eq_length_inv in H; [|exact Hl]. destruct H as [Hf ->].
  split; [now apply length_field_inj | reflexivity].
Qed.

Lemma fixed_form_kind (data rest : bytes) :
  fixed_form data -> wire_kind_of (data ++ rest) = Some fixed_width.
Proof.
  intros (marker & payload & -> & Hin). cbn in Hin.
  repeat (destruct Hin as [[= <- _]|Hin]; [reflexivity|]). destruct Hin.
Qed.

Lemma prefixed_form_kind (data rest : bytes) :
  prefixed_form data -> wire_kind_of (data ++ rest) = Some length_prefix.
Proof.
  intros (short & long & payload & Hin & Hlen & ->).
  rewrite length_prefixed_joined by exact Hlen. cbn in Hin.
  repeat (destruct Hin as [[= <- <-]|Hin];
          [destruct (len payload <? 255); reflexivity|]).
  destruct Hin.
Qed.

Lemma fixed_form_prefix_free (data data' rest rest' : bytes) :
  fixed_form data -> fixed_form data' ->
  data ++ rest = data' ++ rest' -> rest = rest'.
Proof.
  intros (m & p & -> & Hin) (m' & p' & -> & Hin') H.
  cbn [app] in H. injection H as <- H.
  assert (Hl : List.length p = List.length p').
  { cbn in Hin, Hin'.
    repeat (destruct Hin as [Hin|Hin]; [injection Hin as <- <-|]);
      try (now destruct Hin);
      repeat (destruct Hin' as [Hin'|Hin'];
              [first [discriminate Hin' | now injection Hin']|]);
      now destruct Hin'. }
  now apply app_eq_length_inv in H.
Qed.

Lemma prefixed_form_prefix_free (data data' rest rest' : bytes) :
  prefixed_form data -> prefixed_form data' ->
  data ++ rest = data' ++ rest' -> rest = rest'.
Proof.
  intros (s & l & p & Hin & Hlen & ->) (s' & l' & p' & Hin' & Hlen' & ->) H.
  assert (Hsame : s = s' /\ l = l' /\ s <> l).
  { rewrite !length_prefixed_joined in H by assumption. cbn in Hin, Hin'.
    destruct Hin as [[= <- <-]|[[= <- <-]|[]]];
      destruct Hin' as [[= <- <-]|[[= <- <-]|[]]];
      try (repeat split; discriminate);
      destruct (len p <? 255), (len p' <? 255); discriminate H. }
  destruct Hsame as (<- & <- & Hne).
  now apply length_prefixed_self_delimiting in H.
Qed.

Section PrefixCode.

Variable float_unicode : float -> list codepoint.

Lemma encodable_normal (v : value) :
  encodable float_unicode v = true ->
  snd (iterencode float_unicode (__init__ None None) v) = None.
Proof. apply iterencode_snd_None. Qed.

Lemma encoded_number (n : Z) :
  snd (encode_number float_unicode n) = None ->
  fixed_form (joined (encode_number float_unicode n)) \/
  prefixed_form (joined (encode_number float_unicode n)).
Proof.
  intros Hs.
  destruct (encode_number_joined float_unicode n Hs) as [[E ->]|(E & L & ->)].
  - left. destruct (integer_form_marker n) as (m & -> & C).
    exists m, (big_endian (snd (integer_form n)) n).
    split; [reflexivity|]. rewrite length_big_endian. cbn.
    destruct C as [[-> ->]|[[-> ->]|[[-> ->]|[-> ->]]]]; tauto.
  - right. exists "h"%byte, "H"%byte, (utf8_encode (unicode_of_Z n)).
    split; [cbn; tauto|]. now split.
Qed.

Lemma encoded_float (x : float) :
  snd (encode_float float_unicode x) = None ->
  fixed_form (joined (encode_float float_unicode x)) \/
  prefixed_form (joined (encode_float float_unicode x)).
Proof.
  unfold encode_float. destruct (is_float x) eqn:Ef.
  - destruct (is_float_binary32_bits x Ef) as (s & m & e & _ & Hbits & _).
    unfold struct.pack_f. rewrite Hbits. intros _. left.
    eexists "d"%byte, _. split; [reflexivity|].
    rewrite app_nil_r, length_big_endian. cbn. tauto.
  - destruct (is_double x).
    { intros _. left. eexists "D"%byte, _. split; [reflexivity|].
      rewrite app_nil_r, length_big_endian. cbn. tauto. }
    destruct (is_infinity x).
    { intros _. left. exists "Z"%byte, []. split; [reflexivity | cbn; tauto]. }
    rewrite encode_huge_number_length_prefixed. intros Hs. right.
    apply length_prefixed_normal in Hs.
    exists "h"%byte, "H"%byte, (utf8_encode (unicode float_unicode (Float x))).
    split; [cbn; tauto|]. now split.
Qed.

(** The encodings of the values that hold no other values. *)
Lemma encoded_scalar (v : value) :
  encodable float_unicode v = true ->
  match v with
  | PySeq _ _ | PyIter _ _ | PyDict _ | PyItemsIter _ => True
  | _ =>
      fixed_form (encoded float_unicode v)
      \/ prefixed_form (encoded float_unicode v)
  end.
Proof.
  intros Hv. pose proof (encodable_normal v Hv) as Hs. revert Hs.
  unfold encoded. rewrite iterencode_eq, default_dispatch_resolved.
  destruct v as [| |[|]|n|n|x|s|text|k items|k items|items|items|cls bases id];
    cbn [default_dispatch call]; intros Hs; try exact I.
  - left. exists "N"%byte, []. split; [reflexivity | cbn; tauto].
  - left. exists "Z"%byte, []. split; [reflexivity | cbn; tauto].
  - left. exists "T"%byte, []. split; [reflexivity | cbn; tauto].
  - left. exists "F"%byte, []. split; [reflexivity | cbn; tauto].
  - now apply encoded_number.
  - now apply encoded_number.
  - now apply encoded_float.
  - right. rewrite encode_str_length_prefixed in *.
    apply length_prefixed_normal in Hs.
    exists "s"%byte, "S"%byte, (utf8_bytes s). split; [cbn; tauto|]. now split.
  - right. rewrite encode_huge_number_length_prefixed in *.
    apply length_prefixed_normal in Hs.
    exists "h"%byte, "H"%byte, (utf8_encode text). split; [cbn; tauto|].
    now split.
  - discriminate Hv.
Qed.

Lemma encoded_seq (k : seq_kind) (items : list value) :
  encodable float_unicode (PySeq k items) = true ->
  len items < 2 ^ 32 /\
  Forall (fun item => encodable float_unicode item = true) items /\
  encoded float_unicode (PySeq k items)
  = (if len items <? 255 then "a" else "A")%byte
    :: length_field (len items) ++ flat_map (encoded float_unicode) items.
Proof.
  intros H. cbn [encodable] in H. apply andb_true_iff in H.
  destruct H as [Hlen Hall]. apply Z.ltb_lt in Hlen.
  rewrite forallb_forall in Hall.
  split; [exact Hlen|]. split; [now apply Forall_forall|].
  unfold encoded at 1. rewrite iterencode_eq, default_dispatch_resolved.
  cbn [default_dispatch call].
  rewrite encode_array_normal;
    [|exact Hlen | intros item Hin; apply encodable_normal, Hall, Hin].
  unfold joined. cbn [fst]. rewrite concat_app, concat_flat_map.
  cbn [List.concat]. rewrite app_nil_r.
  destruct (len items <? 255); reflexivity.
Qed.

Lemma encoded_iter (k : iter_kind) (items : list value) :
  encodable float_unicode (PyIter k items) = true ->
  Forall (fun item => encodable float_unicode item = true) items /\
  encoded float_unicode (PyIter k items)
  = "a"%byte :: xff :: flat_map (encoded float_unicode) items ++ ["E"%byte].
Proof.
  intros H. cbn [encodable] in H. rewrite forallb_forall in H.
  split; [now apply Forall_forall|].
  unfold encoded at 1. rewrite iterencode_eq, default_dispatch_resolved.
  cbn [default_dispatch call].
  rewrite encode_generator_normal
    by (intros item Hin; apply encodable_normal, H, Hin).
  unfold joined. cbn [fst]. rewrite !concat_app, concat_flat_map.
  reflexivity.
Qed.

(** The keys and values of a dict in the order they are encoded. *)
Lemma flat_map_entries {B} (f : value -> list B) (items : list (value * value)) :
  flat_map (fun entry => f (fst entry) ++ f (snd entry)) items
  = flat_map f (flat_map (fun entry => [fst entry; snd entry]) items).
Proof.
  induction items as [|entry items IH]; cbn [flat_map app]; [reflexivity|].
  now rewrite IH, <- app_assoc.
Qed.

Lemma encoded_dict (items : list (value * value)) :
  encodable float_unicode (PyDict items) = true ->
  len items < 2 ^ 32 /\
  Forall (fun item => encodable float_unicode item = true)
    (flat_map (fun entry => [fst entry; snd entry]) items) /\
  encoded float_unicode (PyDict items)
  = (if len items <? 255 then "o" else "O")%byte
    :: length_field (len items)
    ++ flat_map (encoded float_unicode)
         (flat_map (fun entry => [fst entry; snd entry]) items).
Proof.
  intros H. cbn [encodable] in H. apply andb_true_iff in H.
  destruct H as [Hlen Hall]. apply Z.ltb_lt in Hlen.
  rewrite forallb_forall in Hall.
  assert (Hentry : forall entry, In entry items ->
            isinstance (fst entry) t_basestring = true /\
            encodable float_unicode (fst entry) = true /\
            encodable float_unicode (snd entry) = true).
  { intros entry Hin. specialize (Hall entry Hin).
    rewrite !andb_true_iff in Hall. tauto. }
  split; [exact Hlen|]. split.
  - apply Forall_forall. intros item Hin. apply in_flat_map in Hin.
    destruct Hin as (entry & Hin & [<-|[<-|[]]]); now apply Hentry.
  - unfold encoded at 1. rewrite iterencode_eq, default_dispatch_resolved.
    cbn [default_dispatch call].
    rewrite encode_dict_normal; [|exact Hlen|].
    + unfold joined. cbn [fst]. rewrite concat_app, concat_flat_map.
      cbn [List.concat]. rewrite app_nil_r, <- flat_map_entries.
      rewrite (flat_map_ext_in _
                 (fun entry =>
                    encoded float_unicode (fst entry)
                    ++ encoded float_unicode (snd entry)) items)
        by (intros entry _; apply concat_app).
      destruct (len items <? 255); reflexivity.
    + intros entry Hin. destruct (Hentry entry Hin) as (Hk & Hek & Hev).
      repeat split; [exact Hk | now apply encodable_normal ..].
Qed.

Lemma encoded_items_iter (items : list (value * value)) :
  encodable float_unicode (PyItemsIter items) = true ->
  Forall (fun item => encodable float_unicode item = true)
    (map (fun entry => PySeq k_tuple [fst entry; snd entry]) items) /\
  encoded float_unicode (PyItemsIter items)
  = "o"%byte :: xff
    :: flat_map (encoded float_unicode)
         (map (fun entry => PySeq k_tuple [fst entry; snd entry]) items)
    ++ ["E"%byte].
Proof.
  intros H. cbn [encodable] in H. rewrite forallb_forall in H.
  assert (Hentry : forall entry, In entry items ->
            isinstance (fst entry) t_basestring = true /\
            encodable float_unicode (PySeq k_tuple [fst entry; snd entry])
            = true).
  { intros entry Hin. specialize (H entry Hin).
    rewrite !andb_true_iff in H. destruct H as [[Hk Hek] Hev].
    split; [exact Hk|]. cbn [encodable forallb]. now rewrite Hek, Hev. }
  split.
  - apply Forall_forall. intros item Hin. apply in_map_iff in Hin.
    destruct Hin as (entry & <- & Hin). now apply Hentry.
  - unfold encoded at 1. rewrite iterencode_eq, default_dispatch_resolved.
    cbn [default_dispatch call].
    rewrite encode_iterated_dict_normal.
    + unfold joined. cbn [fst]. rewrite !concat_app, concat_flat_map.
      now rewrite flat_map_of_map.
    + intros entry Hin. destruct (Hentry entry Hin) as [Hk He].
      split; [exact Hk | now apply encodable_normal].
Qed.

(** What the first bytes of an encoding announce. *)
Lemma encoded_kind (v : value) (rest : bytes) :
  encodable float_unicode v = true ->
  match v with
  | PySeq _ _ =>
      wire_kind_of (encoded float_unicode v ++ rest) = Some sized_array
  | PyIter _ _ =>
      wire_kind_of (encoded float_unicode v ++ rest) = Some unsized_array
  | PyDict _ =>
      wire_kind_of (encoded float_unicode v ++ rest) = Some sized_object
  | PyItemsIter _ =>
      wire_kind_of (encoded float_unicode v ++ rest) = Some unsized_object
  | _ =>
      (wire_kind_of (encoded float_unicode v ++ rest) = Some fixed_width /\
       fixed_form (encoded float_unicode v)) \/
      (wire_kind_of (encoded float_unicode v ++ rest) = Some length_prefix /\
       prefixed_form (encoded float_unicode v))
  end.
Proof.
  intros Hv.
  pose proof (encoded_scalar v Hv) as Hscalar.
  destruct v as [| | | | | | | |k items|k items|items|items|cls bases id];
    try (destruct Hscalar as [H|H];
         [left; split; [now apply fixed_form_kind | exact H]
         |right; split; [now apply prefixed_form_kind | exact H]]).
  - destruct (encoded_seq k items Hv) as (Hlen & _ & ->).
    unfold length_field. destruct (Z.ltb_spec (len items) 255) as [Hlt|Hge];
      [|reflexivity].
    cbn [big_endian app wire_kind_of].
    pose proof (byte_of_Z_not_ff (len items)
                  (conj (len_nonneg items) Hlt)) as Hff.
    change (byte_of_Z (Z.shiftr (len items) (8 * Z.of_nat 0)))
      with (byte_of_Z (len items)).
    now destruct (byte_of_Z (len items)).
  - now destruct (encoded_iter k items Hv) as (_ & ->).
  - destruct (encoded_dict items Hv) as (Hlen & _ & ->).
    unfold length_field. destruct (Z.ltb_spec (len items) 255) as [Hlt|Hge];
      [|reflexivity].
    cbn [big_endian app wire_kind_of].
    pose proof (byte_of_Z_not_ff (len items)
                  (conj (len_nonneg items) Hlt)) as Hff.
    change (byte_of_Z (Z.shiftr (len items) (8 * Z.of_nat 0)))
      with (byte_of_Z (len items)).
    now destruct (byte_of_Z (len items)).
  - now destruct (encoded_items_iter items Hv) as (_ & ->).
Qed.

Lemma encoded_kind_Some (v : value) (rest : bytes) :
  encodable float_unicode v = true ->
  exists kind, wire_kind_of (encoded float_unicode v ++ rest) = Some kind.
Proof.
  intros Hv. pose proof (encoded_kind v rest Hv) as H.
  destruct v; try (destruct H as [[H _]|[H _]]); eauto.
Qed.

(** Items that are each the start of one encoding only are so together:
    the same number of them, encoded one after the other, leaves the same
    remainder. *)
Lemma items_prefix_free (xs ys : list value) (rest rest' : bytes) :
  Forall
    (fun x =>
       forall w r r',
         encodable float_unicode x = true ->
         encodable float_unicode w = true ->
         encoded float_unicode x ++ r = encoded float_unicode w ++ r' ->
         r = r') xs ->
  Forall (fun x => encodable float_unicode x = true) xs ->
  Forall (fun y => encodable float_unicode y = true) ys ->
  List.length xs = List.length ys ->
  flat_map (encoded float_unicode) xs ++ rest
  = flat_map (encoded float_unicode) ys ++ rest' ->
  rest = rest'.
Proof.
  intros HP. revert ys.
  induction HP as [|x xs Hx _ IH]; intros [|y ys] Hxs Hys Hl H;
    try discriminate Hl; [exact H|].
  inversion Hxs; subst. inversion Hys; subst. injection Hl as Hl.
  cbn [flat_map] in H. rewrite <- !app_assoc in H.
  apply Hx in H; [|assumption|assumption].
  now apply (IH ys).
Qed.

(** The same for items that run up to the end marker: no encoding begins
    with [E], so the two runs end together. *)
Lemma until_end_prefix_free (xs ys : list value) (rest rest' : bytes) :
  Forall
    (fun x =>
       forall w r r',
         encodable float_unicode x = true ->
         encodable float_unicode w = true ->
         encoded float_unicode x ++ r = encoded float_unicode w ++ r' ->
         r = r') xs ->
  Forall (fun x => encodable float_unicode x = true) xs ->
  Forall (fun y => encodable float_unicode y = true) ys ->
  (flat_map (encoded float_unicode) xs ++ ["E"%byte]) ++ rest
  = (flat_map (encoded float_unicode) ys ++ ["E"%byte]) ++ rest' ->
  rest = rest'.
Proof.
  intros HP. revert ys.
  induction HP as [|x xs Hx _ IH]; intros [|y ys] Hxs Hys H.
  - now injection H.
  - exfalso. inversion Hys; subst. cbn [flat_map] in H.
    rewrite <- !app_assoc in H.
    destruct (encoded_kind_Some y
                (flat_map (encoded float_unicode) ys ++ ["E"%byte] ++ rest'))
      as (kind & Hk); [assumption|].
    rewrite <- H in Hk. discriminate Hk.
  - exfalso. inversion Hxs; subst. cbn [flat_map] in H.
    rewrite <- !app_assoc in H.
    destruct (encoded_kind_Some x
                (flat_map (encoded float_unicode) xs ++ ["E"%byte] ++ rest))
      as (kind & Hk); [assumption|].
    rewrite H in Hk. discriminate Hk.
  - inversion Hxs; subst. inversion Hys; subst.
    cbn [flat_map] in H. rewrite <- !app_assoc in H.
    apply Hx in H; [|assumption|assumption].
    apply (IH ys); [assumption | assumption|].
    now rewrite <- !app_assoc.
Qed.

Lemma seq_prefix_free (k : seq_kind) (items : list value) :
  Forall
    (fun x =>
       forall w r r',
         encodable float_unicode x = true ->
         encodable float_unicode w = true ->
         encoded float_unicode x ++ r = encoded float_unicode w ++ r' ->
         r = r') items ->
  forall w r r',
    encodable float_unicode (PySeq k items) = true ->
    encodable float_unicode w = true ->
    encoded float_unicode (PySeq k items) ++ r = encoded float_unicode w ++ r' ->
    r = r'.
Proof.
  intros IH w r r' Hv Hw H.
  pose proof (encoded_kind (PySeq k items) r Hv) as Kv.
  pose proof (encoded_kind w r' Hw) as Kw. cbn beta iota in Kv.
  rewrite H in Kv.
  destruct w as [| | | | | | | |k' items'|k' items'|items'|items'|cls bases id];
    try (destruct Kw as [[Kw _]|[Kw _]]); try congruence.
  destruct (encoded_seq k items Hv) as (Hlen & Hall & E).
  destruct (encoded_seq k' items' Hw) as (Hlen' & Hall' & E').
  rewrite E, E' in H. cbn [app] in H. rewrite <- !app_assoc in H.
  apply header_inj in H;
    [|discriminate | split; [apply len_nonneg | exact Hlen]
     | split; [apply len_nonneg | exact Hlen']].
  destruct H as [Hn H].
  apply (items_prefix_free items items'); try assumption.
  unfold len in Hn. lia.
Qed.

Lemma encoded_prefix_free (v : value) :
  forall w r r',
    encodable float_unicode v = true ->
    encodable float_unicode w = true ->
    encoded float_unicode v ++ r = encoded float_unicode w ++ r' ->
    r = r'.
Proof.
  induction v as [| |b|n|n|x|s|text|k items IH|k items IH|items IH|items IH
                  |cls bases id] using value_ind_nested;
    try (intros w r r' Hv Hw H;
         match type of Hv with
         | encodable _ ?v = true =>
             pose proof (encoded_kind v r Hv) as Kv
         end;
         pose proof (encoded_kind w r' Hw) as Kw; cbn beta iota in Kv;
         rewrite H in Kv;
         destruct w
           as [| | | | | | | |k' items'|k' items'|items'|items'|cls' bases' id'];
         cbn beta iota in Kw;
         destruct Kv as [[Kv Fv]|[Kv Fv]];
         first [ congruence
               | destruct Kw as [[Kw Fw]|[Kw Fw]];
                 first [ congruence
                       | now apply (fixed_form_prefix_free _ _ _ _ Fv Fw)
                       | now apply (prefixed_form_prefix_free _ _ _ _ Fv Fw) ]
               ]).
  - now apply seq_prefix_free.
  - intros w r r' Hv Hw H.
    pose proof (encoded_kind (PyIter k items) r Hv) as Kv.
    pose proof (encoded_kind w r' Hw) as Kw. cbn beta iota in Kv.
    rewrite H in Kv.
    destruct w
      as [| | | | | | | |k' items'|k' items'|items'|items'|cls' bases' id'];
      try (destruct Kw as [[Kw _]|[Kw _]]); try congruence.
    destruct (encoded_iter k items Hv) as (Hall & E).
    destruct (encoded_iter k' items' Hw) as (Hall' & E').
    rewrite E, E' in H. cbn [app] in H. injection H as H.
    now apply (until_end_prefix_free items items').
  - intros w r r' Hv Hw H.
    pose proof (encoded_kind (PyDict items) r Hv) as Kv.
    pose proof (encoded_kind w r' Hw) as Kw. cbn beta iota in Kv.
    rewrite H in Kv.
    destruct w
      as [| | | | | | | |k' items'|k' items'|items'|items'|cls' bases' id'];
      try (destruct Kw as [[Kw _]|[Kw _]]); try congruence.
    destruct (encoded_dict items Hv) as (Hlen & Hall & E).
    destruct (encoded_dict items' Hw) as (Hlen' & Hall' & E').
    rewrite E, E' in H. cbn [app] in H. rewrite <- !app_assoc in H.
    apply header_inj in H;
      [|discriminate | split; [apply len_nonneg | exact Hlen]
       | split; [apply len_nonneg | exact Hlen']].
    destruct H as [Hn H].
    apply (items_prefix_free _ _ _ _) in H; try assumption.
    + apply Forall_forall. intros item Hin. apply in_flat_map in Hin.
      destruct Hin as (entry & Hin & Hitem). rewrite Forall_forall in IH.
      destruct (IH entry Hin) as [IHk IHv].
      destruct Hitem as [<-|[<-|[]]]; assumption.
    + rewrite !(flat_map_constant_length (c := 2%nat)) by reflexivity.
      unfold len in Hn. lia.
  - intros w r r' Hv Hw H.
    pose proof (encoded_kind (PyItemsIter items) r Hv) as Kv.
    pose proof (encoded_kind w r' Hw) as Kw. cbn beta iota in Kv.
    rewrite H in Kv.
    destruct w
      as [| | | | | | | |k' items'|k' items'|items'|items'|cls' bases' id'];
      try (destruct Kw as [[Kw _]|[Kw _]]); try congruence.
    destruct (encoded_items_iter items Hv) as (Hall & E).
    destruct (encoded_items_iter items' Hw) as (Hall' & E').
    rewrite E, E' in H. cbn [app] in H. injection H as H.
    apply (until_end_prefix_free _ _ _ _) in H; try assumption.
    apply Forall_forall. intros item Hin. apply in_map_iff in Hin.
    destruct Hin as (entry & <- & Hin). rewrite Forall_forall in IH.
    destruct (IH entry Hin) as [IHk IHv].
    apply seq_prefix_free. now repeat constructor.
Qed.

(** X18. What the encoder built without overrides and without a [default]
    function returns is a prefix code: when the encodings of two values,
    each followed by arbitrary bytes, give the same byte string, the two
    encodings are the same bytes and so are the remainders.  A stream of
    encoded values therefore splits into the values' encodings in one way
    only: the format is self-delimiting. *)
Theorem encode_prefix_free (v w : value) (data data' rest rest' : bytes) :
  encode float_unicode (__init__ None None) v = inr data ->
  encode float_unicode (__init__ None None) w = inr data' ->
  data ++ rest = data' ++ rest' ->
  data = data' /\ rest = rest'.
Proof.
  unfold encode. intros Hv Hw H.
  apply encode_outcome in Hv, Hw. destruct Hv as [Hv <-], Hw as [Hw <-].
  apply iterencode_snd_None in Hv, Hw.
  assert (Hrest : rest = rest')
    by exact (encoded_prefix_free v w rest rest' Hv Hw H).
  subst rest'. split; [|reflexivity]. now apply app_inv_tail in H.
Qed.

End PrefixCode.

(** ** Floats written as text *)

Lemma Prim2SF_2_23e_308 :
  Prim2SF 2.23e-308 = S754_finite false 4513570248753027 (-1074).
Proof. reflexivity. Qed.

(** The test [2.23e-308 <= abs(x)] on the parts of a double. *)
Lemma text_bound_spec (x : float) :
  (2.23e-308 <=? abs x)%float = false <->
  match Prim2SF x with
  | S754_nan | S754_zero _ => True
  | S754_infinity _ => False
  | S754_finite _ m e => e = -1074 /\ (m < 4513570248753027)%positive
  end.
Proof.
  rewrite leb_spec, abs_spec, Prim2SF_2_23e_308.
  pose proof (Prim2SF_valid x) as Hvalid.
  destruct (Prim2SF x) as [s|s| |s m e]; cbn [SFabs];
    try (clear Hvalid; split; [intros _; exact I | reflexivity]).
  - clear Hvalid. split; [discriminate | intros []].
  - apply bounded_binary64 in Hvalid. destruct Hvalid as (_ & [He _] & _).
    unfold SFleb, SFcompare.
    destruct (Z.compare_spec (-1074) e) as [<-|Hlt|Hgt].
    + rewrite Pos.compare_cont_spec. unfold Pos.switch_Eq.
      destruct (Pos.compare_spec 4513570248753027 m) as [<-|Hm|Hm].
      * split; [discriminate | intros [_ H]; now apply Pos.lt_irrefl in H].
      * split; [discriminate|]. intros [_ H].
        exfalso. apply (Pos.lt_irrefl m). now apply (Pos.lt_trans _ _ _ H).
      * split; [intros _; now split | reflexivity].
    + split; [discriminate | intros [-> _]; now apply Z.lt_irrefl in Hlt].
    + exfalso. clear - He Hgt. apply Z.lt_nge in Hgt. now apply Hgt.
Qed.

Lemma is_float_above_text_bound (x : float) :
  is_float x = true -> (2.23e-308 <=? abs x)%float = true.
Proof.
  intros H. destruct (is_float_finite x H) as (s & m & e & Hx & _ & He & _).
  destruct (2.23e-308 <=? abs x)%float eqn:E; [reflexivity|].
  apply text_bound_spec in E. rewrite Hx in E. destruct E as [-> _].
  exfalso. clear - He. now apply He.
Qed.

Section FloatText.

Variable float_unicode : float -> list codepoint.

(** X19. A float is written as text exactly when the comparison
    [2.23e-308 <= abs(x)] fails: for NaN, for the two zeros and for the
    magnitudes below [2.23e-308], among them the normal doubles between
    the least normal double and that bound.  Every other float takes a
    binary form: four bytes after d, eight bytes after D or, for the
    infinities that alone fail [abs(x) < 1.8e308], the marker Z. *)
Theorem encode_float_text_range (x : float) :
  ((2.23e-308 <=? abs x)%float = false <->
   match Prim2SF x with
   | S754_nan | S754_zero _ => True
   | S754_infinity _ => False
   | S754_finite _ m e => e = -1074 /\ (m < 4513570248753027)%positive
   end) /\
  ((2.23e-308 <=? abs x)%float = false ->
   encode_float float_unicode x
   = encode_huge_number float_unicode (Float x)) /\
  ((2.23e-308 <=? abs x)%float = true ->
   (exists payload,
      encode_float float_unicode x = ([MARKER_d; payload], None) /\
      List.length payload = 4%nat) \/
   (exists payload,
      encode_float float_unicode x = ([MARKER_D; payload], None) /\
      List.length payload = 8%nat) \/
   (is_infinity x = true /\
    encode_float float_unicode x = ([MARKER_Z], None))).
Proof.
  split; [apply text_bound_spec|]. split.
  - intros Hlo. unfold encode_float.
    destruct (is_float x) eqn:Ef;
      [apply is_float_above_text_bound in Ef; congruence|].
    unfold is_double. rewrite Hlo. cbn [andb].
    destruct (is_infinity x) eqn:Ei; [|reflexivity].
    exfalso. apply is_infinity_spec in Ei. destruct Ei as [s Hs].
    apply text_bound_spec in Hlo. now rewrite Hs in Hlo.
  - intros Hlo. unfold encode_float. destruct (is_float x) eqn:Ef.
    + left. destruct (is_float_binary32_bits x Ef) as (s & m & e & _ & Hb & _).
      unfold struct.pack_f. rewrite Hb. eexists. split; [reflexivity|].
      apply length_big_endian.
    + right. unfold is_double. rewrite Hlo. cbn [andb].
      destruct (abs x <? 1.8e308)%float eqn:Eup.
      * left. eexists. split; [reflexivity|]. apply length_big_endian.
      * right.
        assert (Ei : is_infinity x = true).
        { apply is_infinity_spec.
          destruct Prim2SF_infinities as (_ & _ & Hinf).
          rewrite ltb_spec, abs_spec, Hinf in Eup.
          assert (Hnot : (2.23e-308 <=? abs x)%float <> false) by congruence.
          rewrite text_bound_spec in Hnot.
          destruct (Prim2SF x) as [s|s| |s m e];
            [now destruct Hnot | now exists s | now destruct Hnot
            | discriminate Eup]. }
        rewrite Ei. now split.
Qed.

End FloatText.

(** ** The further properties at sample inputs *)

(** X1 at 300 followed by a zero byte. *)
Lemma encode_number_self_delimiting_witness :
  snd (encode_number float_unicode_example 300) = None /\
  joined (encode_number float_unicode_example 300) ++ [x00]
  = joined (encode_number float_unicode_example 300) ++ [x00] /\
  300 = 300 /\ [x00] = [x00].
Proof.
  assert (H : snd (encode_number float_unicode_example 300) = None)
    by reflexivity.
  split; [exact H|]. split; [reflexivity|].
  exact (encode_number_self_delimiting float_unicode_example 300 300
           [x00] [x00] H H eq_refl).
Defined.

(** X2 at the byte string ['hi'] and the unicode string [u'hi']. *)
Lemma encode_str_self_delimiting_witness :
  snd (encode_str (Str (list_byte_of_string "hi"))) = None /\
  snd (encode_str (Unicode [104; 105]%N)) = None /\
  joined (encode_str (Str (list_byte_of_string "hi"))) ++ []
  = joined (encode_str (Unicode [104; 105]%N)) ++ [] /\
  utf8_bytes (Str (list_byte_of_string "hi")) = utf8_bytes (Unicode [104; 105]%N) /\
  @nil byte = [].
Proof.
  assert (H : snd (encode_str (Str (list_byte_of_string "hi"))) = None)
    by reflexivity.
  assert (H' : snd (encode_str (Unicode [104; 105]%N)) = None) by reflexivity.
  split; [exact H|]. split; [exact H'|]. split; [reflexivity|].
  exact (encode_str_self_delimiting (Str (list_byte_of_string "hi"))
           (Unicode [104; 105]%N) [] [] H H' eq_refl).
Defined.

(** X5 at [5], on an encoder whose overrides replace the handler of
    [int]. *)
Lemma handler_for_exact_type_witness :
  PyInt 5 <> NOOP /\
  NoDup (map fst [(t_int, Some encode_as_null)]) /\
  In (type (PyInt 5), Some encode_as_null) [(t_int, Some encode_as_null)] /\
  get_handler (__init__ None (Some [(t_int, Some encode_as_null)])) (PyInt 5)
  = MethodType encode_as_null /\
  iterencode float_unicode_example
    (__init__ None (Some [(t_int, Some encode_as_null)])) (PyInt 5)
  = encode_as_null (PyInt 5).
Proof.
  assert (Hn : PyInt 5 <> NOOP) by discriminate.
  assert (Hnd : NoDup (map fst [(t_int, Some encode_as_null)]))
    by (repeat constructor; intros []).
  assert (Hin : In (type (PyInt 5), Some encode_as_null)
                  [(t_int, Some encode_as_null)]) by (now left).
  split; [exact Hn|]. split; [exact Hnd|]. split; [exact Hin|].
  exact (handler_for_exact_type float_unicode_example None
           [(t_int, Some encode_as_null)] (PyInt 5) encode_as_null Hn Hnd Hin).
Defined.

(** X6 at an instance of a user class, with a [default] that encodes
    whatever it is given as null. *)
Lemma default_handler_called_witness :
  PyObject "Foo" [] 1 <> NOOP /\
  (forall entry, In entry (_handlers (__init__ (Some encode_as_null) None)) ->
     isinstance (PyObject "Foo" [] 1) (fst entry) = false) /\
  get_handler (__init__ (Some encode_as_null) None) (PyObject "Foo" [] 1)
  = MethodType encode_as_null /\
  iterencode float_unicode_example (__init__ (Some encode_as_null) None)
    (PyObject "Foo" [] 1)
  = encode_as_null (PyObject "Foo" [] 1).
Proof.
  assert (Hn : PyObject "Foo" [] 1 <> NOOP) by discriminate.
  assert (Hnone : forall entry,
            In entry (_handlers (__init__ (Some encode_as_null) None)) ->
            isinstance (PyObject "Foo" [] 1) (fst entry) = false).
  { apply entries_forallb. reflexivity. }
  split; [exact Hn|]. split; [exact Hnone|].
  exact (default_handler_called float_unicode_example encode_as_null None
           (PyObject "Foo" [] 1) Hn Hnone).
Defined.

(** X7 at [1.5], on an encoder built with [handlers={float: None}]. *)
Lemma handler_None_disables_type_witness :
  PyFloat 1.5 <> NOOP /\
  NoDup (map fst [(t_float, @None (value -> result))]) /\
  In (type (PyFloat 1.5), None) [(t_float, @None (value -> result))] /\
  (forall k,
     In k (map fst [(t_float, @None (value -> result))])
     \/ In k (map fst default_handlers) ->
     isinstance (PyFloat 1.5) k = true -> k = type (PyFloat 1.5)) /\
  get_handler (__init__ None (Some [(t_float, None)])) (PyFloat 1.5)
  = encode_default_attr (__init__ None (Some [(t_float, None)])) /\
  iterencode float_unicode_example (__init__ None (Some [(t_float, None)]))
    (PyFloat 1.5)
  = raise (unable_to_encode (PyFloat 1.5)).
Proof.
  assert (Hn : PyFloat 1.5 <> NOOP) by discriminate.
  assert (Hnd : NoDup (map fst [(t_float, @None (value -> result))]))
    by (repeat constructor; intros []).
  assert (Hin : In (type (PyFloat 1.5), None)
                  [(t_float, @None (value -> result))]) by (now left).
  assert (Honly : forall k,
            In k (map fst [(t_float, @None (value -> result))])
            \/ In k (map fst default_handlers) ->
            isinstance (PyFloat 1.5) k = true -> k = type (PyFloat 1.5)).
  { intros k Hk Hinst. cbn in Hk.
    repeat match goal with
           | H : _ \/ _ |- _ => destruct H as [H|H]
           | H : False |- _ => destruct H
           | H : _ = k |- _ =>
               subst k; first [reflexivity | discriminate Hinst]
           end. }
  split; [exact Hn|]. split; [exact Hnd|]. split; [exact Hin|].
  split; [exact Honly|].
  exact (handler_None_disables_type float_unicode_example None
           [(t_float, None)] (PyFloat 1.5) Hn Hnd Hin Honly).
Defined.

(** X8 at the tuple [(1, 2)], on an encoder built with
    [handlers={tuple: None}]. *)
Lemma encode_default_formats_tuple_witness :
  NoDup (map fst [(t_tuple, @None (value -> result))]) /\
  In (t_tuple, None) [(t_tuple, @None (value -> result))] /\
  ~ In t_object (map fst [(t_tuple, @None (value -> result))]) /\
  encode float_unicode_example (__init__ None (Some [(t_tuple, None)]))
    (PySeq k_tuple [PyInt 1; PyInt 2])
  = inl (TypeError
           [Lit "not all arguments converted during string formatting"]).
Proof.
  assert (Hnd : NoDup (map fst [(t_tuple, @None (value -> result))]))
    by (repeat constructor; intros []).
  assert (Hin : In (t_tuple, None) [(t_tuple, @None (value -> result))])
    by (now left).
  assert (Hobj : ~ In t_object (map fst [(t_tuple, @None (value -> result))]))
    by (intros [H|[]]; discriminate H).
  split; [exact Hnd|]. split; [exact Hin|]. split; [exact Hobj|].
  exact (encode_default_formats_tuple float_unicode_example
           [(t_tuple, None)] [PyInt 1; PyInt 2] Hnd Hin Hobj).
Defined.

(** X9 at a float, on an encoder whose overrides replace the handler of
    [int]. *)
Lemma overrides_are_local_witness :
  (forall k, In k (map fst [(t_int, Some encode_as_null)]) ->
     isinstance (PyFloat 1.5) k = false) /\
  get_handler (__init__ None (Some [(t_int, Some encode_as_null)])) (PyFloat 1.5)
  = get_handler (__init__ None None) (PyFloat 1.5).
Proof.
  assert (H : forall k, In k (map fst [(t_int, Some encode_as_null)]) ->
            isinstance (PyFloat 1.5) k = false).
  { intros k [<-|[]]. reflexivity. }
  split; [exact H|].
  exact (overrides_are_local None [(t_int, Some encode_as_null)]
           (PyFloat 1.5) H).
Defined.

(** X10 at an instance of [Bar], a class derived from [Foo], on an encoder
    built with a handler for [Foo]. *)
Lemma get_handler_unique_match_witness :
  bar_instance <> NOOP /\
  NoDup (map fst (_handlers
                    (__init__ None (Some [(t_class "Foo", Some encode_as_null)])))) /\
  In (t_class "Foo", Some (MethodType encode_as_null))
    (_handlers (__init__ None (Some [(t_class "Foo", Some encode_as_null)]))) /\
  isinstance bar_instance (t_class "Foo") = true /\
  (forall k',
     In k' (map fst (_handlers
                       (__init__ None
                          (Some [(t_class "Foo", Some encode_as_null)])))) ->
     isinstance bar_instance k' = true -> k' = t_class "Foo") /\
  get_handler (__init__ None (Some [(t_class "Foo", Some encode_as_null)]))
    bar_instance
  = MethodType encode_as_null.
Proof.
  assert (Hn : bar_instance <> NOOP) by discriminate.
  assert (Hnd : NoDup (map fst (_handlers
                  (__init__ None (Some [(t_class "Foo", Some encode_as_null)])))))
    by apply init_NoDup.
  assert (Hin : In (t_class "Foo", Some (MethodType encode_as_null))
                  (_handlers
                     (__init__ None
                        (Some [(t_class "Foo", Some encode_as_null)]))))
    by (do 17 right; now left).
  assert (Hinst : isinstance bar_instance (t_class "Foo") = true)
    by reflexivity.
  assert (Honly : forall k',
            In k' (map fst (_handlers
                              (__init__ None
                                 (Some [(t_class "Foo", Some encode_as_null)])))) ->
            isinstance bar_instance k' = true -> k' = t_class "Foo").
  { intros k Hk Hi. cbn in Hk.
    repeat match goal with
           | H : _ \/ _ |- _ => destruct H as [H|H]
           | H : False |- _ => destruct H
           | H : _ = k |- _ => subst k; first [reflexivity | discriminate Hi]
           end. }
  split; [exact Hn|]. split; [exact Hnd|]. split; [exact Hin|].
  split; [exact Hinst|]. split; [exact Honly|].
  exact (get_handler_unique_match
           (__init__ None (Some [(t_class "Foo", Some encode_as_null)]))
           bar_instance (t_class "Foo") (MethodType encode_as_null)
           Hn Hnd Hin Hinst Honly).
Defined.

(** X11 at the list [[1, Foo(), 3]], default encoder. *)
Lemma encode_array_item_error_witness :
  get_handler (__init__ None None)
    (PySeq k_list ([PyInt 1] ++ PyObject "Foo" [] 1 :: [PyInt 3]))
  = self_encode_array /\
  len ([PyInt 1] ++ PyObject "Foo" [] 1 :: [PyInt 3]) < 2 ^ 32 /\
  (forall earlier, In earlier [PyInt 1] ->
     snd (iterencode float_unicode_example (__init__ None None) earlier)
     = None) /\
  snd (iterencode float_unicode_example (__init__ None None)
         (PyObject "Foo" [] 1))
  = Some (unable_to_encode (PyObject "Foo" [] 1)) /\
  iterencode float_unicode_example (__init__ None None)
    (PySeq k_list ([PyInt 1] ++ PyObject "Foo" [] 1 :: [PyInt 3]))
  = ([MARKER_a; [x03]; MARKER_B; [x01]],
     Some (unable_to_encode (PyObject "Foo" [] 1))) /\
  encode float_unicode_example (__init__ None None)
    (PySeq k_list ([PyInt 1] ++ PyObject "Foo" [] 1 :: [PyInt 3]))
  = inl (unable_to_encode (PyObject "Foo" [] 1)) /\
  forall output,
    encode_to float_unicode_example (__init__ None None)
      (PySeq k_list ([PyInt 1] ++ PyObject "Foo" [] 1 :: [PyInt 3])) output
    = (output ++ [MARKER_a; [x03]; MARKER_B; [x01]],
       Some (unable_to_encode (PyObject "Foo" [] 1))).
Proof.
  assert (Hpre : forall earlier, In earlier [PyInt 1] ->
            snd (iterencode float_unicode_example (__init__ None None) earlier)
            = None) by (intros earlier [<-|[]]; reflexivity).
  split; [reflexivity|]. split; [reflexivity|]. split; [exact Hpre|].
  split; [reflexivity|].
  exact (encode_array_item_error float_unicode_example (__init__ None None)
           k_list [PyInt 1] [PyInt 3] (PyObject "Foo" [] 1)
           (unable_to_encode (PyObject "Foo" [] 1))
           eq_refl eq_refl Hpre eq_refl).
Defined.

(** X12 at a generator that yields [1], [Foo()], [3], default encoder. *)
Lemma encode_generator_item_error_witness :
  get_handler (__init__ None None)
    (PyIter k_generator ([PyInt 1] ++ PyObject "Foo" [] 1 :: [PyInt 3]))
  = self_encode_generator /\
  (forall earlier, In earlier [PyInt 1] ->
     snd (iterencode float_unicode_example (__init__ None None) earlier)
     = None) /\
  snd (iterencode float_unicode_example (__init__ None None)
         (PyObject "Foo" [] 1))
  = Some (unable_to_encode (PyObject "Foo" [] 1)) /\
  iterencode float_unicode_example (__init__ None None)
    (PyIter k_generator ([PyInt 1] ++ PyObject "Foo" [] 1 :: [PyInt 3]))
  = ([MARKER_a; MARKER_FF; MARKER_B; [x01]],
     Some (unable_to_encode (PyObject "Foo" [] 1))) /\
  encode float_unicode_example (__init__ None None)
    (PyIter k_generator ([PyInt 1] ++ PyObject "Foo" [] 1 :: [PyInt 3]))
  = inl (unable_to_encode (PyObject "Foo" [] 1)) /\
  forall output,
    encode_to float_unicode_example (__init__ None None)
      (PyIter k_generator ([PyInt 1] ++ PyObject "Foo" [] 1 :: [PyInt 3]))
      output
    = (output ++ [MARKER_a; MARKER_FF; MARKER_B; [x01]],
       Some (unable_to_encode (PyObject "Foo" [] 1))).
Proof.
  assert (Hpre : forall earlier, In earlier [PyInt 1] ->
            snd (iterencode float_unicode_example (__init__ None None) earlier)
            = None) by (intros earlier [<-|[]]; reflexivity).
  split; [reflexivity|]. split; [exact Hpre|]. split; [reflexivity|].
  exact (encode_generator_item_error float_unicode_example (__init__ None None)
           k_generator [PyInt 1] [PyInt 3] (PyObject "Foo" [] 1)
           (unable_to_encode (PyObject "Foo" [] 1))
           eq_refl Hpre eq_refl).
Defined.

(** X13 at the dict [{'a': Foo()}], default encoder. *)
Lemma encode_dict_value_error_witness :
  get_handler (__init__ None None)
    (PyDict ([] ++ (py_str "a", PyObject "Foo" [] 1) :: []))
  = self_encode_dict /\
  len ([] ++ (py_str "a", PyObject "Foo" [] 1) :: []) < 2 ^ 32 /\
  isinstance (py_str "a") t_basestring = true /\
  snd (iterencode float_unicode_example (__init__ None None) (py_str "a"))
  = None /\
  snd (iterencode float_unicode_example (__init__ None None)
         (PyObject "Foo" [] 1))
  = Some (unable_to_encode (PyObject "Foo" [] 1)) /\
  iterencode float_unicode_example (__init__ None None)
    (PyDict ([] ++ (py_str "a", PyObject "Foo" [] 1) :: []))
  = ([MARKER_o; [x01]; MARKER_s; [x01]; ["a"%byte]],
     Some (unable_to_encode (PyObject "Foo" [] 1))) /\
  encode float_unicode_example (__init__ None None)
    (PyDict ([] ++ (py_str "a", PyObject "Foo" [] 1) :: []))
  = inl (unable_to_encode (PyObject "Foo" [] 1)).
Proof.
  assert (Hpre : forall earlier : value * value, In earlier [] ->
            isinstance (fst earlier) t_basestring = true /\
            snd (iterencode float_unicode_example (__init__ None None)
                   (fst earlier)) = None /\
            snd (iterencode float_unicode_example (__init__ None None)
                   (snd earlier)) = None) by (intros earlier []).
  split; [reflexivity|]. split; [reflexivity|]. split; [reflexivity|].
  split; [reflexivity|]. split; [reflexivity|].
  exact (encode_dict_value_error float_unicode_example (__init__ None None)
           [] [] (py_str "a") (PyObject "Foo" [] 1)
           (unable_to_encode (PyObject "Foo" [] 1))
           eq_refl eq_refl Hpre eq_refl eq_refl eq_refl).
Defined.

(** X16 at [5]. *)
Lemma encode_begins_with_marker_witness :
  encode float_unicode_example (__init__ None None) (PyInt 5)
  = inr ["B"; x05]%byte /\
  exists marker rest,
    ["B"; x05]%byte = marker :: rest /\ In marker value_markers.
Proof.
  split; [reflexivity|].
  exact (encode_begins_with_marker float_unicode_example (PyInt 5)
           ["B"; x05]%byte eq_refl).
Defined.

(** X17 at 1.5. *)
Lemma encode_float_single_nearest_witness :
  is_float 1.5 = true /\
  exists s m e q,
    Prim2SF 1.5 = S754_finite s m e /\
    encode_float float_unicode_example 1.5
    = ([MARKER_d;
        big_endian 4 (sign_bit s 31 + ((e + 178) * 2 ^ 23 + q))], None) /\
    2 ^ 23 <= q <= 2 ^ 24 /\ 0 <= e + 178 <= 253 /\
    2 * Z.abs (q * 2 ^ 29 - Z.pos m) <= 2 ^ 29 /\
    (2 * Z.abs (q * 2 ^ 29 - Z.pos m) = 2 ^ 29 -> Z.even q = true).
Proof.
  assert (H : is_float 1.5 = true) by reflexivity.
  split; [exact H|].
  exact (encode_float_single_nearest float_unicode_example 1.5 H).
Defined.

(** X18 at the int [5] and the long [5], each followed by a zero byte. *)
Lemma encode_prefix_free_witness :
  encode float_unicode_example (__init__ None None) (PyInt 5)
  = inr ["B"; x05]%byte /\
  encode float_unicode_example (__init__ None None) (PyLong 5)
  = inr ["B"; x05]%byte /\
  ["B"; x05]%byte ++ [x00] = ["B"; x05]%byte ++ [x00] /\
  ["B"; x05]%byte = ["B"; x05]%byte /\ [x00] = [x00].
Proof.
  split; [reflexivity|]. split; [reflexivity|]. split; [reflexivity|].
  exact (encode_prefix_free float_unicode_example (PyInt 5) (PyLong 5)
           ["B"; x05]%byte ["B"; x05]%byte [x00] [x00]
           eq_refl eq_refl eq_refl).
Defined.

(** X19 at zero, which is written as text, and at 1e-300, which takes the
    double form. *)
Lemma encode_float_text_range_witness :
  ((2.23e-308 <=? abs 0)%float = false /\
   encode_float float_unicode_example 0
   = encode_huge_number float_unicode_example (Float 0)) /\
  ((2.23e-308 <=? abs 1e-300)%float = true /\
   ((exists payload,
       encode_float float_unicode_example 1e-300 = ([MARKER_d; payload], None) /\
       List.length payload = 4%nat) \/
    (exists payload,
       encode_float float_unicode_example 1e-300 = ([MARKER_D; payload], None) /\
       List.length payload = 8%nat) \/
    (is_infinity 1e-300 = true /\
     encode_float float_unicode_example 1e-300 = ([MARKER_Z], None)))).
Proof.
  split.
  - assert (H : (2.23e-308 <=? abs 0)%float = false) by reflexivity.
    split; [exact H|].
    exact (proj1 (proj2 (encode_float_text_range float_unicode_example 0)) H).
  - assert (H : (2.23e-308 <=? abs 1e-300)%float = true) by reflexivity.
    split; [exact H|].
    exact (proj2 (proj2 (encode_float_text_range float_unicode_example 1e-300))
             H).
Defined.
